(** * The Firecracker driver: monitor, domain helpers and lifecycle entry points

    A shallow embedding of [src/fc/fc_monitor.c], [src/fc/fc_domain.c] and
    [src/fc/fc_driver.c].  C functions that talk to the outside (libcurl, the
    file system, the child process) become computations in a state monad over
    a [World]: the domain object they mutate and the trace of everything that
    crossed the boundary, in the order it happened.  What the outside answers
    is an [Env]: for every kind of call, a function of the trace so far and
    of the call's arguments.

    Every driver entry point starts by checking its [flags], looking the
    domain up by UUID and asking the access-control layer; these three steps
    return before the domain object is touched.  The entry points below are
    embedded from the point where the domain object has been found.
    Debug logging, the driver and domain locks and the release of libcurl
    handles leave no event.

    The file has three parts: the embedding with the definitions the
    statements use, then the lemmas and the theorems about the claims C1 to
    C10 of the specification, then further properties of the code. *)

From Stdlib Require Import ZArith List String Ascii Bool Lia DecimalString.
Import ListNotations.
Local Open Scope string_scope.
Local Open Scope Z_scope.

(** ** C integers *)

Definition INT_MIN : Z := -2147483648.
Definition INT_MAX : Z := 2147483647.

(** Conversion of a [long] to an [int] (two's complement wrap-around), as it
    happens at the [return response_code;] of [virFCJsonActionExec]. *)
Definition int_of_long (z : Z) : Z := (z + 2 ^ 31) mod 2 ^ 32 - 2 ^ 31.

Definition int_range (z : Z) : Prop := INT_MIN <= z <= INT_MAX.

(** [printf]'s [%d]. *)
Definition fmt_d (z : Z) : string := NilZero.string_of_int (Z.to_int z).

(** [printf]'s [%s]: glibc prints a NULL pointer as [(null)]. *)
Definition fmt_s (s : option string) : string :=
  match s with Some x => x | None => "(null)" end.

(** ** Data model *)

(** Modelled from the spec: the declaration of [virDomainState] is in the
    public header, which is not among the sources; the lifecycle state is
    "one of {NOSTATE, RUNNING, PAUSED, SHUTOFF}". *)
Inductive virDomainState : Type :=
| VIR_DOMAIN_NOSTATE
| VIR_DOMAIN_RUNNING
| VIR_DOMAIN_PAUSED
| VIR_DOMAIN_SHUTOFF.

Definition virDomainState_eqb (a b : virDomainState) : bool :=
  match a, b with
  | VIR_DOMAIN_NOSTATE, VIR_DOMAIN_NOSTATE
  | VIR_DOMAIN_RUNNING, VIR_DOMAIN_RUNNING
  | VIR_DOMAIN_PAUSED, VIR_DOMAIN_PAUSED
  | VIR_DOMAIN_SHUTOFF, VIR_DOMAIN_SHUTOFF => true
  | _, _ => false
  end.

(** Reasons passed to [virDomainObjSetState] by the driver. *)
Inductive virDomainReason : Type :=
| REASON_0
| VIR_DOMAIN_RUNNING_BOOTED
| VIR_DOMAIN_RUNNING_UNPAUSED
| VIR_DOMAIN_PAUSED_USER
| VIR_DOMAIN_SHUTOFF_UNKNOWN
| VIR_DOMAIN_SHUTOFF_SHUTDOWN
| VIR_DOMAIN_SHUTOFF_DESTROYED.

(** The error numbers the three files report. *)
Inductive virErrorNumber : Type :=
| VIR_ERR_INTERNAL_ERROR
| VIR_ERR_OPERATION_INVALID
| VIR_ERR_OPERATION_FAILED
| VIR_ERR_CONFIG_UNSUPPORTED
| VIR_ERR_PARSE_FAILED
| VIR_ERR_INVALID_ARG
| VIR_ERR_XML_DETAIL
| VIR_ERR_XML_INVALID_SCHEMA
| VIR_ERR_SYSTEM_ERROR.

(** One [virReportError]: the error number and the message format of the
    call site, as written in the source. *)
Record virError : Type := mkError {
  err_code : virErrorNumber;
  err_msg : string
}.

(** JSON values, as far as the monitor builds and inspects them. *)
#[warnings="-register-all"]
Inductive virJSONValue : Type :=
| VIR_JSON_OBJECT (pairs : list (string * virJSONValue))
| VIR_JSON_STRING (s : string)
| VIR_JSON_NUMBER (n : Z)
| VIR_JSON_BOOLEAN (b : bool)
| VIR_JSON_NULL.

Inductive virDomainChrDeviceType : Type :=
| VIR_DOMAIN_CHR_DEVICE_TYPE_PARALLEL
| VIR_DOMAIN_CHR_DEVICE_TYPE_SERIAL
| VIR_DOMAIN_CHR_DEVICE_TYPE_CONSOLE
| VIR_DOMAIN_CHR_DEVICE_TYPE_CHANNEL.

Inductive virDomainChrType : Type :=
| VIR_DOMAIN_CHR_TYPE_NULL
| VIR_DOMAIN_CHR_TYPE_PTY
| VIR_DOMAIN_CHR_TYPE_FILE
| VIR_DOMAIN_CHR_TYPE_UNIX.

Record virDomainChrDef : Type := mkChr {
  deviceType : virDomainChrDeviceType;
  source_type : virDomainChrType;
  target_port : Z
}.

Record virDomainDiskDef : Type := mkDisk {
  src_path : option string;
  dst : string
}.

Record virDomainNetDef : Type := mkNet {
  ifname : option string;
  ifname_guest : option string;
  mac : string
}.

Record virDomainDef : Type := mkDef {
  name : string;
  id : Z;
  emulator : option string;
  mem_initial : Z;
  maxvcpus : Z;
  os_kernel : option string;
  os_cmdline : option string;
  os_root : option string;
  disks : list virDomainDiskDef;
  nets : list virDomainNetDef;
  serials : list virDomainChrDef;
  parallels : list virDomainChrDef;
  consoles : list virDomainChrDef;
  channels : list virDomainChrDef
}.

Definition ndisks (d : virDomainDef) : nat := List.length (disks d).
Definition nserials (d : virDomainDef) : nat := List.length (serials d).
Definition nparallels (d : virDomainDef) : nat := List.length (parallels d).
Definition nconsoles (d : virDomainDef) : nat := List.length (consoles d).
Definition nchannels (d : virDomainDef) : nat := List.length (channels d).

(** The [virCommand] the driver builds for the firecracker process. *)
Record virCommand : Type := mkCommand {
  cmd_binary : option string;
  cmd_args : list string;
  cmd_umask : Z;
  cmd_infd : option Z;
  cmd_outfd : option Z;
  cmd_errfd : option Z;
  cmd_pid : Z
}.

(** [struct _virFCDomainObjPrivate] of fc_domain.h. *)
Record virFCDomainObjPrivate : Type := mkPrivate {
  console_pty_path : option string;
  vm_dir : option string;
  socketpath : option string;
  fc_process : option virCommand
}.

Record virDomainObj : Type := mkObj {
  def : virDomainDef;
  state : virDomainState;
  reason : virDomainReason;
  persistent : bool;
  privateData : virFCDomainObjPrivate
}.

(** [struct _virFCDriverConfig] of fc_conf.h. *)
Record virFCDriverConfig : Type := mkConfig {
  stateDir : string
}.

(** ** The boundary: requests, answers, events *)

(** What [curl_easy_setopt] has put on a handle when it is performed.  The
    body is kept as the JSON value; [virJSONValueToString] only prints it. *)
Record CurlHandle : Type := mkHandle {
  CURLOPT_UNIX_SOCKET_PATH : option string;
  CURLOPT_URL : string;
  CURLOPT_CUSTOMREQUEST : option string;
  CURLOPT_HTTPHEADER : list string;
  CURLOPT_POSTFIELDS : option virJSONValue;
  CURLOPT_WRITEDATA : bool
}.

(** What libcurl answers: the code of [curl_easy_perform], the code of
    [curl_easy_getinfo], the [long] it stores as the response code, and the
    bytes given to the write callback. *)
Record CurlReply : Type := mkReply {
  perform_err : Z;
  getinfo_err : Z;
  response_code : Z;
  received : string
}.

Definition CURLE_OK : Z := 0.

Inductive Event : Type :=
| EvCurl (h : CurlHandle) (r : CurlReply)
| EvReportError (e : virError)
| EvFileDeleteTree (path : option string) (rc : Z)
| EvMkdirWithParents (path : option string) (mode : Z) (rc : Z)
| EvOpen (path : string) (fd : Z)
| EvOpenpty (rc : Z) (primaryFD secondaryFD : Z) (ptyname : string)
| EvCommandRunAsync (cmd : virCommand) (rc : Z) (pid : Z)
| EvFileExists (path : option string) (b : bool)
| EvTimeBackOffStart (first timeout : Z) (rc : Z)
| EvTimeBackOffWait (b : bool)
| EvFileUpdatePerm (path : option string) (rc : Z)
| EvCommandAbort (cmd : option virCommand)
| EvCommandWait (cmd : option virCommand) (rc : Z)
| EvCommandFree (cmd : option virCommand)
| EvRemove (path : option string) (rc : Z)
| EvDomainObjListRemove
| EvFDStreamOpenPTY (path : option string) (rc : Z).

(** The outside world.  Each field answers one kind of call, given the trace
    so far.  [backoff_rounds] is the number of times [virTimeBackOffWait]
    answers true before its deadline has passed. *)
Record Env : Type := mkEnv {
  curl_easy_perform : list Event -> CurlHandle -> CurlReply;
  virJSONValueFromString : string -> option virJSONValue;
  virFileDeleteTree : list Event -> option string -> Z;
  g_mkdir_with_parents : list Event -> option string -> Z;
  c_open : list Event -> string -> Z;
  openpty : list Event -> Z * (Z * Z) * string;
  virCommandRunAsync : list Event -> virCommand -> Z * Z;
  virFileExists : list Event -> option string -> bool;
  virTimeBackOffStart : list Event -> Z;
  backoff_rounds : list Event -> nat;
  virFileUpdatePerm : list Event -> option string -> Z;
  virCommandWait : list Event -> option virCommand -> Z;
  g_remove : list Event -> option string -> Z;
  virFDStreamOpenPTY : list Event -> option string -> Z;
  g_find_program_in_path : string -> option string
}.

Record World : Type := mkWorld {
  w_vm : virDomainObj;
  w_trace : list Event
}.

(** ** The monad *)

Definition M (A : Type) : Type := World -> A * World.

Definition ret {A : Type} (a : A) : M A := fun w => (a, w).

Definition bind {A B : Type} (m : M A) (f : A -> M B) : M B :=
  fun w => let (a, w') := m w in f a w'.

Declare Scope fc_scope.
Delimit Scope fc_scope with fc.
Notation "x <- m ;; k" := (bind m (fun x => k))
  (at level 61, m at next level, right associativity) : fc_scope.
Notation "m ;; k" := (bind m (fun _ => k))
  (at level 61, right associativity) : fc_scope.
Local Open Scope fc_scope.

(** Record an event. *)
Definition emit (e : Event) : M unit :=
  fun w => (tt, mkWorld (w_vm w) (w_trace w ++ [e])).

(** Ask the outside: the answer depends on the trace so far; the event
    built from the answer is recorded. *)
Definition ask {A : Type} (answer : list Event -> A) (ev : A -> Event) : M A :=
  fun w => let a := answer (w_trace w) in
           (a, mkWorld (w_vm w) (w_trace w ++ [ev a])).

Definition get_vm : M virDomainObj := fun w => (w_vm w, w).

Definition set_vm (vm : virDomainObj) : M unit :=
  fun w => (tt, mkWorld vm (w_trace w)).

Definition virReportError (code : virErrorNumber) (msg : string) : M unit :=
  emit (EvReportError (mkError code msg)).

(** The events a computation adds to the trace. *)
Definition events_of {A : Type} (m : M A) (w : World) : list Event :=
  skipn (List.length (w_trace w)) (w_trace (snd (m w))).

(** ** Helpers of libvirt's util and conf directories *)

Definition STREQ (a b : string) : bool := String.eqb a b.
Definition STRNEQ (a b : string) : bool := negb (String.eqb a b).

(** Modelled from the spec: [virJSONValueObjectGetString] of virjson.c, which
    is not among the sources.  The spec calls a response malformed when it is
    "unparseable or state-key-missing": the lookup gives the string stored
    under the key of an object, and nothing for another kind of value, a
    missing key or a value that is not a string. *)
Fixpoint virJSONValueObjectGet_pairs (pairs : list (string * virJSONValue))
    (key : string) : option virJSONValue :=
  match pairs with
  | [] => None
  | (k, v) :: rest =>
      if STREQ k key then Some v else virJSONValueObjectGet_pairs rest key
  end.

Definition virJSONValueObjectGetString (object : virJSONValue) (key : string)
    : option string :=
  match object with
  | VIR_JSON_OBJECT pairs =>
      match virJSONValueObjectGet_pairs pairs key with
      | Some (VIR_JSON_STRING s) => Some s
      | _ => None
      end
  | _ => None
  end.

(** Modelled from the spec: the [virJSONValueObjectAppend...] family of
    virjson.c; payloads are "structured key/value objects", built by adding
    one pair after the other.  A NULL C string is kept as JSON null. *)
Definition virJSONValueNewObject : list (string * virJSONValue) := [].

Definition virJSONValueObjectAppendString (obj : list (string * virJSONValue))
    (key : string) (value : option string) : list (string * virJSONValue) :=
  obj ++ [(key, match value with
                | Some s => VIR_JSON_STRING s
                | None => VIR_JSON_NULL
                end)].

Definition virJSONValueObjectAppendBoolean (obj : list (string * virJSONValue))
    (key : string) (value : bool) : list (string * virJSONValue) :=
  obj ++ [(key, VIR_JSON_BOOLEAN value)].

Definition virJSONValueObjectAppendNumberInt (obj : list (string * virJSONValue))
    (key : string) (value : Z) : list (string * virJSONValue) :=
  obj ++ [(key, VIR_JSON_NUMBER value)].

(** Modelled from the spec: [virDomainObjSetState] of domain_conf.c, which is
    not among the sources; the runtime object holds the "lifecycle state ...
    plus a reason code for the last transition". *)
Definition virDomainObjSetState (s : virDomainState) (r : virDomainReason)
    : M unit :=
  fun w =>
    let vm := w_vm w in
    (tt, mkWorld (mkObj (def vm) s r (persistent vm) (privateData vm))
                 (w_trace w)).

Definition virDomainObjGetState : M virDomainState :=
  fun w => (state (w_vm w), w).

(** Modelled from the spec: [virDomainObjIsActive] of domain_conf.h, which is
    not among the sources; the active id is "set on successful start and
    cleared to a sentinel on stop", the sentinel being the [-1] the driver
    writes into [vm->def->id]. *)
Definition virDomainObjIsActive (vm : virDomainObj) : bool :=
  negb (id (def vm) =? -1).

Definition with_id (d : virDomainDef) (v : Z) : virDomainDef :=
  mkDef (name d) v (emulator d) (mem_initial d) (maxvcpus d) (os_kernel d)
        (os_cmdline d) (os_root d) (disks d) (nets d) (serials d)
        (parallels d) (consoles d) (channels d).

(** [vm->def->id = v]. *)
Definition set_id (v : Z) : M unit :=
  fun w =>
    let vm := w_vm w in
    (tt, mkWorld (mkObj (with_id (def vm) v) (state vm) (reason vm)
                        (persistent vm) (privateData vm))
                 (w_trace w)).

Definition set_private (p : virFCDomainObjPrivate) : M unit :=
  fun w =>
    let vm := w_vm w in
    (tt, mkWorld (mkObj (def vm) (state vm) (reason vm) (persistent vm) p)
                 (w_trace w)).

Definition get_private : M virFCDomainObjPrivate :=
  fun w => (privateData (w_vm w), w).

(** ** fc_monitor.c *)

Definition URL_ROOT : string := "http://localhost".
Definition URL_CONFIG_PREBOOT : string := "machine-config".
Definition URL_CONFIG_KERNEL : string := "boot-source".
Definition URL_CONFIG_DISK : string := "drives".
Definition URL_CONFIG_NETWORK : string := "network-interfaces".
Definition URL_ACTIONS : string := "actions".
Definition URL_VM : string := "vm".

Definition json_headers : list string :=
  ["Accept: application/json"; "Content-Type: application/json"].

Definition isSuccessCode (response_code : Z) : bool :=
  (response_code =? 200) || (response_code =? 204).

Section Monitor.

Variable env : Env.

Definition fcInstanceInfoToDomainState (httpResponse : string)
    : M virDomainState :=
  match virJSONValueFromString env httpResponse with
  | None =>
      virReportError VIR_ERR_PARSE_FAILED
        "Failed to parse http response as json";;
      ret VIR_DOMAIN_NOSTATE
  | Some jsonObj =>
      match virJSONValueObjectGetString jsonObj "state" with
      | None =>
          virReportError VIR_ERR_PARSE_FAILED
            "Failed to parse key-value pair in json for finding the vm state";;
          ret VIR_DOMAIN_NOSTATE
      | Some state =>
          if STREQ state "Running" then ret VIR_DOMAIN_RUNNING
          else if STREQ state "Paused" then ret VIR_DOMAIN_PAUSED
          else if STREQ state "Not started" then ret VIR_DOMAIN_SHUTOFF
          else
            virReportError VIR_ERR_INTERNAL_ERROR
              "Could not find the state of the vm";;
            ret VIR_DOMAIN_NOSTATE
      end
  end.

(** Returns the response code (or -1) together with what the write
    callback has collected while the transfer ran. *)
Definition virFCMonitorCurlExec (handle : CurlHandle) : M (Z * string) :=
  reply <- ask (fun t => curl_easy_perform env t handle) (EvCurl handle);;
  if negb (perform_err reply =? CURLE_OK) then
    virReportError VIR_ERR_INTERNAL_ERROR
      "curl_easy_perform() returned an error: %s (%d)";;
    ret (-1, received reply)
  else if negb (getinfo_err reply =? CURLE_OK) then
    virReportError VIR_ERR_INTERNAL_ERROR
      "curl_easy_getinfo(CURLINFO_RESPONSE_CODE) returned an error: %s (%d)";;
    ret (-1, received reply)
  else if response_code reply <? 0 then
    virReportError VIR_ERR_INTERNAL_ERROR
      "curl_easy_getinfo(CURLINFO_RESPONSE_CODE) returned a negative response code";;
    ret (-1, received reply)
  else ret (response_code reply, received reply).

Definition virFCJsonActionExec (unix_path : option string)
    (url_endpoint http_action : string)
    (jsonObj : list (string * virJSONValue)) : M Z :=
  let url := URL_ROOT ++ "/" ++ url_endpoint in
  r <- virFCMonitorCurlExec
         (mkHandle unix_path url (Some http_action) json_headers
                   (Some (VIR_JSON_OBJECT jsonObj)) false);;
  ret (int_of_long (fst r)).

Definition virFCMonitorSetConfig (socketpath : option string)
    (hyper_threading : bool) (vmdef : virDomainDef) : M Z :=
  let jsonObj := virJSONValueNewObject in
  let mem_mb := int_of_long (mem_initial vmdef / 1024) in
  let maxvcpus := int_of_long (maxvcpus vmdef) in
  let jsonObj := virJSONValueObjectAppendBoolean jsonObj "ht_enabled" hyper_threading in
  let jsonObj := virJSONValueObjectAppendNumberInt jsonObj "mem_size_mib" mem_mb in
  let jsonObj := virJSONValueObjectAppendNumberInt jsonObj "vcpu_count" maxvcpus in
  response_code <- virFCJsonActionExec socketpath URL_CONFIG_PREBOOT "PUT" jsonObj;;
  if isSuccessCode response_code then ret 0 else ret (-1).

Definition virFCMonitorSetKernel (socketpath : option string)
    (kernel_path kernel_cmdline : option string) : M Z :=
  let jsonObj := virJSONValueNewObject in
  let jsonObj := virJSONValueObjectAppendString jsonObj "kernel_image_path" kernel_path in
  let jsonObj := virJSONValueObjectAppendString jsonObj "boot_args" kernel_cmdline in
  response_code <- virFCJsonActionExec socketpath URL_CONFIG_KERNEL "PUT" jsonObj;;
  if isSuccessCode response_code then ret 0 else ret (-1).

Definition virFCMonitorSetDisk (socketpath : option string)
    (drive_id : string) (disk_path_host : option string)
    (is_root_device is_read_only : bool) : M Z :=
  let jsonObj := virJSONValueNewObject in
  let url := "/" ++ URL_CONFIG_DISK ++ "/" ++ drive_id in
  let jsonObj := virJSONValueObjectAppendString jsonObj "drive_id" (Some drive_id) in
  let jsonObj := virJSONValueObjectAppendString jsonObj "path_on_host" disk_path_host in
  let jsonObj := virJSONValueObjectAppendBoolean jsonObj "is_root_device" is_root_device in
  let jsonObj := virJSONValueObjectAppendBoolean jsonObj "is_read_only" is_read_only in
  response_code <- virFCJsonActionExec socketpath url "PUT" jsonObj;;
  if isSuccessCode response_code then ret 0 else ret (-1).

Definition virFCMonitorStartVM (socketpath : option string) : M Z :=
  let jsonObj := virJSONValueNewObject in
  let jsonObj := virJSONValueObjectAppendString jsonObj "action_type" (Some "InstanceStart") in
  response_code <- virFCJsonActionExec socketpath URL_ACTIONS "PUT" jsonObj;;
  if isSuccessCode response_code then ret 0 else ret (-1).

Definition virFCMonitorShutdownVM (socketpath : option string) : M Z :=
  let jsonObj := virJSONValueNewObject in
  let jsonObj := virJSONValueObjectAppendString jsonObj "action_type" (Some "SendCtrlAltDel") in
  response_code <- virFCJsonActionExec socketpath URL_ACTIONS "PUT" jsonObj;;
  if isSuccessCode response_code then ret 0 else ret (-1).

Definition virFCMonitorChangeState (socketpath : option string)
    (state : string) : M Z :=
  let jsonObj := virJSONValueNewObject in
  if STRNEQ state "Paused" && STRNEQ state "Resumed" then
    virReportError VIR_ERR_INVALID_ARG
      "Domain can not transition into invalid state '%s'";;
    ret (-1)
  else
    let jsonObj := virJSONValueObjectAppendString jsonObj "state" (Some state) in
    response_code <- virFCJsonActionExec socketpath URL_VM "PATCH" jsonObj;;
    if isSuccessCode response_code then ret 0 else ret (-1).

Definition virFCMonitorSetNetwork (socketpath : option string)
    (iface_id : string) (guest_mac host_dev_name : option string)
    (allow_mmds_requests : bool) : M Z :=
  let jsonObj := virJSONValueNewObject in
  let url := "/" ++ URL_CONFIG_NETWORK ++ "/" ++ iface_id in
  let jsonObj := virJSONValueObjectAppendBoolean jsonObj "allow_mmds_requests" allow_mmds_requests in
  let jsonObj := virJSONValueObjectAppendString jsonObj "guest_mac" guest_mac in
  let jsonObj := virJSONValueObjectAppendString jsonObj "host_dev_name" host_dev_name in
  let jsonObj := virJSONValueObjectAppendString jsonObj "iface_id" (Some iface_id) in
  response_code <- virFCJsonActionExec socketpath url "PUT" jsonObj;;
  if isSuccessCode response_code then ret 0 else ret (-1).

Definition virFCMonitorGetStatus (socketpath : option string)
    : M virDomainState :=
  let url := URL_ROOT ++ "/" in
  r <- virFCMonitorCurlExec
         (mkHandle socketpath url None json_headers None true);;
  if negb (isSuccessCode (fst r)) then ret VIR_DOMAIN_NOSTATE
  else fcInstanceInfoToDomainState (snd r).

End Monitor.

(** ** fc_domain.c *)

Definition MAX_PTY_NAME_LENGTH : nat := 256.
Definition MAX_SECONDS_WAITING_UPDATE : Z := 10.
Definition FC_CMD : string := "firecracker".

Fixpoint g_strnfill (n : nat) (c : ascii) : string :=
  match n with
  | O => EmptyString
  | S k => String c (g_strnfill k c)
  end.

(** The [for] loop of [getRootFSDiskDevice] over [def->disks]. *)
Fixpoint getRootFSDiskDevice_loop (root : string)
    (ds : list virDomainDiskDef) : option virDomainDiskDef :=
  match ds with
  | [] => None
  | d :: rest =>
      if STREQ root (dst d) then Some d
      else getRootFSDiskDevice_loop root rest
  end.

Definition getRootFSDiskDevice (d : virDomainDef) : option virDomainDiskDef :=
  match os_root d with
  | None => None
  | Some root => getRootFSDiskDevice_loop root (disks d)
  end.

(** Modelled from the spec: [virStringIsEmpty] of virstring.c, which is not
    among the sources; the kernel path and the root name are "non-empty",
    and the source's messages add "or only whitespaces". *)
Definition c_isspace (c : ascii) : bool :=
  let n := nat_of_ascii c in
  (Nat.eqb n 32) || (Nat.eqb n 9) || (Nat.eqb n 10) || (Nat.eqb n 12)
  || (Nat.eqb n 13).

Fixpoint only_spaces (s : string) : bool :=
  match s with
  | EmptyString => true
  | String c rest => c_isspace c && only_spaces rest
  end.

Definition virStringIsEmpty (s : option string) : bool :=
  match s with
  | None => true
  | Some x => only_spaces x
  end.

(** Modelled from the spec: [virXMLCheckIllegalChars] of virxml.c, which is
    not among the sources; the name has "no newline characters". *)
Fixpoint contains_char (c : ascii) (s : string) : bool :=
  match s with
  | EmptyString => false
  | String x rest => Ascii.eqb x c || contains_char c rest
  end.

Definition newline : ascii := ascii_of_nat 10.

Definition with_emulator (d : virDomainDef) (e : option string) : virDomainDef :=
  mkDef (name d) (id d) e (mem_initial d) (maxvcpus d) (os_kernel d)
        (os_cmdline d) (os_root d) (disks d) (nets d) (serials d)
        (parallels d) (consoles d) (channels d).

(** The post-parse callback: the return code, the definition as the
    callback leaves it, and the error it has reported, if any. *)
Definition virFCDomainDefPostParseBasic (env : Env) (d : virDomainDef)
    : Z * virDomainDef * option virError :=
  if contains_char newline (name d) then
    (-1, d, Some (mkError VIR_ERR_XML_DETAIL "invalid char in name"))
  else
    let found :=
      match emulator d with
      | Some e => Some e
      | None => g_find_program_in_path env FC_CMD
      end in
    match found with
    | None =>
        (-1, d, Some (mkError VIR_ERR_CONFIG_UNSUPPORTED
                              "No emulator found for firecracker"))
    | Some e =>
        let d := with_emulator d (Some e) in
        if virStringIsEmpty (os_kernel d) then
          (-1, d, Some (mkError VIR_ERR_XML_INVALID_SCHEMA
             "Kernel image path not existent or there are only whitespaces"))
        else if virStringIsEmpty (os_root d) then
          (-1, d, Some (mkError VIR_ERR_XML_DETAIL
             "Missing root tag in the os description that specifies logical device name for the rootfs (or only whitespaces)"))
        else if (0 <? nparallels d)%nat then
          (-1, d, Some (mkError VIR_ERR_XML_DETAIL
             "Firecracker doesn't support parallel devices"))
        else if (0 <? nconsoles d)%nat then
          (-1, d, Some (mkError VIR_ERR_XML_DETAIL
             "Firecracker doesn't support console devices. A serial device can be configured instead."))
        else if (0 <? nchannels d)%nat then
          (-1, d, Some (mkError VIR_ERR_XML_DETAIL
             "Firecracker doesn't support channel devices"))
        else if (1 <? nserials d)%nat then
          (-1, d, Some (mkError VIR_ERR_XML_DETAIL
             "Firecracker supports maximum one serial device"))
        else
          let serial_error :=
            match serials d with
            | [s0] =>
                match deviceType s0 with
                | VIR_DOMAIN_CHR_DEVICE_TYPE_SERIAL =>
                    match source_type s0 with
                    | VIR_DOMAIN_CHR_TYPE_PTY => None
                    | _ => Some (mkError VIR_ERR_XML_DETAIL
                             "The type of the serial device needs to be a pseudo terminal ('pty')")
                    end
                | _ => Some (mkError VIR_ERR_XML_DETAIL
                         "For character devices, Firecracker supports only serial")
                end
            | _ => None
            end in
          match serial_error with
          | Some e => (-1, d, Some e)
          | None =>
              match getRootFSDiskDevice d with
              | None =>
                  (-1, d, Some (mkError VIR_ERR_XML_DETAIL
                                  "There is no disk device with target '%s'"))
              | Some _ => (0, d, None)
              end
          end
    end.

(** [vm->def->nserials > 0] selects [vm->def->serials[0]]: the head of the
    list when there is one. *)
Definition fcAddAdditionalCmdlineArgs (vm : virDomainObj) : string :=
  let cmdline :=
    match os_cmdline (def vm) with Some s => s | None => "" end in
  match serials (def vm) with
  | s0 :: _ => cmdline ++ " console=ttyS" ++ fmt_d (target_port s0)
  | [] => cmdline
  end.

Section Domain.

Variable env : Env.

Definition fcPopulatePrivateData (driver : virFCDriverConfig) : M unit :=
  vm <- get_vm;;
  p <- get_private;;
  let dir := stateDir driver ++ "/" ++ name (def vm) in
  set_private (mkPrivate (console_pty_path p) (Some dir)
                         (Some (dir ++ "/firecracker-lv.socket"))
                         (fc_process p)).

(** The [while (virTimeBackOffWait(&timeout))] loop; [rounds] is how often
    the wait still answers true. *)
Fixpoint fcWaitUntilExists_loop (rounds : nat) (path : option string)
    (exists_ : bool) : M bool :=
  match rounds with
  | O => emit (EvTimeBackOffWait false);; ret exists_
  | S k =>
      emit (EvTimeBackOffWait true);;
      e <- ask (fun t => virFileExists env t path) (EvFileExists path);;
      if e then ret true else fcWaitUntilExists_loop k path e
  end.

Definition fcWaitUntilExists (path : option string) : M Z :=
  let seconds := MAX_SECONDS_WAITING_UPDATE in
  exists_ <- ask (fun t => virFileExists env t path) (EvFileExists path);;
  rc <- ask (virTimeBackOffStart env)
            (EvTimeBackOffStart 1 (seconds * 1000));;
  if rc <? 0 then
    virReportError VIR_ERR_INTERNAL_ERROR
      "virTimeBackOffStart() returned negative value";;
    ret (-1)
  else
    rounds <- (fun w => (backoff_rounds env (w_trace w), w));;
    exists_ <- fcWaitUntilExists_loop rounds path exists_;;
    ret (if exists_ : bool then 0 else -1).

Definition fcUpdateState : M Z :=
  vmPrivateData <- get_private;;
  domainState <- virFCMonitorGetStatus env (socketpath vmPrivateData);;
  virDomainObjSetState domainState REASON_0;;
  if virDomainState_eqb domainState VIR_DOMAIN_NOSTATE then ret (-1)
  else ret 0.

Definition set_console_pty_path (path : option string) : M unit :=
  p <- get_private;;
  set_private (mkPrivate path (vm_dir p) (socketpath p) (fc_process p)).

Definition set_fc_process (cmd : option virCommand) : M unit :=
  p <- get_private;;
  set_private (mkPrivate (console_pty_path p) (vm_dir p) (socketpath p) cmd).

(** The [error:] label of [fcStartVMProcess]. *)
Definition fcStartVMProcess_error (cmd : option virCommand) : M Z :=
  set_id (-1);;
  emit (EvCommandAbort cmd);;
  set_fc_process None;;
  ret (-1).

(** [fcStartVMProcess] from [virCommandRunAsync] on. *)
Definition fcStartVMProcess_launch (cmd : virCommand) : M Z :=
  vmPrivateData <- get_private;;
  r <- ask (fun t => virCommandRunAsync env t cmd)
           (fun r => EvCommandRunAsync cmd (fst r) (snd r));;
  if fst r <? 0 then
    virReportError VIR_ERR_INTERNAL_ERROR
      "virCommandRunAsync() returned a negative response code";;
    fcStartVMProcess_error (Some cmd)
  else
    let fc_pid := snd r in
    let cmd := mkCommand (cmd_binary cmd) (cmd_args cmd) (cmd_umask cmd)
                         (cmd_infd cmd) (cmd_outfd cmd) (cmd_errfd cmd)
                         fc_pid in
    rc <- fcWaitUntilExists (socketpath vmPrivateData);;
    if rc <? 0 then
      virReportError VIR_ERR_INTERNAL_ERROR
        "Socket file for the vm couldn't be verified to exist";;
      fcStartVMProcess_error (Some cmd)
    else
      rc <- ask (fun t => virFileUpdatePerm env t (socketpath vmPrivateData))
                (EvFileUpdatePerm (socketpath vmPrivateData));;
      (if rc <? 0 then
         virReportError VIR_ERR_INTERNAL_ERROR
           "cannot modify permissions for the socket"
       else ret tt);;
      set_id fc_pid;;
      set_fc_process (Some cmd);;
      ret 0.

Definition fcStartVMProcess : M Z :=
  vm <- get_vm;;
  vmPrivateData <- get_private;;
  let out_err_file := fmt_s (vm_dir vmPrivateData) ++ "/fc_err.log" in
  let out_std_file := fmt_s (vm_dir vmPrivateData) ++ "/fc_std.log" in
  let open_serial_console := (0 <? nserials (def vm))%nat in
  let args :=
    "--api-sock" ::
    match socketpath vmPrivateData with Some s => [s] | None => [] end in
  fc_errfd <- ask (fun t => c_open env t out_err_file) (EvOpen out_err_file);;
  if fc_errfd <? 0 then
    virReportError VIR_ERR_INTERNAL_ERROR
      "Failed to open() the file for stderr output: %d, (%s)";;
    fcStartVMProcess_error None
  else if open_serial_console then
    r <- ask (openpty env)
             (fun r => EvOpenpty (fst (fst r)) (fst (snd (fst r)))
                                 (snd (snd (fst r))) (snd r));;
    let primaryFD := fst (snd (fst r)) in
    if fst (fst r) <? 0 then
      set_console_pty_path (Some (g_strnfill MAX_PTY_NAME_LENGTH " "%char));;
      virReportError VIR_ERR_INTERNAL_ERROR
        "Couldn't create PTY for console access";;
      fcStartVMProcess_error None
    else
      set_console_pty_path (Some (snd r));;
      fcStartVMProcess_launch
        (mkCommand (emulator (def vm)) args 2 (Some primaryFD)
                   (Some primaryFD) (Some fc_errfd) (-1))
  else
    set_console_pty_path None;;
    fc_stdfd <- ask (fun t => c_open env t out_std_file) (EvOpen out_std_file);;
    if fc_stdfd <? 0 then
      virReportError VIR_ERR_INTERNAL_ERROR
        "Failed to open() the file for stdout output: %d, (%s)";;
      fcStartVMProcess_error
        (Some (mkCommand (emulator (def vm)) args 2 None None None (-1)))
    else
      fcStartVMProcess_launch
        (mkCommand (emulator (def vm)) args 2 None (Some fc_stdfd)
                   (Some fc_errfd) (-1)).

Definition fcConfigAndStartVM : M Z :=
  vm <- get_vm;;
  vmPrivateData <- get_private;;
  let computed_cmdline := fcAddAdditionalCmdlineArgs vm in
  rc <- virFCMonitorSetKernel env (socketpath vmPrivateData)
          (os_kernel (def vm)) (Some computed_cmdline);;
  if rc <? 0 then
    virReportError VIR_ERR_INTERNAL_ERROR
      "Firecracker API call failed setting kernel and cmdline";;
    ret (-1)
  else
    match getRootFSDiskDevice (def vm) with
    | None =>
        virReportError VIR_ERR_CONFIG_UNSUPPORTED
          "Did not find a disk device with target destination '%s'";;
        ret (-1)
    | Some root_device =>
        rc <- virFCMonitorSetDisk env (socketpath vmPrivateData) "rootfs"
                (src_path root_device) true false;;
        if rc <? 0 then
          virReportError VIR_ERR_INTERNAL_ERROR
            "Firecracker API call failed setting rootfs";;
          ret (-1)
        else
          rc <- virFCMonitorStartVM env (socketpath vmPrivateData);;
          if rc <? 0 then
            virReportError VIR_ERR_INTERNAL_ERROR
              "Firecracker API call failed starting the vm";;
            ret (-1)
          else ret 0
    end.

Definition fcStopVM (reason : virDomainReason) : M Z :=
  vmPrivateData <- get_private;;
  rc <- virFCMonitorShutdownVM env (socketpath vmPrivateData);;
  if rc <? 0 then
    virReportError VIR_ERR_OPERATION_FAILED
      "Firecracker API call failed or received an error for Shutting down the vm";;
    ret (-1)
  else
    virDomainObjSetState VIR_DOMAIN_SHUTOFF reason;;
    set_id (-1);;
    ret 0.

End Domain.

(** ** fc_driver.c *)

(** Modelled from the spec: [virDomainObjCheckActive] of domain_conf.c, which
    is not among the sources; a guard on the active marker that fails with a
    precondition error when the guest is not backed by a process. *)
Definition virDomainObjCheckActive : M Z :=
  vm <- get_vm;;
  if virDomainObjIsActive vm then ret 0
  else
    virReportError VIR_ERR_OPERATION_INVALID "domain is not running";;
    ret (-1).

Section Driver.

Variable env : Env.

Definition fcDeleteVMDir : M Z :=
  p <- get_private;;
  let vm_directory := vm_dir p in
  rc <- ask (fun t => virFileDeleteTree env t vm_directory)
            (EvFileDeleteTree vm_directory);;
  if rc <? 0 then
    virReportError VIR_ERR_INTERNAL_ERROR "Could not delete directory: %s";;
    ret (-1)
  else ret 0.

Definition fcCreateVMDir : M Z :=
  p <- get_private;;
  let vm_directory := vm_dir p in
  rc <- ask (fun t => g_mkdir_with_parents env t vm_directory)
            (EvMkdirWithParents vm_directory 511);;
  if rc <? 0 then
    virReportError VIR_ERR_SYSTEM_ERROR "Cannot create vm directory: '%s'";;
    ret (-1)
  else ret 0.

Definition fcRecreateVMDir : M Z :=
  rc <- fcDeleteVMDir;;
  if rc <? 0 then ret (-1)
  else
    rc <- fcCreateVMDir;;
    if rc <? 0 then ret (-1) else ret 0.

Definition fcFirecrackerCleanup : M Z :=
  vmPrivateData <- get_private;;
  rc <- ask (fun t => g_remove env t (socketpath vmPrivateData))
            (EvRemove (socketpath vmPrivateData));;
  if rc <? 0 then ret (-1) else ret 0.

Definition fcDomainOpenConsole : M Z :=
  vm <- get_vm;;
  vmPrivateData <- get_private;;
  rc <- virDomainObjCheckActive;;
  if rc <? 0 then ret (-1)
  else if (nconsoles (def vm) <? 1)%nat then
    virReportError VIR_ERR_OPERATION_INVALID
      "Domain '%s' didn't boot with a serial console";;
    ret (-1)
  else
    rc <- ask (fun t => virFDStreamOpenPTY env t
                          (console_pty_path vmPrivateData))
              (EvFDStreamOpenPTY (console_pty_path vmPrivateData));;
    if rc <? 0 then ret (-1) else ret 0.

Definition fcDomainGetState : M (Z * virDomainState) :=
  rc <- fcUpdateState env;;
  (if rc <? 0 then
     virDomainObjSetState VIR_DOMAIN_SHUTOFF VIR_DOMAIN_SHUTOFF_UNKNOWN
   else ret tt);;
  s <- virDomainObjGetState;;
  ret (0, s).

(** [fcDomainCreateWithFlags] up to its [goto]: true when the flow reaches
    [ret = 0; goto cleanup;], false when it jumps to [error]. *)
Definition fcDomainCreateWithFlags_body (driver : virFCDriverConfig)
    : M bool :=
  vm <- get_vm;;
  if virDomainObjIsActive vm then
    virReportError VIR_ERR_OPERATION_INVALID "Domain is already running";;
    ret false
  else
    fcPopulatePrivateData driver;;
    rc <- fcRecreateVMDir;;
    if rc <? 0 then
      virReportError VIR_ERR_INTERNAL_ERROR
        "Couldn't create vm directory: %s";;
      ret false
    else
      rc <- fcStartVMProcess env;;
      if rc <? 0 then ret false
      else
        rc <- fcConfigAndStartVM env;;
        if rc <? 0 then
          virReportError VIR_ERR_INTERNAL_ERROR "Failed starting the vm";;
          ret false
        else
          virDomainObjSetState VIR_DOMAIN_RUNNING VIR_DOMAIN_RUNNING_BOOTED;;
          ret true.

Definition fcDomainCreateWithFlags (driver : virFCDriverConfig) : M Z :=
  ok <- fcDomainCreateWithFlags_body driver;;
  if ok : bool then ret 0
  else
    set_id (-1);;
    vmPrivateData <- get_private;;
    emit (EvCommandAbort (fc_process vmPrivateData));;
    fcDeleteVMDir;;
    ret (-1).

Definition fcDomainShutdownFlags : M Z :=
  vmState <- virDomainObjGetState;;
  rc <- fcUpdateState env;;
  if (rc <? 0) && negb (virDomainState_eqb vmState VIR_DOMAIN_SHUTOFF) then
    virReportError VIR_ERR_INTERNAL_ERROR
      "Failed to refresh the state of vm";;
    ret (-1)
  else
    s <- virDomainObjGetState;;
    if negb (virDomainState_eqb s VIR_DOMAIN_RUNNING) then
      virReportError VIR_ERR_OPERATION_INVALID
        "Domain is not in running state";;
      ret (-1)
    else
      rc <- fcStopVM env VIR_DOMAIN_SHUTOFF_SHUTDOWN;;
      if rc <? 0 then ret (-1)
      else
        vm <- get_vm;;
        (if negb (persistent vm) then emit EvDomainObjListRemove
         else ret tt);;
        vmPrivateData <- get_private;;
        rc <- ask (fun t => virCommandWait env t (fc_process vmPrivateData))
                  (EvCommandWait (fc_process vmPrivateData));;
        if rc <? 0 then
          virReportError VIR_ERR_INTERNAL_ERROR
            "Error waiting for child firecracker process to be reaped";;
          ret (-1)
        else
          emit (EvCommandFree (fc_process vmPrivateData));;
          fcFirecrackerCleanup;;
          set_fc_process None;;
          ret 0.

Definition fcDomainDestroyFlags (graceful : bool) : M Z :=
  if graceful then fcDomainShutdownFlags
  else
    vmPrivateData <- get_private;;
    s <- virDomainObjGetState;;
    if negb (virDomainState_eqb s VIR_DOMAIN_RUNNING) then
      virReportError VIR_ERR_OPERATION_INVALID "Domain is not running";;
      ret (-1)
    else
      emit (EvCommandAbort (fc_process vmPrivateData));;
      fcFirecrackerCleanup;;
      set_id (-1);;
      virDomainObjSetState VIR_DOMAIN_SHUTOFF VIR_DOMAIN_SHUTOFF_DESTROYED;;
      ret 0.

Definition fcDomainSuspend : M Z :=
  rc <- fcUpdateState env;;
  if rc <? 0 then
    virReportError VIR_ERR_INTERNAL_ERROR
      "Failed to refresh the state of vm";;
    ret (-1)
  else
    s <- virDomainObjGetState;;
    if negb (virDomainState_eqb s VIR_DOMAIN_RUNNING) then
      virReportError VIR_ERR_OPERATION_INVALID
        "Domain is not in running state";;
      ret (-1)
    else
      vmPrivateData <- get_private;;
      rc <- virFCMonitorChangeState env (socketpath vmPrivateData) "Paused";;
      if rc <? 0 then
        virReportError VIR_ERR_INTERNAL_ERROR
          "Firecracker API call failed to suspend VM";;
        ret (-1)
      else
        virDomainObjSetState VIR_DOMAIN_PAUSED VIR_DOMAIN_PAUSED_USER;;
        ret 0.

Definition fcDomainResume : M Z :=
  rc <- fcUpdateState env;;
  if rc <? 0 then
    virReportError VIR_ERR_INTERNAL_ERROR
      "Failed to refresh the state of vm";;
    ret (-1)
  else
    s <- virDomainObjGetState;;
    if negb (virDomainState_eqb s VIR_DOMAIN_PAUSED) then
      virReportError VIR_ERR_OPERATION_INVALID
        "Domain is not in paused state";;
      ret (-1)
    else
      vmPrivateData <- get_private;;
      rc <- virFCMonitorChangeState env (socketpath vmPrivateData) "Resumed";;
      if rc <? 0 then
        virReportError VIR_ERR_INTERNAL_ERROR
          "Firecracker API call failed to resume VM";;
        ret (-1)
      else
        virDomainObjSetState VIR_DOMAIN_RUNNING VIR_DOMAIN_RUNNING_UNPAUSED;;
        ret 0.

End Driver.

(** ** Observations on traces *)

Definition curl_requests (t : list Event) : list CurlHandle :=
  flat_map (fun e => match e with EvCurl h _ => [h] | _ => [] end) t.

Definition curl_urls (t : list Event) : list string :=
  map CURLOPT_URL (curl_requests t).

Definition reported_errors (t : list Event) : list virError :=
  flat_map (fun e => match e with EvReportError x => [x] | _ => [] end) t.

(** The last error reported along a trace: what [virGetLastError] shows the
    caller once the operation has returned. *)
Definition last_reported (t : list Event) : option virError :=
  match rev (reported_errors t) with
  | e :: _ => Some e
  | [] => None
  end.

(** The processes started: command, return code and pid of every
    [virCommandRunAsync]. *)
Definition launches (t : list Event) : list (virCommand * Z * Z) :=
  flat_map (fun e => match e with
                     | EvCommandRunAsync c rc pid => [(c, rc, pid)]
                     | _ => []
                     end) t.

(** The events of [t] contain the events of [s], in the order of [s]. *)
Inductive in_order : list Event -> list Event -> Prop :=
| in_order_nil : forall t, in_order [] t
| in_order_take : forall e s t, in_order s t -> in_order (e :: s) (e :: t)
| in_order_skip : forall e s t, in_order s t -> in_order s (e :: t).

(** ** Replies and handles

    The definitions of this part are not translations of source functions:
    they say what a monitor call makes of one reply of libcurl, and which
    handle it performs.  The lemmas named [_run] below prove that the
    embedded functions compute exactly these. *)

(** The transfer went through and libcurl could tell the response code. *)
Definition transport_ok (r : CurlReply) : bool :=
  (perform_err r =? CURLE_OK) && (getinfo_err r =? CURLE_OK).

(** What [virFCMonitorCurlExec] returns for a reply, and what it reports. *)
Definition curl_exec_code (r : CurlReply) : Z :=
  if negb (perform_err r =? CURLE_OK) then -1
  else if negb (getinfo_err r =? CURLE_OK) then -1
  else if response_code r <? 0 then -1
  else response_code r.

Definition curl_exec_errors (r : CurlReply) : list Event :=
  if negb (perform_err r =? CURLE_OK) then
    [EvReportError (mkError VIR_ERR_INTERNAL_ERROR
       "curl_easy_perform() returned an error: %s (%d)")]
  else if negb (getinfo_err r =? CURLE_OK) then
    [EvReportError (mkError VIR_ERR_INTERNAL_ERROR
       "curl_easy_getinfo(CURLINFO_RESPONSE_CODE) returned an error: %s (%d)")]
  else if response_code r <? 0 then
    [EvReportError (mkError VIR_ERR_INTERNAL_ERROR
       "curl_easy_getinfo(CURLINFO_RESPONSE_CODE) returned a negative response code")]
  else [].

(** What a monitor call returns for a reply: 0 when the code that comes back
    from [virFCJsonActionExec] is a success code, -1 otherwise. *)
Definition rpc_result (r : CurlReply) : Z :=
  if isSuccessCode (int_of_long (curl_exec_code r)) then 0 else -1.

(** What [fcInstanceInfoToDomainState] returns and reports for a body. *)
Definition info_state (env : Env) (body : string) : virDomainState :=
  match virJSONValueFromString env body with
  | None => VIR_DOMAIN_NOSTATE
  | Some jsonObj =>
      match virJSONValueObjectGetString jsonObj "state" with
      | None => VIR_DOMAIN_NOSTATE
      | Some state =>
          if STREQ state "Running" then VIR_DOMAIN_RUNNING
          else if STREQ state "Paused" then VIR_DOMAIN_PAUSED
          else if STREQ state "Not started" then VIR_DOMAIN_SHUTOFF
          else VIR_DOMAIN_NOSTATE
      end
  end.

Definition info_errors (env : Env) (body : string) : list Event :=
  match virJSONValueFromString env body with
  | None =>
      [EvReportError (mkError VIR_ERR_PARSE_FAILED
         "Failed to parse http response as json")]
  | Some jsonObj =>
      match virJSONValueObjectGetString jsonObj "state" with
      | None =>
          [EvReportError (mkError VIR_ERR_PARSE_FAILED
             "Failed to parse key-value pair in json for finding the vm state")]
      | Some state =>
          if STREQ state "Running" then []
          else if STREQ state "Paused" then []
          else if STREQ state "Not started" then []
          else [EvReportError (mkError VIR_ERR_INTERNAL_ERROR
                  "Could not find the state of the vm")]
      end
  end.

(** What [virFCMonitorGetStatus] returns and reports for a reply. *)
Definition status_of_reply (env : Env) (r : CurlReply) : virDomainState :=
  if isSuccessCode (curl_exec_code r) then info_state env (received r)
  else VIR_DOMAIN_NOSTATE.

Definition status_errors (env : Env) (r : CurlReply) : list Event :=
  if isSuccessCode (curl_exec_code r) then info_errors env (received r)
  else curl_exec_errors r.

(** The handles the monitor builds. *)
Definition action_handle (unix_path : option string)
    (url_endpoint http_action : string)
    (jsonObj : list (string * virJSONValue)) : CurlHandle :=
  mkHandle unix_path (URL_ROOT ++ "/" ++ url_endpoint) (Some http_action)
           json_headers (Some (VIR_JSON_OBJECT jsonObj)) false.

Definition status_handle (socketpath : option string) : CurlHandle :=
  mkHandle socketpath (URL_ROOT ++ "/") None json_headers None true.

Definition change_state_handle (socketpath : option string) (state : string)
    : CurlHandle :=
  action_handle socketpath URL_VM "PATCH" [("state", VIR_JSON_STRING state)].

Definition boot_source_handle (socketpath kernel : option string)
    (cmdline : string) : CurlHandle :=
  action_handle socketpath URL_CONFIG_KERNEL "PUT"
    [("kernel_image_path", match kernel with
                           | Some s => VIR_JSON_STRING s
                           | None => VIR_JSON_NULL
                           end);
     ("boot_args", VIR_JSON_STRING cmdline)].

Definition set_disk_handle (socketpath : option string) (drive_id : string)
    (disk_path_host : option string) (is_root_device is_read_only : bool)
    : CurlHandle :=
  action_handle socketpath ("/" ++ URL_CONFIG_DISK ++ "/" ++ drive_id) "PUT"
    [("drive_id", VIR_JSON_STRING drive_id);
     ("path_on_host", match disk_path_host with
                      | Some s => VIR_JSON_STRING s
                      | None => VIR_JSON_NULL
                      end);
     ("is_root_device", VIR_JSON_BOOLEAN is_root_device);
     ("is_read_only", VIR_JSON_BOOLEAN is_read_only)].

Definition action_type_handle (socketpath : option string) (action : string)
    : CurlHandle :=
  action_handle socketpath URL_ACTIONS "PUT"
    [("action_type", VIR_JSON_STRING action)].

(** The URLs of the requests [fcConfigAndStartVM] sends, in its order. *)
Definition config_urls : list string :=
  [URL_ROOT ++ "/" ++ URL_CONFIG_KERNEL;
   URL_ROOT ++ "/" ++ ("/" ++ URL_CONFIG_DISK ++ "/" ++ "rootfs");
   URL_ROOT ++ "/" ++ URL_ACTIONS].

(** The state the monitor reports when the guest is refreshed in [w]. *)
Definition refreshed (env : Env) (w : World) : virDomainState :=
  fst (virFCMonitorGetStatus env (socketpath (privateData (w_vm w))) w).

(** The reply to the PATCH that follows a refresh in [w]. *)
Definition patch_reply (env : Env) (w : World) (target : string) : CurlReply :=
  curl_easy_perform env (w_trace (snd (fcUpdateState env w)))
    (change_state_handle (socketpath (privateData (w_vm w))) target).

(** ** Errors of the driver *)

(** The error [fcConfigAndStartVM] reports when the root disk is missing. *)
Definition root_disk_missing : virError :=
  mkError VIR_ERR_CONFIG_UNSUPPORTED
          "Did not find a disk device with target destination '%s'".

(** The error of [fcDomainShutdownFlags], [fcDomainSuspend] and
    [fcDomainResume] when [fcUpdateState] fails. *)
Definition refresh_failed : virError :=
  mkError VIR_ERR_INTERNAL_ERROR "Failed to refresh the state of vm".

(** The error of the running check of [fcDomainShutdownFlags] and
    [fcDomainSuspend]. *)
Definition not_running : virError :=
  mkError VIR_ERR_OPERATION_INVALID "Domain is not in running state".

(** The error of the paused check of [fcDomainResume]. *)
Definition not_paused : virError :=
  mkError VIR_ERR_OPERATION_INVALID "Domain is not in paused state".

(** The error of the console guard of [fcDomainOpenConsole]. *)
Definition no_serial_console : virError :=
  mkError VIR_ERR_OPERATION_INVALID
          "Domain '%s' didn't boot with a serial console".

(** ** What is known after a step of the start sequence *)

(** The events of the wait for the socket: polls, timer calls, and reports
    of internal errors. *)
Definition poll_event (e : Event) : Prop :=
  match e with
  | EvFileExists _ _ | EvTimeBackOffStart _ _ _ | EvTimeBackOffWait _ => True
  | EvReportError x => err_code x = VIR_ERR_INTERNAL_ERROR
  | _ => False
  end.

(** The events of the monitor: transfers and reports. *)
Definition monitor_event (e : Event) : Prop :=
  match e with
  | EvCurl _ _ | EvReportError _ => True
  | _ => False
  end.

(** [vm'] is [vm] up to the active id, the console path and the process
    handle. *)
Definition same_guest (vm vm' : virDomainObj) : Prop :=
  def vm' = with_id (def vm) (id (def vm')) /\
  state vm' = state vm /\
  reason vm' = reason vm /\
  persistent vm' = persistent vm /\
  vm_dir (privateData vm') = vm_dir (privateData vm) /\
  socketpath (privateData vm') = socketpath (privateData vm).

(** How [fcStartVMProcess] ends: it fails, with the guest inactive, no
    process handle kept and the process aborted if one had been started; or
    it succeeds, with the process started once and recorded. *)
Definition launch_outcome (rc : Z) (vm' : virDomainObj) (evs : list Event)
    : Prop :=
  (rc = -1 /\ id (def vm') = -1 /\ fc_process (privateData vm') = None /\
   (launches evs = [] \/
    exists c0 r0 p0,
      launches evs = [(c0, r0, p0)] /\
      (r0 < 0 \/
       exists c, cmd_pid c = p0 /\
         in_order [EvCommandRunAsync c0 r0 p0; EvCommandAbort (Some c)] evs)))
  \/
  (rc = 0 /\
   exists c0 r0 c,
     launches evs = [(c0, r0, cmd_pid c)] /\ 0 <= r0 /\
     id (def vm') = cmd_pid c /\ fc_process (privateData vm') = Some c /\
     in_order [EvCommandRunAsync c0 r0 (cmd_pid c)] evs).

(** ** Concrete scenarios *)

(** A stand-in for the JSON parser in concrete runs: the body [garbage] does
    not parse, [{}] is the empty object, and any other body is read as an
    object whose [state] key holds the body. *)
Definition state_word_parser (s : string) : option virJSONValue :=
  if STREQ s "garbage" then None
  else if STREQ s "{}" then Some (VIR_JSON_OBJECT [])
  else Some (VIR_JSON_OBJECT [("state", VIR_JSON_STRING s)]).

(** An outside world in which everything but libcurl succeeds: files open,
    the pty is created, the process starts with pid 4242 and its socket
    appears at the first poll. *)
Definition env_with (curl : list Event -> CurlHandle -> CurlReply) : Env :=
  mkEnv curl state_word_parser
        (fun _ _ => 0) (fun _ _ => 0) (fun _ _ => 3)
        (fun _ => (0, (4, 5), "/dev/pts/7"))
        (fun _ _ => (0, 4242))
        (fun _ _ => true) (fun _ => 0) (fun _ => 14%nat)
        (fun _ _ => 0) (fun _ _ => 0) (fun _ _ => 0) (fun _ _ => 0)
        (fun _ => Some "/usr/bin/firecracker").

(** Every request is answered with the same code and body. *)
Definition env_answering (code : Z) (body : string) : Env :=
  env_with (fun _ _ => mkReply 0 0 code body).

(** The VMM accepts every configuration call with 204 and reports
    [Running] when asked for its status. *)
Definition env_ok : Env :=
  env_with (fun _ h => match CURLOPT_CUSTOMREQUEST h with
                       | None => mkReply 0 0 200 "Running"
                       | Some _ => mkReply 0 0 204 ""
                       end).

(** Nothing listens on the socket: [curl_easy_perform] fails with
    CURLE_COULDNT_CONNECT. *)
Definition env_unreachable : Env :=
  env_with (fun _ _ => mkReply 7 0 0 "").

(** The VMM reports [Running] until a PATCH has been sent, and [Paused]
    afterwards; it accepts every request. *)
Definition env_pausing : Env :=
  env_with (fun t h =>
    match CURLOPT_CUSTOMREQUEST h with
    | None =>
        if existsb (fun h' => match CURLOPT_CUSTOMREQUEST h' with
                              | Some m => STREQ m "PATCH"
                              | None => false
                              end) (curl_requests t)
        then mkReply 0 0 200 "Paused"
        else mkReply 0 0 200 "Running"
    | Some _ => mkReply 0 0 204 ""
    end).

(** The scenario of the spec: one root disk, one pty serial on port 0, no
    network interface. *)
Definition def_d1 : virDomainDef :=
  mkDef "d1" (-1) (Some "/usr/bin/firecracker") 131072 1 (Some "/k")
        (Some "panic=1") (Some "vda") [mkDisk (Some "/img.ext4") "vda"] []
        [mkChr VIR_DOMAIN_CHR_DEVICE_TYPE_SERIAL VIR_DOMAIN_CHR_TYPE_PTY 0]
        [] [] [].

Definition no_private : virFCDomainObjPrivate := mkPrivate None None None None.

Definition vm_d1 : virDomainObj :=
  mkObj def_d1 VIR_DOMAIN_SHUTOFF VIR_DOMAIN_SHUTOFF_UNKNOWN true no_private.

Definition w_d1 : World := mkWorld vm_d1 [].

Definition driver_config : virFCDriverConfig := mkConfig "/var/run/libvirt/fc".

(** [d1] after a start in [env_ok]. *)
Definition w_d1_started : World :=
  snd (fcDomainCreateWithFlags env_ok driver_config w_d1).

(** [d1] after two starts in [env_ok]: the second one is refused because
    the guest is active, and its error path clears the active id. *)
Definition w_d1_twice : World :=
  snd (fcDomainCreateWithFlags env_ok driver_config w_d1_started).

(** The command [fcStartVMProcess] builds for [d1]. *)
Definition d1_command : virCommand :=
  mkCommand (Some "/usr/bin/firecracker")
            ["--api-sock"; "/var/run/libvirt/fc/d1/firecracker-lv.socket"]
            2 (Some 4) (Some 4) (Some 3) (-1).

(** [d1] without its disk: no disk device matches the root name. *)
Definition def_no_root : virDomainDef :=
  mkDef "d1" (-1) (Some "/usr/bin/firecracker") 131072 1 (Some "/k")
        (Some "panic=1") (Some "vda") [] []
        [mkChr VIR_DOMAIN_CHR_DEVICE_TYPE_SERIAL VIR_DOMAIN_CHR_TYPE_PTY 0]
        [] [] [].

Definition w_no_root : World :=
  mkWorld (mkObj def_no_root VIR_DOMAIN_SHUTOFF VIR_DOMAIN_SHUTOFF_UNKNOWN
                 true no_private) [].

(** [d1] with a console device beside its serial device, as a definition
    has it once the parser, after the callback, has added the stub console
    that stands for the first serial device ([virDomainDefAddConsoleCompat]
    of domain_conf.c, which is not among the sources). *)
Definition def_d1_console : virDomainDef :=
  mkDef "d1" (-1) (Some "/usr/bin/firecracker") 131072 1 (Some "/k")
        (Some "panic=1") (Some "vda") [mkDisk (Some "/img.ext4") "vda"] []
        [mkChr VIR_DOMAIN_CHR_DEVICE_TYPE_SERIAL VIR_DOMAIN_CHR_TYPE_PTY 0]
        []
        [mkChr VIR_DOMAIN_CHR_DEVICE_TYPE_CONSOLE VIR_DOMAIN_CHR_TYPE_NULL 0]
        [].

(** The guest of [def_d1_console] after a start in [env_ok]. *)
Definition w_d1_console : World :=
  snd (fcDomainCreateWithFlags env_ok driver_config
         (mkWorld (mkObj def_d1_console VIR_DOMAIN_SHUTOFF
                         VIR_DOMAIN_SHUTOFF_UNKNOWN true no_private) [])).

(** ** Further entry points of fc_driver.c *)

(** [vm->persistent = b]. *)
Definition set_persistent (b : bool) : M unit :=
  fun w =>
    let vm := w_vm w in
    (tt, mkWorld (mkObj (def vm) (state vm) (reason vm) b (privateData vm))
                 (w_trace w)).

(** [virDomainObjIsActive] gives a [bool], returned as an [int]. *)
Definition fcDomainIsActive : M Z :=
  vm <- get_vm;;
  ret (if virDomainObjIsActive vm then 1 else 0).

Definition fcDomainUndefineFlags : M Z :=
  vm <- get_vm;;
  if negb (persistent vm) then
    virReportError VIR_ERR_OPERATION_INVALID
      "Cannot undefine transient domain";;
    ret (-1)
  else
    (if virDomainObjIsActive vm then set_persistent false
     else emit EvDomainObjListRemove);;
    ret 0.

(** ** Further observations *)

(** The answers of [virFileExists] along a trace. *)
Definition file_polls (t : list Event) : list bool :=
  flat_map (fun e => match e with EvFileExists _ b => [b] | _ => [] end) t.

(** Events that leave the guest's directory alone. *)
Definition keeps_directory (e : Event) : Prop :=
  match e with
  | EvFileDeleteTree _ _ | EvMkdirWithParents _ _ _ => False
  | _ => True
  end.

(** Events that leave the firecracker process alone. *)
Definition keeps_process (e : Event) : Prop :=
  match e with
  | EvCommandAbort _ | EvCommandRunAsync _ _ _ => False
  | _ => True
  end.

(** The handles of the two calls the start sequence does not make. *)
Definition machine_config_handle (socketpath : option string)
    (hyper_threading : bool) (mem_mb maxvcpus : Z) : CurlHandle :=
  action_handle socketpath URL_CONFIG_PREBOOT "PUT"
    [("ht_enabled", VIR_JSON_BOOLEAN hyper_threading);
     ("mem_size_mib", VIR_JSON_NUMBER mem_mb);
     ("vcpu_count", VIR_JSON_NUMBER maxvcpus)].

Definition network_handle (socketpath : option string) (iface_id : string)
    (guest_mac host_dev_name : option string) (allow_mmds_requests : bool)
    : CurlHandle :=
  action_handle socketpath ("/" ++ URL_CONFIG_NETWORK ++ "/" ++ iface_id) "PUT"
    [("allow_mmds_requests", VIR_JSON_BOOLEAN allow_mmds_requests);
     ("guest_mac", match guest_mac with
                   | Some s => VIR_JSON_STRING s
                   | None => VIR_JSON_NULL
                   end);
     ("host_dev_name", match host_dev_name with
                       | Some s => VIR_JSON_STRING s
                       | None => VIR_JSON_NULL
                       end);
     ("iface_id", VIR_JSON_STRING iface_id)].

(** A call that makes the one transfer [h]: its events are the transfer
    and what [virFCMonitorCurlExec] reports about it, its result is the one
    of the reply, and the guest is left alone. *)
Definition one_request (env : Env) (m : M Z) (w : World) (h : CurlHandle)
    : Prop :=
  let r := curl_easy_perform env (w_trace w) h in
  events_of m w = EvCurl h r :: curl_exec_errors r /\
  fst (m w) = rpc_result r /\
  w_vm (snd (m w)) = w_vm w.

(** ** Further errors of the driver *)

(** The error of [fcDomainCreateWithFlags] for an active guest. *)
Definition already_running : virError :=
  mkError VIR_ERR_OPERATION_INVALID "Domain is already running".

(** The error of [fcStartVMProcess] when [virFileUpdatePerm] fails. *)
Definition socket_permissions : virError :=
  mkError VIR_ERR_INTERNAL_ERROR "cannot modify permissions for the socket".

(** The error of [fcStopVM]. *)
Definition stop_failed : virError :=
  mkError VIR_ERR_OPERATION_FAILED
    "Firecracker API call failed or received an error for Shutting down the vm".

(** The error of [fcDomainShutdownFlags] when [virCommandWait] fails. *)
Definition reap_failed : virError :=
  mkError VIR_ERR_INTERNAL_ERROR
    "Error waiting for child firecracker process to be reaped".

(** The error of the running check of [fcDomainDestroyFlags]. *)
Definition destroy_not_running : virError :=
  mkError VIR_ERR_OPERATION_INVALID "Domain is not running".

(** The errors of [fcDomainSuspend] and [fcDomainResume] when the PATCH is
    not accepted. *)
Definition suspend_failed : virError :=
  mkError VIR_ERR_INTERNAL_ERROR "Firecracker API call failed to suspend VM".

Definition resume_failed : virError :=
  mkError VIR_ERR_INTERNAL_ERROR "Firecracker API call failed to resume VM".

(** The error of [fcDomainUndefineFlags] for a transient guest. *)
Definition undefine_transient : virError :=
  mkError VIR_ERR_OPERATION_INVALID "Cannot undefine transient domain".

(** ** Further scenarios *)

(** [env_ok], except for the answers of [virFileUpdatePerm] and
    [virCommandWait]. *)
Definition env_ok_but (perm wait : Z) : Env :=
  mkEnv (curl_easy_perform env_ok) (virJSONValueFromString env_ok)
        (virFileDeleteTree env_ok) (g_mkdir_with_parents env_ok)
        (c_open env_ok) (openpty env_ok) (virCommandRunAsync env_ok)
        (virFileExists env_ok) (virTimeBackOffStart env_ok)
        (backoff_rounds env_ok) (fun _ _ => perm) (fun _ _ => wait)
        (g_remove env_ok) (virFDStreamOpenPTY env_ok)
        (g_find_program_in_path env_ok).

(** [env_ok], except that the first three polls do not find the socket. *)
Definition env_slow_socket : Env :=
  mkEnv (curl_easy_perform env_ok) (virJSONValueFromString env_ok)
        (virFileDeleteTree env_ok) (g_mkdir_with_parents env_ok)
        (c_open env_ok) (openpty env_ok) (virCommandRunAsync env_ok)
        (fun t _ => (3 <=? List.length (file_polls t))%nat)
        (virTimeBackOffStart env_ok)
        (backoff_rounds env_ok) (virFileUpdatePerm env_ok)
        (virCommandWait env_ok)
        (g_remove env_ok) (virFDStreamOpenPTY env_ok)
        (g_find_program_in_path env_ok).

(** A guest without serial device and without emulator; its second and
    its third disk both have the root name as their target. *)
Definition def_d2 : virDomainDef :=
  mkDef "d2" (-1) None 131072 1 (Some "/k") (Some "panic=1") (Some "vda")
        [mkDisk (Some "/scratch.ext4") "vdb"; mkDisk (Some "/img.ext4") "vda";
         mkDisk (Some "/other.ext4") "vda"]
        [] [] [] [] [].

Definition w_d2 : World :=
  mkWorld (mkObj def_d2 VIR_DOMAIN_SHUTOFF VIR_DOMAIN_SHUTOFF_UNKNOWN true
                 no_private) [].

(** The VMM reports [state] when asked for its status and rejects every
    other request with 400. *)
Definition env_rejecting (state : string) : Env :=
  env_with (fun _ h => match CURLOPT_CUSTOMREQUEST h with
                       | None => mkReply 0 0 200 state
                       | Some _ => mkReply 0 0 400 ""
                       end).

(** * Proofs *)

(** ** The monad and the trace *)

Lemma events_of_run {A : Type} (m : M A) (w : World) a vm evs :
  m w = (a, mkWorld vm (w_trace w ++ evs)) -> events_of m w = evs.
Proof.
  unfold events_of. intros ->. cbn.
  rewrite skipn_app, skipn_all, Nat.sub_diag. reflexivity.
Qed.

Lemma ask_run {A : Type} (f : list Event -> A) (ev : A -> Event) (w : World) :
  ask f ev w = (f (w_trace w), mkWorld (w_vm w) (w_trace w ++ [ev (f (w_trace w))])).
Proof. reflexivity. Qed.

Lemma curl_requests_app (a b : list Event) :
  curl_requests (a ++ b) = (curl_requests a ++ curl_requests b)%list.
Proof. unfold curl_requests. apply flat_map_app. Qed.

Lemma reported_errors_app (a b : list Event) :
  reported_errors (a ++ b) = (reported_errors a ++ reported_errors b)%list.
Proof. unfold reported_errors. apply flat_map_app. Qed.

Lemma curl_requests_exec_errors (r : CurlReply) :
  curl_requests (curl_exec_errors r) = [].
Proof.
  unfold curl_exec_errors.
  repeat match goal with |- context [if ?c then _ else _] => destruct c end;
    reflexivity.
Qed.

(** ** The monitor: one transfer per call *)

Arguments ask : simpl never.

Lemma virFCMonitorCurlExec_run (env : Env) (h : CurlHandle) (w : World) :
  virFCMonitorCurlExec env h w =
  (let r := curl_easy_perform env (w_trace w) h in
   ((curl_exec_code r, received r),
    mkWorld (w_vm w) (w_trace w ++ EvCurl h r :: curl_exec_errors r))).
Proof.
  unfold virFCMonitorCurlExec, curl_exec_code, curl_exec_errors, bind.
  rewrite ask_run. cbv zeta.
  repeat match goal with |- context [if ?c then _ else _] => destruct c end;
    cbn; rewrite <- ?app_assoc; reflexivity.
Qed.

Lemma virFCJsonActionExec_run (env : Env) sock ep act obj (w : World) :
  virFCJsonActionExec env sock ep act obj w =
  (let r := curl_easy_perform env (w_trace w) (action_handle sock ep act obj) in
   (int_of_long (curl_exec_code r),
    mkWorld (w_vm w)
      (w_trace w ++ EvCurl (action_handle sock ep act obj) r :: curl_exec_errors r))).
Proof.
  unfold virFCJsonActionExec, bind. fold (action_handle sock ep act obj).
  rewrite virFCMonitorCurlExec_run. reflexivity.
Qed.

Ltac monitor_run :=
  unfold bind, virJSONValueNewObject; rewrite virFCJsonActionExec_run;
  cbv zeta; unfold rpc_result;
  cbn [virJSONValueObjectAppendString virJSONValueObjectAppendBoolean
       virJSONValueObjectAppendNumberInt app];
  match goal with |- context [if ?c then _ else _] => destruct c end;
  reflexivity.

Lemma virFCMonitorSetKernel_run (env : Env) sock kernel cmdline (w : World) :
  virFCMonitorSetKernel env sock kernel (Some cmdline) w =
  (let h := boot_source_handle sock kernel cmdline in
   let r := curl_easy_perform env (w_trace w) h in
   (rpc_result r,
    mkWorld (w_vm w) (w_trace w ++ EvCurl h r :: curl_exec_errors r))).
Proof. unfold virFCMonitorSetKernel, boot_source_handle. monitor_run. Qed.

Lemma virFCMonitorSetDisk_run (env : Env) sock drive_id path rootdev ro (w : World) :
  virFCMonitorSetDisk env sock drive_id path rootdev ro w =
  (let h := set_disk_handle sock drive_id path rootdev ro in
   let r := curl_easy_perform env (w_trace w) h in
   (rpc_result r,
    mkWorld (w_vm w) (w_trace w ++ EvCurl h r :: curl_exec_errors r))).
Proof. unfold virFCMonitorSetDisk, set_disk_handle. monitor_run. Qed.

Lemma virFCMonitorStartVM_run (env : Env) sock (w : World) :
  virFCMonitorStartVM env sock w =
  (let h := action_type_handle sock "InstanceStart" in
   let r := curl_easy_perform env (w_trace w) h in
   (rpc_result r,
    mkWorld (w_vm w) (w_trace w ++ EvCurl h r :: curl_exec_errors r))).
Proof. unfold virFCMonitorStartVM, action_type_handle. monitor_run. Qed.

Lemma virFCMonitorShutdownVM_run (env : Env) sock (w : World) :
  virFCMonitorShutdownVM env sock w =
  (let h := action_type_handle sock "SendCtrlAltDel" in
   let r := curl_easy_perform env (w_trace w) h in
   (rpc_result r,
    mkWorld (w_vm w) (w_trace w ++ EvCurl h r :: curl_exec_errors r))).
Proof. unfold virFCMonitorShutdownVM, action_type_handle. monitor_run. Qed.

Lemma virFCMonitorChangeState_run (env : Env) sock state (w : World) :
  virFCMonitorChangeState env sock state w =
  if STRNEQ state "Paused" && STRNEQ state "Resumed" then
    (-1, mkWorld (w_vm w)
           (w_trace w ++
            [EvReportError (mkError VIR_ERR_INVALID_ARG
               "Domain can not transition into invalid state '%s'")]))
  else
    (let h := change_state_handle sock state in
     let r := curl_easy_perform env (w_trace w) h in
     (rpc_result r,
      mkWorld (w_vm w) (w_trace w ++ EvCurl h r :: curl_exec_errors r))).
Proof.
  unfold virFCMonitorChangeState, change_state_handle.
  destruct (STRNEQ state "Paused" && STRNEQ state "Resumed").
  - reflexivity.
  - monitor_run.
Qed.

(** What [fcInstanceInfoToDomainState] makes of a response body. *)
Lemma fcInstanceInfoToDomainState_run (env : Env) body (w : World) :
  fcInstanceInfoToDomainState env body w =
  (info_state env body,
   mkWorld (w_vm w) (w_trace w ++ info_errors env body)).
Proof.
  unfold fcInstanceInfoToDomainState, info_state, info_errors.
  destruct w as [vm t].
  repeat match goal with
         | |- context [match ?c with _ => _ end] => destruct c
         end; cbn; rewrite ?app_nil_r; reflexivity.
Qed.

Lemma virFCMonitorGetStatus_run (env : Env) sock (w : World) :
  virFCMonitorGetStatus env sock w =
  (let r := curl_easy_perform env (w_trace w) (status_handle sock) in
   (status_of_reply env r,
    mkWorld (w_vm w)
      (w_trace w ++ EvCurl (status_handle sock) r :: status_errors env r))).
Proof.
  unfold virFCMonitorGetStatus, bind. fold (status_handle sock).
  rewrite virFCMonitorCurlExec_run. cbv zeta. cbn [fst snd].
  unfold status_of_reply, status_errors.
  destruct (isSuccessCode _) eqn:E; cbn [negb].
  - rewrite fcInstanceInfoToDomainState_run. cbn [w_vm w_trace].
    replace (curl_exec_errors _) with (@nil Event).
    + rewrite <- app_assoc. reflexivity.
    + unfold curl_exec_errors, curl_exec_code in *.
      repeat match goal with
             | |- context [if ?c then _ else _] => destruct c
             end; try reflexivity; discriminate E.
  - reflexivity.
Qed.

(** ** Status refresh *)

Lemma fcUpdateState_run (env : Env) (w : World) :
  fcUpdateState env w =
  (let sock := socketpath (privateData (w_vm w)) in
   let r := curl_easy_perform env (w_trace w) (status_handle sock) in
   let st := status_of_reply env r in
   (if virDomainState_eqb st VIR_DOMAIN_NOSTATE then -1 else 0,
    mkWorld (mkObj (def (w_vm w)) st REASON_0 (persistent (w_vm w))
                   (privateData (w_vm w)))
            (w_trace w ++ EvCurl (status_handle sock) r :: status_errors env r))).
Proof.
  unfold fcUpdateState, bind, get_private. cbv zeta.
  rewrite virFCMonitorGetStatus_run. cbv zeta.
  unfold virDomainObjSetState. cbn [w_vm w_trace].
  destruct (virDomainState_eqb _ _); reflexivity.
Qed.

(** C10. Whenever the refresh fails, the cached state has been overwritten
    with NOSTATE: [fcUpdateState] stores whatever the monitor reports, fails
    exactly when that is NOSTATE, and whatever was cached before is gone. *)
Theorem refresh_failure_overwrites_state (env : Env) (w : World) :
  let sock := socketpath (privateData (w_vm w)) in
  let reported := fst (virFCMonitorGetStatus env sock w) in
  let rc := fst (fcUpdateState env w) in
  let after := state (w_vm (snd (fcUpdateState env w))) in
  after = reported /\
  (reported = VIR_DOMAIN_NOSTATE -> rc = -1 /\ after = VIR_DOMAIN_NOSTATE) /\
  (rc <> 0 -> after = VIR_DOMAIN_NOSTATE) /\
  (reported <> VIR_DOMAIN_NOSTATE -> rc = 0).
Proof.
  cbv zeta. rewrite fcUpdateState_run, virFCMonitorGetStatus_run. cbv zeta.
  cbn [fst snd w_vm state].
  set (st := status_of_reply env _).
  split; [reflexivity|].
  split; [intros ->; split; reflexivity|].
  split; destruct st; cbn; congruence.
Qed.

Lemma refresh_failure_overwrites_state_witness :
  state (w_vm w_d1_started) = VIR_DOMAIN_RUNNING /\
  fst (fcUpdateState env_unreachable w_d1_started) = -1 /\
  state (w_vm (snd (fcUpdateState env_unreachable w_d1_started))) =
  VIR_DOMAIN_NOSTATE.
Proof.
  split; [reflexivity|].
  destruct (refresh_failure_overwrites_state env_unreachable w_d1_started)
    as (_ & H & _).
  apply H. reflexivity.
Defined.

(** ** C5: what the monitor reports as the status *)

Lemma isSuccessCode_nonneg (c : Z) : isSuccessCode c = true -> 0 <= c.
Proof.
  unfold isSuccessCode. intros H. apply orb_true_iff in H.
  destruct H as [H | H]; apply Z.eqb_eq in H; lia.
Qed.

Lemma curl_exec_code_ok (r : CurlReply) :
  transport_ok r = true -> 0 <= response_code r ->
  curl_exec_code r = response_code r /\ curl_exec_errors r = [].
Proof.
  unfold transport_ok, curl_exec_code, curl_exec_errors. intros H Hc.
  apply andb_true_iff in H. destruct H as [-> ->]. cbn.
  destruct (response_code r <? 0) eqn:E; [apply Z.ltb_lt in E; lia|].
  split; reflexivity.
Qed.

Lemma curl_exec_code_negative (r : CurlReply) :
  transport_ok r = true -> response_code r < 0 ->
  curl_exec_code r = -1 /\
  curl_exec_errors r =
  [EvReportError (mkError VIR_ERR_INTERNAL_ERROR
     "curl_easy_getinfo(CURLINFO_RESPONSE_CODE) returned a negative response code")].
Proof.
  unfold transport_ok, curl_exec_code, curl_exec_errors. intros H Hc.
  apply andb_true_iff in H. destruct H as [-> ->]. cbn.
  destruct (response_code r <? 0) eqn:E; [|apply Z.ltb_ge in E; lia].
  split; reflexivity.
Qed.

Lemma curl_exec_code_failed (r : CurlReply) :
  transport_ok r = false ->
  curl_exec_code r = -1 /\
  exists msg,
    curl_exec_errors r = [EvReportError (mkError VIR_ERR_INTERNAL_ERROR msg)].
Proof.
  unfold transport_ok, curl_exec_code, curl_exec_errors. intros H.
  destruct (perform_err r =? CURLE_OK); cbn in *.
  - rewrite H. cbn. split; [reflexivity | eexists; reflexivity].
  - split; [reflexivity | eexists; reflexivity].
Qed.

(** The claim as it stands fails on a non-success response code: the monitor
    answers NOSTATE for a 404 but reports nothing. *)
Lemma getStatus_404_reports_nothing :
  isSuccessCode 404 = false /\
  fst (virFCMonitorGetStatus (env_answering 404 "") (Some "/s") w_d1) =
  VIR_DOMAIN_NOSTATE /\
  reported_errors
    (events_of (virFCMonitorGetStatus (env_answering 404 "") (Some "/s")) w_d1)
  = [].
Proof. repeat split. Qed.

(** C5, as amended.  For every reply to the status request: the state
    strings "Running", "Paused" and "Not started" map to RUNNING, PAUSED and
    SHUTOFF and nothing is reported; any other state string, a failed
    transfer, a body that does not parse, a body without a string under the
    state key and a negative response code give NOSTATE and one reported
    error; a non-negative response code other than 200 and 204 gives NOSTATE
    and the monitor reports nothing. *)
Theorem getStatus_state_mapping (env : Env) (sock : option string) (w : World) :
  let r := curl_easy_perform env (w_trace w) (status_handle sock) in
  let st := fst (virFCMonitorGetStatus env sock w) in
  let errs := reported_errors (events_of (virFCMonitorGetStatus env sock) w) in
  (forall obj s,
     transport_ok r = true -> isSuccessCode (response_code r) = true ->
     virJSONValueFromString env (received r) = Some obj ->
     virJSONValueObjectGetString obj "state" = Some s ->
     (s = "Running" -> st = VIR_DOMAIN_RUNNING /\ errs = []) /\
     (s = "Paused" -> st = VIR_DOMAIN_PAUSED /\ errs = []) /\
     (s = "Not started" -> st = VIR_DOMAIN_SHUTOFF /\ errs = []) /\
     (s <> "Running" -> s <> "Paused" -> s <> "Not started" ->
      st = VIR_DOMAIN_NOSTATE /\
      errs = [mkError VIR_ERR_INTERNAL_ERROR
                "Could not find the state of the vm"])) /\
  (transport_ok r = false ->
   st = VIR_DOMAIN_NOSTATE /\
   exists msg, errs = [mkError VIR_ERR_INTERNAL_ERROR msg]) /\
  (transport_ok r = true -> isSuccessCode (response_code r) = true ->
   virJSONValueFromString env (received r) = None ->
   st = VIR_DOMAIN_NOSTATE /\
   errs = [mkError VIR_ERR_PARSE_FAILED
             "Failed to parse http response as json"]) /\
  (forall obj,
     transport_ok r = true -> isSuccessCode (response_code r) = true ->
     virJSONValueFromString env (received r) = Some obj ->
     virJSONValueObjectGetString obj "state" = None ->
     st = VIR_DOMAIN_NOSTATE /\
     errs = [mkError VIR_ERR_PARSE_FAILED
               "Failed to parse key-value pair in json for finding the vm state"]) /\
  (transport_ok r = true -> response_code r < 0 ->
   st = VIR_DOMAIN_NOSTATE /\
   errs = [mkError VIR_ERR_INTERNAL_ERROR
             "curl_easy_getinfo(CURLINFO_RESPONSE_CODE) returned a negative response code"]) /\
  (transport_ok r = true -> 0 <= response_code r ->
   isSuccessCode (response_code r) = false ->
   st = VIR_DOMAIN_NOSTATE /\ errs = []).
Proof.
  cbv zeta.
  rewrite (events_of_run _ _ _ _ _ (virFCMonitorGetStatus_run env sock w)).
  rewrite virFCMonitorGetStatus_run. cbv zeta. cbn [fst].
  set (r := curl_easy_perform env (w_trace w) (status_handle sock)).
  unfold status_of_reply, status_errors, info_state, info_errors.
  repeat apply conj.
  - intros obj s Ht Hc Hp Hs.
    destruct (curl_exec_code_ok r Ht (isSuccessCode_nonneg _ Hc)) as [-> _].
    rewrite Hc, Hp, Hs. unfold STREQ.
    repeat apply conj.
    + intros ->. split; reflexivity.
    + intros ->. split; reflexivity.
    + intros ->. split; reflexivity.
    + intros H1 H2 H3.
      apply String.eqb_neq in H1, H2, H3. rewrite H1, H2, H3.
      split; reflexivity.
  - intros Ht. destruct (curl_exec_code_failed r Ht) as [-> [msg ->]].
    cbn. split; [reflexivity | exists msg; reflexivity].
  - intros Ht Hc Hp.
    destruct (curl_exec_code_ok r Ht (isSuccessCode_nonneg _ Hc)) as [-> _].
    rewrite Hc, Hp. split; reflexivity.
  - intros obj Ht Hc Hp Hs.
    destruct (curl_exec_code_ok r Ht (isSuccessCode_nonneg _ Hc)) as [-> _].
    rewrite Hc, Hp, Hs. split; reflexivity.
  - intros Ht Hc. destruct (curl_exec_code_negative r Ht Hc) as [-> ->].
    split; reflexivity.
  - intros Ht Hc Hn. destruct (curl_exec_code_ok r Ht Hc) as [-> ->].
    rewrite Hn. split; reflexivity.
Qed.

Lemma getStatus_state_mapping_witness :
  (fst (virFCMonitorGetStatus (env_answering 200 "Paused") (Some "/s") w_d1) =
   VIR_DOMAIN_PAUSED /\
   reported_errors
     (events_of (virFCMonitorGetStatus (env_answering 200 "Paused") (Some "/s"))
                w_d1) = []) /\
  (fst (virFCMonitorGetStatus env_unreachable (Some "/s") w_d1) =
   VIR_DOMAIN_NOSTATE) /\
  (fst (virFCMonitorGetStatus (env_answering 200 "garbage") (Some "/s") w_d1) =
   VIR_DOMAIN_NOSTATE) /\
  (fst (virFCMonitorGetStatus (env_answering 200 "{}") (Some "/s") w_d1) =
   VIR_DOMAIN_NOSTATE) /\
  (fst (virFCMonitorGetStatus (env_answering (-3) "") (Some "/s") w_d1) =
   VIR_DOMAIN_NOSTATE) /\
  (reported_errors
     (events_of (virFCMonitorGetStatus (env_answering 500 "") (Some "/s"))
                w_d1) = []).
Proof.
  split.
  { destruct (getStatus_state_mapping (env_answering 200 "Paused") (Some "/s") w_d1)
      as (H & _).
    apply (H (VIR_JSON_OBJECT [("state", VIR_JSON_STRING "Paused")]) "Paused");
      reflexivity. }
  split.
  { destruct (getStatus_state_mapping env_unreachable (Some "/s") w_d1)
      as (_ & H & _).
    apply H. reflexivity. }
  split.
  { destruct (getStatus_state_mapping (env_answering 200 "garbage") (Some "/s") w_d1)
      as (_ & _ & H & _).
    apply H; reflexivity. }
  split.
  { destruct (getStatus_state_mapping (env_answering 200 "{}") (Some "/s") w_d1)
      as (_ & _ & _ & H & _).
    apply (H (VIR_JSON_OBJECT [])); reflexivity. }
  split.
  { destruct (getStatus_state_mapping (env_answering (-3) "") (Some "/s") w_d1)
      as (_ & _ & _ & _ & H & _).
    apply H; reflexivity. }
  destruct (getStatus_state_mapping (env_answering 500 "") (Some "/s") w_d1)
    as (_ & _ & _ & _ & _ & H).
  apply H; [reflexivity | cbn; lia | reflexivity].
Defined.

(** ** C6: the run-state change *)

Lemma int_of_long_small (z : Z) : int_range z -> int_of_long z = z.
Proof.
  unfold int_range, int_of_long, INT_MIN, INT_MAX. intros H.
  rewrite Z.mod_small; lia.
Qed.

Lemma rpc_result_cases (r : CurlReply) : rpc_result r = 0 \/ rpc_result r = -1.
Proof. unfold rpc_result. destruct (isSuccessCode _); auto. Qed.

Lemma rpc_result_success (r : CurlReply) :
  int_range (response_code r) ->
  rpc_result r = 0 <->
  transport_ok r = true /\ isSuccessCode (response_code r) = true.
Proof.
  intros Hr. unfold rpc_result.
  destruct (transport_ok r) eqn:Ht.
  - destruct (Z_lt_le_dec (response_code r) 0) as [Hn | Hp].
    + destruct (curl_exec_code_negative r Ht Hn) as [-> _].
      change (int_of_long (-1)) with (-1). cbn.
      split; [discriminate|].
      intros [_ H]. apply isSuccessCode_nonneg in H. lia.
    + destruct (curl_exec_code_ok r Ht Hp) as [-> _].
      rewrite (int_of_long_small _ Hr).
      destruct (isSuccessCode (response_code r)); split; intros H;
        try discriminate; auto.
      destruct H; discriminate.
  - destruct (curl_exec_code_failed r Ht) as [-> _].
    change (int_of_long (-1)) with (-1). cbn.
    split; [discriminate | intros [H _]; discriminate].
Qed.

(** C6.  Any state string other than exactly "Paused" or "Resumed" fails
    with the invalid-argument error and nothing is sent; for "Paused" and
    "Resumed" exactly one PATCH request goes out, and the call returns 0 if
    and only if the transfer went through and the response code (an [int]
    for libcurl) is 200 or 204. *)
Theorem changeState_guard_and_result (env : Env) (sock : option string)
    (s : string) (w : World) :
  let m := virFCMonitorChangeState env sock s in
  let h := change_state_handle sock s in
  let r := curl_easy_perform env (w_trace w) h in
  (s <> "Paused" -> s <> "Resumed" ->
   fst (m w) = -1 /\
   events_of m w =
   [EvReportError (mkError VIR_ERR_INVALID_ARG
      "Domain can not transition into invalid state '%s'")] /\
   curl_requests (events_of m w) = []) /\
  (s = "Paused" \/ s = "Resumed" ->
   curl_requests (events_of m w) = [h] /\
   CURLOPT_CUSTOMREQUEST h = Some "PATCH" /\
   (fst (m w) = 0 \/ fst (m w) = -1) /\
   (int_range (response_code r) ->
    (fst (m w) = 0 <->
     transport_ok r = true /\ isSuccessCode (response_code r) = true))).
Proof.
  cbv zeta. pose proof (virFCMonitorChangeState_run env sock s w) as E.
  split.
  - intros H1 H2. apply String.eqb_neq in H1, H2.
    unfold STRNEQ in E. rewrite H1, H2 in E. cbn [negb andb] in E.
    rewrite (events_of_run _ _ _ _ _ E), E. repeat split.
  - intros Hs.
    assert (Hg : STRNEQ s "Paused" && STRNEQ s "Resumed" = false)
      by (destruct Hs as [-> | ->]; reflexivity).
    rewrite Hg in E. cbv zeta in E.
    rewrite (events_of_run _ _ _ _ _ E), E. cbn [fst].
    split.
    { change (EvCurl ?a ?b :: ?l) with ([EvCurl a b] ++ l)%list.
      rewrite curl_requests_app, curl_requests_exec_errors. reflexivity. }
    split; [reflexivity|].
    split; [apply rpc_result_cases | apply rpc_result_success].
Qed.

Lemma changeState_guard_and_result_witness :
  (fst (virFCMonitorChangeState env_ok (Some "/s") "paused" w_d1) = -1 /\
   curl_requests
     (events_of (virFCMonitorChangeState env_ok (Some "/s") "paused") w_d1)
   = []) /\
  (fst (virFCMonitorChangeState env_ok (Some "/s") "Resumed" w_d1) = 0 <->
   transport_ok (mkReply 0 0 204 "") = true /\ isSuccessCode 204 = true).
Proof.
  split.
  - destruct (changeState_guard_and_result env_ok (Some "/s") "paused" w_d1)
      as [H _].
    destruct H as (H1 & _ & H2); [discriminate | discriminate |].
    split; assumption.
  - destruct (changeState_guard_and_result env_ok (Some "/s") "Resumed" w_d1)
      as [_ H].
    destruct H as (_ & _ & _ & H); [right; reflexivity |].
    apply H. unfold int_range, INT_MIN, INT_MAX. cbn. lia.
Defined.

(** ** Symbolic execution of the lifecycle functions *)

Lemma launches_app (a b : list Event) :
  launches (a ++ b) = (launches a ++ launches b)%list.
Proof. unfold launches. apply flat_map_app. Qed.

Lemma poll_events_quiet (evs : list Event) :
  Forall poll_event evs ->
  curl_requests evs = [] /\ launches evs = [] /\
  Forall (fun x => err_code x = VIR_ERR_INTERNAL_ERROR) (reported_errors evs).
Proof.
  induction 1 as [| e l He _ (IH1 & IH2 & IH3)]; [repeat split; constructor|].
  destruct e; cbn in He; try contradiction; cbn; auto.
Qed.

Lemma monitor_events_no_launch (evs : list Event) :
  Forall monitor_event evs -> launches evs = [].
Proof.
  induction 1 as [| e l He _ IH]; [reflexivity|].
  destruct e; cbn in He; try contradiction; cbn; auto.
Qed.

Lemma monitor_event_exec_errors (r : CurlReply) :
  Forall monitor_event (curl_exec_errors r).
Proof.
  unfold curl_exec_errors.
  repeat match goal with |- context [if ?c then _ else _] => destruct c end;
    repeat constructor.
Qed.

Lemma in_order_skip_app (s l t : list Event) :
  in_order s t -> in_order s (l ++ t).
Proof. intros H. induction l; cbn; [assumption | constructor; assumption]. Qed.

Lemma in_order_app (s1 t1 s2 t2 : list Event) :
  in_order s1 t1 -> in_order s2 t2 -> in_order (s1 ++ s2) (t1 ++ t2).
Proof.
  intros H1 H2. induction H1; cbn.
  - apply in_order_skip_app. assumption.
  - constructor. assumption.
  - constructor. assumption.
Qed.

Lemma rpc_result_neg (r : CurlReply) :
  (rpc_result r <? 0) = true -> rpc_result r = -1.
Proof. destruct (rpc_result_cases r) as [-> | ->]; [discriminate | reflexivity]. Qed.

Lemma rpc_result_nonneg (r : CurlReply) :
  (rpc_result r <? 0) = false -> rpc_result r = 0.
Proof. destruct (rpc_result_cases r) as [-> | ->]; [reflexivity | discriminate]. Qed.

Lemma fcWaitUntilExists_loop_run (env : Env) (n : nat) path e (w : World) :
  exists b evs,
    fcWaitUntilExists_loop env n path e w =
    (b, mkWorld (w_vm w) (w_trace w ++ evs)) /\
    Forall poll_event evs.
Proof.
  revert e w. induction n as [| n IH]; intros e w.
  - exists e, [EvTimeBackOffWait false]. split; [reflexivity|].
    repeat constructor.
  - cbn [fcWaitUntilExists_loop]. unfold bind, emit. rewrite ask_run.
    cbn [w_vm w_trace].
    destruct (virFileExists env _ path) eqn:E.
    + eexists true, [EvTimeBackOffWait true; EvFileExists path true].
      split; [|repeat constructor].
      unfold ret. rewrite <- app_assoc. reflexivity.
    + match goal with
      | |- context [fcWaitUntilExists_loop env n path false ?W] =>
          destruct (IH false W) as (b & evs & -> & Hevs)
      end.
      exists b, (EvTimeBackOffWait true :: EvFileExists path false :: evs).
      cbn [w_vm w_trace]. split.
      * rewrite <- !app_assoc. reflexivity.
      * repeat constructor. assumption.
Qed.

Lemma fcWaitUntilExists_run (env : Env) path (w : World) :
  exists rc evs,
    fcWaitUntilExists env path w = (rc, mkWorld (w_vm w) (w_trace w ++ evs)) /\
    Forall poll_event evs.
Proof.
  unfold fcWaitUntilExists, bind. rewrite !ask_run. cbv zeta.
  cbn [w_vm w_trace].
  destruct (_ <? 0).
  - unfold virReportError, emit, ret. cbn [w_vm w_trace].
    do 2 eexists. split; [rewrite <- !app_assoc; reflexivity|].
    repeat constructor.
  - match goal with
    | |- context [fcWaitUntilExists_loop env ?n path ?e ?W] =>
        destruct (fcWaitUntilExists_loop_run env n path e W)
          as (b & evs & -> & Hevs)
    end.
    unfold ret. cbn [w_vm w_trace].
    do 2 eexists. split; [rewrite <- !app_assoc; reflexivity|].
    repeat constructor. assumption.
Qed.

Ltac fc_cbn_core :=
  cbv beta zeta;
  cbn [fst snd w_vm w_trace def state reason persistent privateData
       console_pty_path vm_dir socketpath fc_process negb andb
       name id emulator mem_initial maxvcpus os_kernel os_cmdline os_root
       disks nets serials parallels consoles channels with_id
       cmd_binary cmd_args cmd_umask cmd_infd cmd_outfd cmd_errfd cmd_pid].

Ltac fc_cbn :=
  fc_cbn_core;
  repeat (progress (change (-1 <? 0) with true;
                    change (0 <? 0) with false);
          fc_cbn_core).

Ltac abstract_answers :=
  repeat match goal with
         | |- context [curl_easy_perform ?e ?t ?h] =>
             generalize (curl_easy_perform e t h); intro
         | |- context [virFileDeleteTree ?e ?t ?p] =>
             generalize (virFileDeleteTree e t p); intro
         | |- context [g_mkdir_with_parents ?e ?t ?p] =>
             generalize (g_mkdir_with_parents e t p); intro
         | |- context [c_open ?e ?t ?p] =>
             generalize (c_open e t p); intro
         | |- context [openpty ?e ?t] =>
             generalize (openpty e t); intros [[? [? ?]] ?]
         | |- context [virCommandRunAsync ?e ?t ?c] =>
             generalize (virCommandRunAsync e t c); intros [? ?]
         | |- context [virFileUpdatePerm ?e ?t ?p] =>
             generalize (virFileUpdatePerm e t p); intro
         | |- context [virCommandWait ?e ?t ?c] =>
             generalize (virCommandWait e t c); intro
         | |- context [g_remove ?e ?t ?p] =>
             generalize (g_remove e t p); intro
         | |- context [virFDStreamOpenPTY ?e ?t ?p] =>
             generalize (virFDStreamOpenPTY e t p); intro
         end.

Ltac fc_step :=
  first
    [ rewrite ask_run; fc_cbn; abstract_answers; fc_cbn
    | match goal with
      | |- context [fcWaitUntilExists ?e ?p ?W] =>
          let rc := fresh "rc" in
          let evs := fresh "evs" in
          let Hp := fresh "Hpoll" in
          destruct (fcWaitUntilExists_run e p W) as (rc & evs & -> & Hp);
          fc_cbn
      end
    | match goal with
      | |- context [if ?c then _ else _] => destruct c eqn:?; fc_cbn
      end ].


(** Observations of a trace that ends in explicit events around the events
    of a wait. *)
Ltac obs :=
  unfold curl_requests, launches, reported_errors in *;
  repeat first [ progress cbn [flat_map app] | rewrite flat_map_app ].

Ltac in_order_search :=
  repeat first
    [ apply in_order_nil
    | apply in_order_take
    | apply in_order_skip
    | apply in_order_skip_app ].

Ltac use_poll :=
  repeat match goal with
         | H : Forall poll_event _ |- _ =>
             apply poll_events_quiet in H;
             let H1 := fresh "Hcurl" in
             let H2 := fresh "Hlaunch" in
             let H3 := fresh "Herr" in
             destruct H as (H1 & H2 & H3)
         end.

Lemma fcStartVMProcess_run (env : Env) (w : World) :
  exists rc vm' evs,
    fcStartVMProcess env w = (rc, mkWorld vm' (w_trace w ++ evs)) /\
    same_guest (w_vm w) vm' /\
    curl_requests evs = [] /\
    Forall (fun x => err_code x = VIR_ERR_INTERNAL_ERROR) (reported_errors evs) /\
    launch_outcome rc vm' evs.
Proof.
  destruct w as [vm t].
  unfold fcStartVMProcess, fcStartVMProcess_launch, fcStartVMProcess_error,
    set_console_pty_path, set_fc_process, set_id, set_private, get_private,
    get_vm, bind, ret, virReportError, emit.
  fc_cbn.
  repeat fc_step.
  all: rewrite <- ?app_assoc; cbn [app].
  all: do 3 eexists; split; [reflexivity|].
  all: split; [repeat split|].
  all: use_poll.
  all: split; [obs; rewrite ?Hcurl; reflexivity|].
  all: split;
    [obs; rewrite ?Forall_app; repeat constructor; assumption|].
  all: unfold launch_outcome; fc_cbn.
  all: repeat match goal with
              | H : (_ <? 0) = true |- _ => apply Z.ltb_lt in H
              | H : (_ <? 0) = false |- _ => apply Z.ltb_ge in H
              end.
  all: first
    [ left; repeat split; left; obs; rewrite ?Hlaunch; reflexivity
    | left; repeat split; right; do 3 eexists;
      split; [obs; rewrite ?Hlaunch; reflexivity|];
      left; assumption
    | left; repeat split; right; do 3 eexists;
      split; [obs; rewrite ?Hlaunch; reflexivity|];
      right; eexists; split; [|in_order_search]; reflexivity
    | right; split; [reflexivity|]; do 3 eexists; repeat apply conj;
      [ | | | reflexivity | ];
      [ obs; rewrite ?Hlaunch; reflexivity
      | assumption
      | reflexivity
      | in_order_search ] ].
Qed.

Lemma exec_errors_internal (r : CurlReply) :
  Forall (fun x => err_code x = VIR_ERR_INTERNAL_ERROR)
         (reported_errors (curl_exec_errors r)).
Proof.
  unfold curl_exec_errors.
  repeat match goal with |- context [if ?c then _ else _] => destruct c end;
    repeat constructor.
Qed.

Lemma launches_exec_errors (r : CurlReply) : launches (curl_exec_errors r) = [].
Proof. apply monitor_events_no_launch, monitor_event_exec_errors. Qed.

Lemma internal_not_root_missing (l : list virError) :
  Forall (fun x => err_code x = VIR_ERR_INTERNAL_ERROR) l ->
  ~ In root_disk_missing l.
Proof.
  intros H Hin. rewrite Forall_forall in H. apply H in Hin. discriminate Hin.
Qed.

Ltac use_replies :=
  repeat match goal with
         | r : CurlReply |- _ =>
             lazymatch goal with
             | _ : curl_requests (curl_exec_errors r) = [] |- _ => fail
             | _ =>
                 pose proof (curl_requests_exec_errors r);
                 pose proof (launches_exec_errors r);
                 pose proof (exec_errors_internal r);
                 pose proof (monitor_event_exec_errors r)
             end
         end.

Ltac rewrite_quiet :=
  repeat match goal with
         | H : flat_map _ _ = [] |- _ => rewrite H
         end.

Ltac not_root_missing :=
  let Hin := fresh "Hin" in
  intros Hin;
  repeat first
    [ contradiction
    | match type of Hin with
      | In _ (_ ++ _) =>
          apply in_app_or in Hin; destruct Hin as [Hin | Hin]
      | In _ (_ :: _) => destruct Hin as [Hin | Hin]; [discriminate Hin|]
      | In _ (flat_map _ _) =>
          eapply internal_not_root_missing in Hin; eassumption
      end ].

Ltac forall_events :=
  repeat first
    [ apply Forall_nil
    | assumption
    | apply Forall_cons; [cbn; auto|]
    | apply Forall_app; split ].

Ltac rpc_facts :=
  repeat match goal with
         | H : (rpc_result _ <? 0) = true |- _ => apply rpc_result_neg in H
         | H : (rpc_result _ <? 0) = false |- _ => apply rpc_result_nonneg in H
         end.

Ltac fc_monitor_step :=
  first
    [ rewrite virFCMonitorSetKernel_run
    | rewrite virFCMonitorSetDisk_run
    | rewrite virFCMonitorStartVM_run
    | rewrite virFCMonitorShutdownVM_run
    | rewrite virFCMonitorChangeState_run
    | rewrite fcUpdateState_run ];
  fc_cbn; abstract_answers; fc_cbn.

Lemma fcConfigAndStartVM_run (env : Env) (w : World) :
  let vm := w_vm w in
  let boot := boot_source_handle (socketpath (privateData vm))
                (os_kernel (def vm)) (fcAddAdditionalCmdlineArgs vm) in
  exists rc evs,
    fcConfigAndStartVM env w = (rc, mkWorld vm (w_trace w ++ evs)) /\
    Forall monitor_event evs /\
    (rc = 0 \/ rc = -1) /\
    (exists r1 rest,
       evs = EvCurl boot r1 :: rest /\
       (getRootFSDiskDevice (def vm) = None ->
        rc = -1 /\ curl_requests evs = [boot] /\
        (rpc_result r1 = 0 -> In root_disk_missing (reported_errors evs)) /\
        (rpc_result r1 <> 0 -> ~ In root_disk_missing (reported_errors evs)))) /\
    (exists n, curl_urls evs = firstn n config_urls) /\
    (rc = 0 -> curl_urls evs = config_urls).
Proof.
  destruct w as [vm t]. cbv zeta. cbn [w_vm w_trace].
  unfold fcConfigAndStartVM, bind, get_vm, get_private, ret, virReportError,
    emit.
  fc_cbn.
  repeat first
    [ fc_monitor_step
    | match goal with
      | |- context [match getRootFSDiskDevice ?d with _ => _ end] =>
          destruct (getRootFSDiskDevice d) eqn:?; fc_cbn
      end
    | fc_step ].
  all: rewrite <- ?app_assoc; cbn [app].
  all: do 2 eexists; split; [reflexivity|].
  all: use_replies; rpc_facts.
  all: split; [forall_events|].
  all: split; [auto|].
  all: split;
    [ do 2 eexists; split; [reflexivity|];
      let Hroot := fresh "Hroot" in
      intros Hroot;
      first
        [ discriminate Hroot
        | split; [reflexivity|];
          split; [obs; rewrite_quiet; reflexivity|];
          split;
          [ let Hr := fresh "Hr" in
            intros Hr;
            first [ congruence
                  | obs; apply in_or_app; right; left; reflexivity ]
          | let Hn := fresh "Hn" in
            intros Hn;
            first [ contradiction | obs; not_root_missing ] ] ]
    | ].
  all: unfold curl_urls.
  all: split;
    [ obs; rewrite_quiet; cbn [app];
      first [ exists 1%nat; reflexivity
            | exists 2%nat; reflexivity
            | exists 3%nat; reflexivity ]
    | intros Hrc;
      first [ discriminate Hrc | obs; rewrite_quiet; reflexivity ] ].
Qed.

Ltac fc_call_step :=
  match goal with
  | |- context [fcStartVMProcess ?e ?W] =>
      let rc := fresh "rc" in
      let vm' := fresh "vm" in
      let evs := fresh "evs" in
      let Hsame := fresh "Hsame" in
      let Hcurl := fresh "Hcurl" in
      let Herr := fresh "Herr" in
      let Hout := fresh "Hout" in
      destruct (fcStartVMProcess_run e W)
        as (rc & vm' & evs & -> & Hsame & Hcurl & Herr & Hout);
      fc_cbn; cbn [w_vm w_trace] in Hsame
  | |- context [fcConfigAndStartVM ?e ?W] =>
      let H := fresh "Hconfig" in
      let rc := fresh "rc" in
      let evs := fresh "evs" in
      pose proof (fcConfigAndStartVM_run e W) as H;
      cbv zeta in H; cbn [w_vm w_trace] in H;
      destruct H as (rc & evs & -> & H);
      fc_cbn
  end.


Lemma getRootFSDiskDevice_with_id (d : virDomainDef) (v : Z) :
  getRootFSDiskDevice (with_id d v) = getRootFSDiskDevice d.
Proof. reflexivity. Qed.

Lemma no_curl_event (l : list Event) h r :
  curl_requests l = [] -> ~ In (EvCurl h r) l.
Proof.
  unfold curl_requests.
  induction l as [| e l IH]; intros H Hin; [contradiction|].
  destruct Hin as [-> | Hin]; [discriminate H|].
  destruct e; cbn in H; try discriminate H; exact (IH H Hin).
Qed.

Lemma monitor_event_no_launches (l : list Event) :
  Forall monitor_event l -> flat_map
    (fun e => match e with
              | EvCommandRunAsync c rc pid => [(c, rc, pid)]
              | _ => []
              end) l = [].
Proof. apply monitor_events_no_launch. Qed.

(** Runs [fcDomainCreateWithFlags] to its ends; the process start and the
    configuration sequence are replaced by what is known about them. *)
Ltac start_exec :=
  unfold fcDomainCreateWithFlags, fcDomainCreateWithFlags_body,
    fcPopulatePrivateData, fcRecreateVMDir, fcDeleteVMDir, fcCreateVMDir,
    virDomainObjSetState, set_id, set_private, get_private,
    get_vm, bind, ret, virReportError, emit;
  fc_cbn;
  repeat first [ fc_call_step | fc_step ];
  rewrite <- ?app_assoc; cbn [app];
  repeat match goal with
         | H : same_guest _ _ |- _ =>
             let Hdef := fresh "Hdef" in
             let Hst := fresh "Hst" in
             let Hdir := fresh "Hdir" in
             let Hsock := fresh "Hsock" in
             destruct H as (Hdef & Hst & _ & _ & Hdir & Hsock);
             cbn [def state privateData vm_dir socketpath] in Hdef, Hst, Hdir, Hsock;
             rewrite ?Hdir, ?Hsock
         | H : exists _, _ |- _ => destruct H
         | H : _ /\ _ |- _ => destruct H
         end.

Lemma fcDomainCreateWithFlags_urls (env : Env) driver (w : World) :
  exists rc vm' evs,
    fcDomainCreateWithFlags env driver w =
    (rc, mkWorld vm' (w_trace w ++ evs)) /\
    exists n, curl_urls evs = firstn n config_urls.
Proof.
  destruct w as [vm t]. cbn [w_vm w_trace].
  start_exec.
  all: do 3 eexists; split; [reflexivity|].
  all: unfold curl_urls in *.
  all: obs; rewrite_quiet; cbn [app]; rewrite ?app_nil_r.
  all: first [ exists 0%nat; reflexivity | eexists; eassumption ].
Qed.

Ltac split_in H :=
  repeat first [ progress cbn [In] in H | rewrite in_app_iff in H ].

Ltac split_in_goal :=
  repeat first [ progress cbn [In] | rewrite in_app_iff ].

Lemma fcDomainCreateWithFlags_root (env : Env) driver (w : World) :
  getRootFSDiskDevice (def (w_vm w)) = None ->
  exists rc vm' evs,
    fcDomainCreateWithFlags env driver w =
    (rc, mkWorld vm' (w_trace w ++ evs)) /\
    rc = -1 /\ state vm' = state (w_vm w) /\
    (List.length (curl_requests evs) <= 1)%nat /\
    (forall h r, In (EvCurl h r) evs -> rpc_result r = 0 ->
                 In root_disk_missing (reported_errors evs)) /\
    (In root_disk_missing (reported_errors evs) ->
     exists h r, In (EvCurl h r) evs /\ rpc_result r = 0 /\
                 CURLOPT_URL h = URL_ROOT ++ "/" ++ URL_CONFIG_KERNEL).
Proof.
  destruct w as [vm t]. cbn [w_vm w_trace]. intros Hroot.
  start_exec.
  all: do 3 eexists; split; [reflexivity|].
  all: repeat match goal with
              | H : getRootFSDiskDevice _ = None -> _ |- _ =>
                  rewrite Hdef, getRootFSDiskDevice_with_id in H;
                  cbn [def] in H; specialize (H Hroot);
                  destruct H as (? & ? & ? & ?)
              end.
  all: subst.
  all: try discriminate.
  all: split; [reflexivity|].
  all: split; [cbn [state]; congruence|].
  all: obs.
  all: repeat match goal with
              | H : flat_map _ (EvCurl _ _ :: _) = [_] |- _ =>
                  cbn [flat_map app] in H; injection H as H
              | H : context [In _ (flat_map _ (EvCurl _ _ :: _))] |- _ =>
                  cbn [flat_map app] in H
              end.
  all: split; [rewrite_quiet; cbn; lia|].
  all: split.
  all: try (intros h r Hin Hr; split_in Hin; decompose [or] Hin;
            try discriminate; try contradiction).
  all: try (intros Hin; split_in Hin; decompose [or] Hin;
            try discriminate; try contradiction).
  all: try match goal with
             | H : In (EvCurl _ _) ?l, Hc : flat_map _ ?l = [] |- _ =>
                 exfalso; exact (no_curl_event l _ _ Hc H)
             | H : In root_disk_missing (flat_map _ ?l),
               Hc : Forall _ (flat_map _ ?l) |- _ =>
                 exfalso; exact (internal_not_root_missing _ Hc H)
             end.
  all: try match goal with
             | H : EvCurl _ ?x = EvCurl _ ?r, H6 : rpc_result ?x = 0 -> _,
               Hr : rpc_result ?r = 0 |- _ =>
                 injection H as _ H; subst r; apply H6 in Hr;
                 split_in_goal; tauto
             end.
  all: try match goal with
       | Hin : In root_disk_missing (flat_map _ ?x0),
         H7 : rpc_result ?x <> 0 -> _ |- _ =>
           destruct (rpc_result_cases x) as [E | E];
           [| exfalso; apply H7; [rewrite E; discriminate | assumption]];
           do 2 eexists; split;
           [ repeat first [ apply in_eq | apply in_cons
                          | (apply in_or_app; right) ]
           | split; [exact E | reflexivity] ]
       end.
Qed.

Lemma in_launches (l : list Event) c r p :
  In (EvCommandRunAsync c r p) l -> In (c, r, p) (launches l).
Proof.
  unfold launches. intros H. apply in_flat_map.
  exists (EvCommandRunAsync c r p). split; [assumption | left; reflexivity].
Qed.

Lemma fcDomainCreateWithFlags_cleanup (env : Env) driver (w : World) :
  exists rc vm' evs,
    fcDomainCreateWithFlags env driver w =
    (rc, mkWorld vm' (w_trace w ++ evs)) /\
    (rc = 0 \/ rc = -1) /\
    (rc = -1 -> id (def vm') = -1 /\ state vm' = state (w_vm w)) /\
    (rc = 0 -> state vm' = VIR_DOMAIN_RUNNING) /\
    (forall cmd r0 pid,
       In (EvCommandRunAsync cmd r0 pid) evs -> 0 <= r0 -> rc = -1 ->
       exists c rcd,
         cmd_pid c = pid /\
         in_order
           [EvCommandRunAsync cmd r0 pid; EvCommandAbort (Some c);
            EvFileDeleteTree
              (Some (stateDir driver ++ "/" ++ name (def (w_vm w)))) rcd]
           evs).
Proof.
  destruct w as [vm t]. cbn [w_vm w_trace].
  start_exec.
  all: do 3 eexists; split; [reflexivity|].
  all: split; [auto|].
  all: split;
    [ intros Hrc;
      first [ discriminate Hrc
            | split; [reflexivity | cbn [state]; congruence] ]
    | ].
  all: split; [intros Hrc; first [discriminate Hrc | reflexivity]|].
  all: intros cmd r0 pid Hin Hr0 Hrc; try discriminate Hrc.
  all: apply in_launches in Hin.
  all: repeat match goal with
              | H : Forall monitor_event _ |- _ =>
                  apply monitor_event_no_launches in H
              end.
  all: unfold launches in Hin;
       repeat first [ progress cbn [flat_map app] in Hin
                    | rewrite flat_map_app in Hin ].
  all: try contradiction.
  all: destruct Hout
         as [(Hr & Hid & Hfp & Hl)
            | (Hr & c0 & r1 & c & Hl & Hr1 & Hid & Hfp & Hord)];
       subst rc; try discriminate.
  (* the process start failed after the launch: it has aborted the process *)
  1-2: destruct Hl as [Hl | (c0 & r1 & p0 & Hl & [Hneg | (c & Hpid & Hord)])];
    unfold launches in Hl; rewrite Hl in Hin; cbn in Hin;
    try contradiction;
    (destruct Hin as [Hin | Hin]; [|contradiction]);
    injection Hin as -> -> ->; [lia|];
    exists c; eexists; (split; [assumption|]);
    do 2 apply in_order_skip;
    apply (in_order_app [_; _] evs [_]); [exact Hord | in_order_search].
  (* the process runs and the configuration failed: the error path of the
     driver aborts the recorded process *)
  all: unfold launches in Hl; rewrite Hl in Hin;
    repeat match goal with
           | H : flat_map _ _ = [] |- _ => rewrite H in Hin
           end;
    cbn in Hin; (destruct Hin as [Hin | Hin]; [|contradiction]);
    injection Hin as E1 E2 E3; subst cmd r0 pid;
    rewrite Hfp; exists c; eexists; (split; [reflexivity|]);
    do 2 apply in_order_skip;
    apply (in_order_app [_] evs [_; _]); [exact Hord | in_order_search].
Qed.

(** ** C1: the requests of a start *)

(** C1.  Evaluation of the start sequence: for the guest [d1] (one root
    disk, one pty serial, no interface) in a world where every call
    succeeds, start sends three requests, boot-source, the drive [rootfs]
    and the start action, and no machine-config request; and whatever the
    definition and the outside world, the requests of a start are an initial
    part of these three, so that neither machine-config nor any
    network-interface request is ever sent.  The monitor does have the two
    calls: [virFCMonitorSetConfig] sends machine-config and
    [virFCMonitorSetNetwork] sends network-interfaces; start does not use
    them. *)
Theorem start_sends_no_machine_config :
  fst (fcDomainCreateWithFlags env_ok driver_config w_d1) = 0 /\
  curl_urls (events_of (fcDomainCreateWithFlags env_ok driver_config) w_d1) =
  ["http://localhost/boot-source"; "http://localhost//drives/rootfs";
   "http://localhost/actions"] /\
  config_urls =
  ["http://localhost/boot-source"; "http://localhost//drives/rootfs";
   "http://localhost/actions"] /\
  (forall env driver w,
     exists n,
       curl_urls (events_of (fcDomainCreateWithFlags env driver) w) =
       firstn n config_urls) /\
  curl_urls (events_of (virFCMonitorSetConfig env_ok None false def_d1) w_d1) =
  ["http://localhost/machine-config"] /\
  curl_urls
    (events_of (virFCMonitorSetNetwork env_ok None "eth0" None (Some "tap0")
                                       false) w_d1) =
  ["http://localhost//network-interfaces/eth0"].
Proof.
  split; [vm_compute; reflexivity|]. split; [vm_compute; reflexivity|].
  split; [reflexivity|].
  split; [|split; vm_compute; reflexivity].
  intros env driver w.
  destruct (fcDomainCreateWithFlags_urls env driver w)
    as (rc & vm' & evs & E & n & Hn).
  rewrite (events_of_run _ _ _ _ _ E). exists n. exact Hn.
Qed.

(** ** C3: the root disk *)

Lemma getRootFSDiskDevice_loop_none root ds :
  (forall x, In x ds -> dst x <> root) ->
  getRootFSDiskDevice_loop root ds = None.
Proof.
  induction ds as [| d ds IH]; intros H; [reflexivity|].
  cbn. unfold STREQ.
  destruct (String.eqb_spec root (dst d)) as [E | _].
  - exfalso. apply (H d); [left; reflexivity | congruence].
  - apply IH. intros x Hx. apply H. right. assumption.
Qed.

Lemma getRootFSDiskDevice_loop_some root ds x :
  getRootFSDiskDevice_loop root ds = Some x -> In x ds /\ dst x = root.
Proof.
  induction ds as [| d ds IH]; [discriminate|].
  cbn. unfold STREQ.
  destruct (String.eqb_spec root (dst d)) as [E | _].
  - intros [= ->]. split; [left; reflexivity | congruence].
  - intros H. destruct (IH H). split; [right|]; assumption.
Qed.

Lemma getRootFSDiskDevice_none (d : virDomainDef) :
  (~ exists x r, In x (disks d) /\ os_root d = Some r /\ dst x = r) ->
  getRootFSDiskDevice d = None.
Proof.
  intros H. unfold getRootFSDiskDevice.
  destruct (os_root d) as [r |] eqn:E; [|reflexivity].
  apply getRootFSDiskDevice_loop_none. intros x Hx Hd.
  apply H. exists x, r. auto.
Qed.

(** The claim as it stands fails when an earlier step of the start fails:
    without a matching disk and with a VMM that rejects the boot-source
    request, start fails, but not with the root-disk-missing error. *)
Lemma start_without_root_disk_rejected_boot :
  getRootFSDiskDevice (def (w_vm w_no_root)) = None /\
  fst (fcDomainCreateWithFlags (env_answering 400 "") driver_config w_no_root)
  = -1 /\
  reported_errors
    (events_of (fcDomainCreateWithFlags (env_answering 400 "") driver_config)
               w_no_root) =
  [mkError VIR_ERR_INTERNAL_ERROR
     "Firecracker API call failed setting kernel and cmdline";
   mkError VIR_ERR_INTERNAL_ERROR "Failed starting the vm"] /\
  ~ In root_disk_missing
      (reported_errors
         (events_of
            (fcDomainCreateWithFlags (env_answering 400 "") driver_config)
            w_no_root)).
Proof.
  split; [reflexivity|]. split; [vm_compute; reflexivity|].
  split; [vm_compute; reflexivity|].
  vm_compute. intros [H | [H | []]]; discriminate H.
Qed.

(** C3, as amended.  The lookup gives nothing when the root name is unset
    or no disk has it as its target, and gives a disk of the definition with
    that target when there is one.  For a definition without such a disk,
    start fails and leaves the lifecycle state as it was; it sends at most
    one request; and the root-disk-missing error is reported exactly when
    the start got as far as the lookup, that is when the boot-source request
    was sent and accepted. *)
Theorem start_without_root_disk (env : Env) (driver : virFCDriverConfig)
    (w : World) :
  let d := def (w_vm w) in
  let m := fcDomainCreateWithFlags env driver in
  (os_root d = None -> getRootFSDiskDevice d = None) /\
  (forall r, os_root d = Some r ->
             (forall x, In x (disks d) -> dst x <> r) ->
             getRootFSDiskDevice d = None) /\
  (forall r, os_root d = Some r ->
             (exists x, In x (disks d) /\ dst x = r) ->
             exists x, getRootFSDiskDevice d = Some x /\
                       In x (disks d) /\ dst x = r) /\
  ((~ exists x r, In x (disks d) /\ os_root d = Some r /\ dst x = r) ->
   fst (m w) = -1 /\
   state (w_vm (snd (m w))) = state (w_vm w) /\
   (List.length (curl_requests (events_of m w)) <= 1)%nat /\
   (forall h r, In (EvCurl h r) (events_of m w) -> rpc_result r = 0 ->
                In root_disk_missing (reported_errors (events_of m w))) /\
   (In root_disk_missing (reported_errors (events_of m w)) ->
    exists h r, In (EvCurl h r) (events_of m w) /\ rpc_result r = 0 /\
                CURLOPT_URL h = URL_ROOT ++ "/" ++ URL_CONFIG_KERNEL)).
Proof.
  cbv zeta. split; [|split; [|split]].
  - intros E. unfold getRootFSDiskDevice. rewrite E. reflexivity.
  - intros r E H. unfold getRootFSDiskDevice. rewrite E.
    apply getRootFSDiskDevice_loop_none. assumption.
  - intros r E (x & Hx & Hd). unfold getRootFSDiskDevice. rewrite E.
    destruct (getRootFSDiskDevice_loop r (disks (def (w_vm w)))) as [y |] eqn:L.
    + exists y. split; [reflexivity|].
      apply getRootFSDiskDevice_loop_some. assumption.
    + exfalso. revert L. generalize (disks (def (w_vm w))) x Hx Hd.
      induction l as [| a l IH]; intros x0 Hx0 Hd0; [contradiction|].
      cbn. unfold STREQ.
      destruct (String.eqb_spec r (dst a)) as [_ | N]; [discriminate|].
      destruct Hx0 as [-> | Hx0]; [congruence | eauto].
  - intros H. apply getRootFSDiskDevice_none in H.
    destruct (fcDomainCreateWithFlags_root env driver w H)
      as (rc & vm' & evs & E & Hrc & Hst & Hlen & Hfwd & Hbwd).
    rewrite (events_of_run _ _ _ _ _ E), E. cbn [fst snd w_vm].
    repeat split; assumption.
Qed.

Lemma start_without_root_disk_witness :
  fst (fcDomainCreateWithFlags env_ok driver_config w_no_root) = -1 /\
  state (w_vm (snd (fcDomainCreateWithFlags env_ok driver_config w_no_root)))
  = VIR_DOMAIN_SHUTOFF /\
  In root_disk_missing
     (reported_errors
        (events_of (fcDomainCreateWithFlags env_ok driver_config) w_no_root)).
Proof.
  destruct (start_without_root_disk env_ok driver_config w_no_root)
    as (_ & _ & _ & H).
  destruct H as (H1 & H2 & _ & H3 & _).
  - intros (x & r & Hx & _). exact Hx.
  - split; [exact H1|]. split; [exact H2|].
    apply (H3 (boot_source_handle
                 (Some "/var/run/libvirt/fc/d1/firecracker-lv.socket")
                 (Some "/k") "panic=1 console=ttyS0")
              (mkReply 0 0 204 "")).
    + vm_compute. repeat first [left; reflexivity | right].
    + reflexivity.
Defined.

(** ** C4: a start that fails after the process was started *)

(** The claim as it stands fails for a guest whose cached state is RUNNING
    while it is inactive, which two starts in a row produce: a third start
    whose boot-source request is rejected fails after the process was
    started and leaves the state RUNNING. *)
Lemma failed_start_leaves_running_state :
  fst (fcDomainCreateWithFlags env_ok driver_config w_d1) = 0 /\
  fst (fcDomainCreateWithFlags env_ok driver_config w_d1_started) = -1 /\
  state (w_vm w_d1_twice) = VIR_DOMAIN_RUNNING /\
  virDomainObjIsActive (w_vm w_d1_twice) = false /\
  launches
    (events_of (fcDomainCreateWithFlags (env_answering 400 "") driver_config)
               w_d1_twice) = [(d1_command, 0, 4242)] /\
  fst (fcDomainCreateWithFlags (env_answering 400 "") driver_config w_d1_twice)
  = -1 /\
  state (w_vm (snd (fcDomainCreateWithFlags (env_answering 400 "")
                      driver_config w_d1_twice))) = VIR_DOMAIN_RUNNING.
Proof. repeat split; vm_compute; reflexivity. Qed.

(** C4, as amended.  When a start fails after [virCommandRunAsync] has
    started the process, the process is aborted and then the deletion of
    the guest's directory is asked for, both before the start returns -1;
    the active id is -1 afterwards and the lifecycle state is what it was
    before the call, so it is RUNNING only if it was RUNNING already. *)
Theorem failed_start_cleans_up (env : Env) (driver : virFCDriverConfig)
    (w : World) (cmd : virCommand) (rc pid : Z) :
  let m := fcDomainCreateWithFlags env driver in
  In (EvCommandRunAsync cmd rc pid) (events_of m w) -> 0 <= rc ->
  fst (m w) <> 0 ->
  (exists c rcd,
     cmd_pid c = pid /\
     in_order
       [EvCommandRunAsync cmd rc pid; EvCommandAbort (Some c);
        EvFileDeleteTree
          (Some (stateDir driver ++ "/" ++ name (def (w_vm w)))) rcd]
       (events_of m w)) /\
  fst (m w) = -1 /\
  id (def (w_vm (snd (m w)))) = -1 /\
  state (w_vm (snd (m w))) = state (w_vm w) /\
  (state (w_vm w) <> VIR_DOMAIN_RUNNING ->
   state (w_vm (snd (m w))) <> VIR_DOMAIN_RUNNING).
Proof.
  cbv zeta.
  destruct (fcDomainCreateWithFlags_cleanup env driver w)
    as (r & vm' & evs & E & Hr & Hfail & _ & Hord).
  rewrite (events_of_run _ _ _ _ _ E), E. cbn [fst snd w_vm].
  intros Hin Hrc Hne.
  destruct Hr as [-> | ->]; [contradiction|].
  destruct (Hfail eq_refl) as [Hid Hst].
  split; [apply Hord; auto|].
  repeat split; try assumption.
  rewrite Hst. auto.
Qed.

Lemma failed_start_cleans_up_witness :
  in_order
    [EvCommandRunAsync d1_command 0 4242;
     EvCommandAbort
       (Some (mkCommand (cmd_binary d1_command) (cmd_args d1_command) 2
                        (Some 4) (Some 4) (Some 3) 4242));
     EvFileDeleteTree (Some "/var/run/libvirt/fc/d1") 0]
    (events_of (fcDomainCreateWithFlags (env_answering 400 "") driver_config)
               w_d1) /\
  id (def (w_vm (snd (fcDomainCreateWithFlags (env_answering 400 "")
                        driver_config w_d1)))) = -1 /\
  state (w_vm (snd (fcDomainCreateWithFlags (env_answering 400 "")
                      driver_config w_d1))) <> VIR_DOMAIN_RUNNING.
Proof.
  assert (Hin : In (EvCommandRunAsync d1_command 0 4242)
                   (events_of (fcDomainCreateWithFlags (env_answering 400 "")
                                 driver_config) w_d1)).
  { vm_compute. repeat first [left; reflexivity | right]. }
  assert (Hne : fst (fcDomainCreateWithFlags (env_answering 400 "")
                       driver_config w_d1) <> 0).
  { vm_compute. discriminate. }
  destruct (failed_start_cleans_up (env_answering 400 "") driver_config w_d1
              d1_command 0 4242 Hin (Z.le_refl 0) Hne)
    as (_ & _ & Hid & _ & Hst).
  split; [|split; [exact Hid | apply Hst; vm_compute; discriminate]].
  vm_compute. in_order_search.
Defined.

(** ** C7: the kernel command line *)

Lemma length_append (a b : string) :
  String.length (a ++ b) = (String.length a + String.length b)%nat.
Proof. induction a as [| c a IH]; cbn; [reflexivity | rewrite IH; reflexivity]. Qed.

Lemma append_not_self (a b : string) :
  (0 < String.length b)%nat -> a <> a ++ b.
Proof.
  intros H E. apply (f_equal String.length) in E.
  rewrite length_append in E. lia.
Qed.

(** C7.  The first request of the configuration sequence is the
    boot-source request, and the command line in it is the definition's
    command line followed by " console=ttyS<port>", with the target port of
    the serial device, when a serial device is configured; it is the
    definition's command line unchanged when none is; and it has that suffix
    only if a serial device is configured. *)
Theorem cmdline_gets_console_argument (env : Env) (w : World) :
  let vm := w_vm w in
  let cmdline := match os_cmdline (def vm) with Some s => s | None => "" end in
  let sent := fcAddAdditionalCmdlineArgs vm in
  (exists r,
     hd_error (events_of (fcConfigAndStartVM env) w) =
     Some (EvCurl (boot_source_handle (socketpath (privateData vm))
                     (os_kernel (def vm)) sent) r)) /\
  (forall kernel sock,
     virJSONValueObjectGetString
       match CURLOPT_POSTFIELDS (boot_source_handle sock kernel sent) with
       | Some body => body
       | None => VIR_JSON_NULL
       end "boot_args" = Some sent) /\
  (forall s0 rest,
     serials (def vm) = s0 :: rest ->
     sent = cmdline ++ " console=ttyS" ++ fmt_d (target_port s0)) /\
  (serials (def vm) = [] -> sent = cmdline) /\
  (forall port,
     sent = cmdline ++ " console=ttyS" ++ fmt_d port ->
     serials (def vm) <> []).
Proof.
  cbv zeta. split; [|split; [|split; [|split]]].
  - pose proof (fcConfigAndStartVM_run env w) as H. cbv zeta in H.
    destruct H as (rc & evs & E & _ & _ & (r1 & rest & -> & _) & _).
    rewrite (events_of_run _ _ _ _ _ E). exists r1. reflexivity.
  - intros kernel sock. reflexivity.
  - intros s0 rest E. unfold fcAddAdditionalCmdlineArgs. rewrite E.
    reflexivity.
  - intros E. unfold fcAddAdditionalCmdlineArgs. rewrite E. reflexivity.
  - intros port E N. unfold fcAddAdditionalCmdlineArgs in E. rewrite N in E.
    revert E. apply append_not_self. cbn. lia.
Qed.

Lemma cmdline_gets_console_argument_witness :
  fcAddAdditionalCmdlineArgs (w_vm w_d1) = "panic=1 console=ttyS0" /\
  fcAddAdditionalCmdlineArgs
    (mkObj (mkDef "d2" (-1) None 0 1 (Some "/k") (Some "panic=1")
                  (Some "vda") [] [] [] [] [] [])
           VIR_DOMAIN_SHUTOFF REASON_0 true no_private) = "panic=1" /\
  serials (def (w_vm w_d1)) <> [].
Proof.
  split; [|split].
  - destruct (cmdline_gets_console_argument env_ok w_d1) as (_ & _ & H & _).
    apply (H (mkChr VIR_DOMAIN_CHR_DEVICE_TYPE_SERIAL VIR_DOMAIN_CHR_TYPE_PTY 0)
             []).
    reflexivity.
  - destruct (cmdline_gets_console_argument env_ok
                (mkWorld
                   (mkObj (mkDef "d2" (-1) None 0 1 (Some "/k") (Some "panic=1")
                                 (Some "vda") [] [] [] [] [] [])
                          VIR_DOMAIN_SHUTOFF REASON_0 true no_private) []))
      as (_ & _ & _ & H & _).
    apply H. reflexivity.
  - destruct (cmdline_gets_console_argument env_ok w_d1) as (_ & _ & _ & _ & H).
    apply (H 0). reflexivity.
Defined.

(** ** Shutdown, suspend and resume *)

Lemma last_reported_snoc (l : list Event) (e : virError) :
  last_reported (l ++ [EvReportError e]) = Some e.
Proof.
  unfold last_reported. rewrite reported_errors_app. cbn.
  rewrite rev_app_distr. reflexivity.
Qed.

Lemma curl_requests_status_errors (env : Env) (r : CurlReply) :
  curl_requests (status_errors env r) = [].
Proof.
  unfold status_errors, info_errors.
  repeat match goal with
         | |- context [if ?c then _ else _] => destruct c
         | |- context [match ?c with _ => _ end] => destruct c
         end; try reflexivity; apply curl_requests_exec_errors.
Qed.

Lemma status_errors_not_driver (env : Env) (r : CurlReply) (e : virError) :
  e = refresh_failed \/ e = not_running \/ e = not_paused ->
  ~ In e (reported_errors (status_errors env r)).
Proof.
  intros He Hin.
  unfold status_errors, info_errors, curl_exec_errors in Hin.
  repeat match type of Hin with
         | context [if ?c then _ else _] => destruct c
         | context [match ?c with _ => _ end] => destruct c
         end; cbn in Hin;
    repeat match goal with
           | H : _ \/ _ |- _ => destruct H
           end; subst; try contradiction; discriminate.
Qed.

Lemma refreshed_run (env : Env) (w : World) :
  refreshed env w =
  status_of_reply env
    (curl_easy_perform env (w_trace w)
       (status_handle (socketpath (privateData (w_vm w))))).
Proof. unfold refreshed. rewrite virFCMonitorGetStatus_run. reflexivity. Qed.

Ltac eqb_compute :=
  repeat match goal with
         | |- context [virDomainState_eqb ?a ?b] =>
             let v := eval vm_compute in (virDomainState_eqb a b) in
             change (virDomainState_eqb a b) with v
         end.

Ltac fc_norm := fc_cbn; repeat (progress eqb_compute; fc_cbn).

Ltac driver_unfold :=
  unfold fcDomainShutdownFlags, fcDomainSuspend, fcDomainResume, fcStopVM,
    fcFirecrackerCleanup, fcDomainOpenConsole, virDomainObjCheckActive,
    virDomainObjGetState, virDomainObjSetState, set_fc_process, set_id,
    set_private, get_private, get_vm, bind, ret, virReportError, emit.

Lemma fcDomainShutdownFlags_refresh_failed (env : Env) (w : World) :
  refreshed env w = VIR_DOMAIN_NOSTATE ->
  let sock := socketpath (privateData (w_vm w)) in
  let r := curl_easy_perform env (w_trace w) (status_handle sock) in
  fcDomainShutdownFlags env w =
  (-1,
   mkWorld (mkObj (def (w_vm w)) VIR_DOMAIN_NOSTATE REASON_0
                  (persistent (w_vm w)) (privateData (w_vm w)))
           (w_trace w ++
            (EvCurl (status_handle sock) r :: status_errors env r) ++
            [EvReportError
               (if virDomainState_eqb (state (w_vm w)) VIR_DOMAIN_SHUTOFF
                then not_running else refresh_failed)])).
Proof.
  rewrite refreshed_run. intros H. cbv zeta.
  driver_unfold. rewrite fcUpdateState_run. cbv zeta. rewrite H.
  fc_cbn. cbn [virDomainState_eqb].
  destruct (virDomainState_eqb (state (w_vm w)) VIR_DOMAIN_SHUTOFF);
    fc_cbn; cbn [virDomainState_eqb negb]; fc_cbn;
    rewrite <- !app_assoc; reflexivity.
Qed.

(** The claim as it stands fails: shutting down a guest that is already
    shut off is an error.  The failed refresh is tolerated, but it has left
    NOSTATE behind and the running check that follows fails. *)
Lemma shutdown_of_shut_off_guest_fails :
  state (w_vm w_d1) = VIR_DOMAIN_SHUTOFF /\
  fst (fcUpdateState env_unreachable w_d1) = -1 /\
  fst (fcDomainShutdownFlags env_unreachable w_d1) = -1 /\
  last_reported (events_of (fcDomainShutdownFlags env_unreachable) w_d1) =
  Some not_running.
Proof. repeat split; vm_compute; reflexivity. Qed.

(** C2, as amended.  A shutdown whose status refresh fails always fails,
    sends nothing but the status request and leaves NOSTATE as the cached
    state.  The failure of the refresh is reported exactly when the state
    cached before was not SHUTOFF, and is then the error of the call; when
    it was SHUTOFF the refresh failure is passed over and the call fails at
    the running check, with the operation-invalid error. *)
Theorem shutdown_with_failed_refresh (env : Env) (w : World) :
  let m := fcDomainShutdownFlags env in
  refreshed env w = VIR_DOMAIN_NOSTATE ->
  fst (fcUpdateState env w) = -1 /\
  fst (m w) = -1 /\
  curl_requests (events_of m w) =
  [status_handle (socketpath (privateData (w_vm w)))] /\
  state (w_vm (snd (m w))) = VIR_DOMAIN_NOSTATE /\
  (In refresh_failed (reported_errors (events_of m w)) <->
   state (w_vm w) <> VIR_DOMAIN_SHUTOFF) /\
  (state (w_vm w) = VIR_DOMAIN_SHUTOFF ->
   last_reported (events_of m w) = Some not_running) /\
  (state (w_vm w) <> VIR_DOMAIN_SHUTOFF ->
   last_reported (events_of m w) = Some refresh_failed).
Proof.
  cbv zeta. intros H.
  pose proof (fcDomainShutdownFlags_refresh_failed env w H) as E.
  cbv zeta in E.
  rewrite (events_of_run _ _ _ _ _ E), E. cbn [fst snd w_vm state].
  split.
  { rewrite fcUpdateState_run. cbv zeta. cbn [fst].
    rewrite refreshed_run in H. rewrite H. reflexivity. }
  split; [reflexivity|].
  split.
  { match goal with
    | |- context [status_errors env ?r] =>
        pose proof (curl_requests_status_errors env r) as Hq
    end.
    obs. rewrite Hq. reflexivity. }
  split; [reflexivity|].
  rewrite last_reported_snoc.
  unfold reported_errors. rewrite !flat_map_app. cbn [flat_map app].
  split; [|split].
  - rewrite !in_app_iff. cbn [In].
    destruct (state (w_vm w)); cbn [virDomainState_eqb];
      (split;
       [ intros [Hin | [Hin | []]];
         [ exfalso; revert Hin; apply status_errors_not_driver; auto
         | first [discriminate Hin | discriminate] ]
       | intros Hn; first [congruence | auto] ]).
  - intros ->. reflexivity.
  - intros Hn. destruct (state (w_vm w)); try reflexivity. congruence.
Qed.

Lemma shutdown_with_failed_refresh_witness :
  fst (fcDomainShutdownFlags env_unreachable w_d1_started) = -1 /\
  last_reported (events_of (fcDomainShutdownFlags env_unreachable) w_d1_started)
  = Some refresh_failed.
Proof.
  destruct (shutdown_with_failed_refresh env_unreachable w_d1_started)
    as (_ & H1 & _ & _ & _ & _ & H2); [vm_compute; reflexivity|].
  split; [exact H1|]. apply H2. vm_compute. discriminate.
Defined.

Lemma patch_reply_run (env : Env) (w : World) (target : string) :
  let sock := socketpath (privateData (w_vm w)) in
  let r := curl_easy_perform env (w_trace w) (status_handle sock) in
  patch_reply env w target =
  curl_easy_perform env
    (w_trace w ++ EvCurl (status_handle sock) r :: status_errors env r)
    (change_state_handle sock target).
Proof. unfold patch_reply. rewrite fcUpdateState_run. reflexivity. Qed.

Ltac state_change_ok H Hp :=
  rewrite refreshed_run in H;
  rewrite patch_reply_run in Hp; cbv zeta in Hp;
  driver_unfold; rewrite fcUpdateState_run; cbv zeta; rewrite H;
  fc_norm;
  rewrite virFCMonitorChangeState_run;
  match goal with
  | |- context [STRNEQ ?a ?b && STRNEQ ?a ?c] =>
      change (STRNEQ a b && STRNEQ a c) with false
  end;
  fc_norm; rewrite Hp; fc_norm.

Lemma fcDomainSuspend_ok (env : Env) (w : World) :
  refreshed env w = VIR_DOMAIN_RUNNING ->
  rpc_result (patch_reply env w "Paused") = 0 ->
  fst (fcDomainSuspend env w) = 0 /\
  state (w_vm (snd (fcDomainSuspend env w))) = VIR_DOMAIN_PAUSED.
Proof. intros H Hp. state_change_ok H Hp. split; reflexivity. Qed.

Lemma fcDomainResume_ok (env : Env) (w : World) :
  refreshed env w = VIR_DOMAIN_PAUSED ->
  rpc_result (patch_reply env w "Resumed") = 0 ->
  fst (fcDomainResume env w) = 0 /\
  state (w_vm (snd (fcDomainResume env w))) = VIR_DOMAIN_RUNNING.
Proof. intros H Hp. state_change_ok H Hp. split; reflexivity. Qed.

Lemma fcDomainResume_guard (env : Env) (w : World) (s : virDomainState) :
  refreshed env w = s -> s <> VIR_DOMAIN_PAUSED ->
  let sock := socketpath (privateData (w_vm w)) in
  let r := curl_easy_perform env (w_trace w) (status_handle sock) in
  fcDomainResume env w =
  (-1,
   mkWorld (mkObj (def (w_vm w)) s REASON_0 (persistent (w_vm w))
                  (privateData (w_vm w)))
           (w_trace w ++
            (EvCurl (status_handle sock) r :: status_errors env r) ++
            [EvReportError
               (if virDomainState_eqb s VIR_DOMAIN_NOSTATE
                then refresh_failed else not_paused)])).
Proof.
  rewrite refreshed_run. intros H Hs. cbv zeta.
  driver_unfold. rewrite fcUpdateState_run. cbv zeta. rewrite H.
  fc_cbn.
  destruct s; fc_norm;
    try congruence; rewrite <- !app_assoc; reflexivity.
Qed.

(** The claim as it stands fails when the refresh itself fails: the
    refreshed state is NOSTATE, which is not PAUSED, and resume fails with
    the refresh error, not with the not-paused error. *)
Lemma resume_after_failed_refresh :
  refreshed env_unreachable w_d1_started = VIR_DOMAIN_NOSTATE /\
  fst (fcDomainResume env_unreachable w_d1_started) = -1 /\
  last_reported (events_of (fcDomainResume env_unreachable) w_d1_started) =
  Some refresh_failed /\
  ~ In not_paused
      (reported_errors (events_of (fcDomainResume env_unreachable) w_d1_started)).
Proof.
  split; [vm_compute; reflexivity|]. split; [vm_compute; reflexivity|].
  split; [vm_compute; reflexivity|].
  vm_compute. intros [H | [H | []]]; discriminate H.
Qed.

(** C8, as amended.  When the refresh reports RUNNING and the PATCH is
    accepted, suspend succeeds and the cached state is PAUSED; when the
    refresh reports PAUSED and the PATCH is accepted, resume succeeds and
    the cached state is RUNNING; so a suspend followed by a resume takes the
    state from RUNNING to PAUSED and back.  When the refresh reports
    anything but PAUSED, resume fails, sends nothing but the status request
    and leaves the refreshed state cached; its error is the not-paused
    error when the refresh reported RUNNING or SHUTOFF, and the refresh
    error when the refresh failed (NOSTATE). *)
Theorem suspend_resume_round_trip (env : Env) (w : World) :
  (refreshed env w = VIR_DOMAIN_RUNNING ->
   rpc_result (patch_reply env w "Paused") = 0 ->
   fst (fcDomainSuspend env w) = 0 /\
   state (w_vm (snd (fcDomainSuspend env w))) = VIR_DOMAIN_PAUSED /\
   let w1 := snd (fcDomainSuspend env w) in
   (refreshed env w1 = VIR_DOMAIN_PAUSED ->
    rpc_result (patch_reply env w1 "Resumed") = 0 ->
    fst (fcDomainResume env w1) = 0 /\
    state (w_vm (snd (fcDomainResume env w1))) = VIR_DOMAIN_RUNNING)) /\
  (forall s,
     refreshed env w = s -> s <> VIR_DOMAIN_PAUSED ->
     fst (fcDomainResume env w) = -1 /\
     curl_requests (events_of (fcDomainResume env) w) =
     [status_handle (socketpath (privateData (w_vm w)))] /\
     state (w_vm (snd (fcDomainResume env w))) = s /\
     (s <> VIR_DOMAIN_NOSTATE ->
      last_reported (events_of (fcDomainResume env) w) = Some not_paused) /\
     (s = VIR_DOMAIN_NOSTATE ->
      last_reported (events_of (fcDomainResume env) w) = Some refresh_failed)).
Proof.
  split.
  - intros H Hp. destruct (fcDomainSuspend_ok env w H Hp) as [H1 H2].
    split; [exact H1|]. split; [exact H2|]. cbv zeta.
    apply fcDomainResume_ok.
  - intros s H Hs.
    pose proof (fcDomainResume_guard env w s H Hs) as E. cbv zeta in E.
    rewrite (events_of_run _ _ _ _ _ E), E. cbn [fst snd w_vm state].
    split; [reflexivity|].
    split.
    { match goal with
      | |- context [status_errors env ?r] =>
          pose proof (curl_requests_status_errors env r) as Hq
      end.
      obs. rewrite Hq. reflexivity. }
    split; [reflexivity|].
    rewrite last_reported_snoc.
    split.
    + intros Hn. destruct s; try reflexivity. congruence.
    + intros ->. reflexivity.
Qed.

Lemma suspend_resume_round_trip_witness :
  (state (w_vm w_d1_started) = VIR_DOMAIN_RUNNING /\
   state (w_vm (snd (fcDomainSuspend env_pausing w_d1_started))) =
   VIR_DOMAIN_PAUSED /\
   state (w_vm (snd (fcDomainResume env_pausing
                       (snd (fcDomainSuspend env_pausing w_d1_started))))) =
   VIR_DOMAIN_RUNNING) /\
  (fst (fcDomainResume env_ok w_d1_started) = -1 /\
   last_reported (events_of (fcDomainResume env_ok) w_d1_started) =
   Some not_paused).
Proof.
  split.
  - destruct (suspend_resume_round_trip env_pausing w_d1_started) as [H _].
    destruct H as (_ & H1 & H2); [vm_compute; reflexivity ..|].
    cbv zeta in H2.
    destruct H2 as (_ & H2); [vm_compute; reflexivity ..|].
    split; [vm_compute; reflexivity|]. split; [exact H1 | exact H2].
  - destruct (suspend_resume_round_trip env_ok w_d1_started) as [_ H].
    destruct (H VIR_DOMAIN_RUNNING) as (H1 & _ & _ & H2 & _);
      [vm_compute; reflexivity | discriminate |].
    split; [exact H1 | apply H2; discriminate].
Defined.

(** ** C9: the console *)

Lemma post_parse_rejects_consoles (env : Env) (d : virDomainDef) :
  (0 < nconsoles d)%nat ->
  fst (fst (virFCDomainDefPostParseBasic env d)) = -1.
Proof.
  intros H. apply Nat.ltb_lt in H.
  unfold virFCDomainDefPostParseBasic.
  destruct (contains_char newline (name d)); [reflexivity|].
  destruct (match emulator d with
            | Some e => Some e
            | None => g_find_program_in_path env FC_CMD
            end); [|reflexivity].
  change (nconsoles (with_emulator d (Some s))) with (nconsoles d).
  rewrite H.
  repeat match goal with
         | |- context [if ?c then _ else _] => destruct c; try reflexivity
         end.
Qed.

(** The claim as it stands fails for a guest with a serial device.  The
    callback sees the definition as it is parsed, and [fcDomainOpenConsole]
    reads the definition the guest has when it is called.  [d1] is accepted
    by the callback; with the console device that stands for its serial
    device in its definition, the started guest passes the guard and the
    console is opened on the recorded pty. *)
Lemma open_console_of_serial_guest :
  fst (fst (virFCDomainDefPostParseBasic env_ok def_d1)) = 0 /\
  serials def_d1_console = serials def_d1 /\
  disks def_d1_console = disks def_d1 /\
  consoles def_d1_console =
  [mkChr VIR_DOMAIN_CHR_DEVICE_TYPE_CONSOLE VIR_DOMAIN_CHR_TYPE_NULL 0] /\
  virDomainObjIsActive (w_vm w_d1_console) = true /\
  console_pty_path (privateData (w_vm w_d1_console)) = Some "/dev/pts/7" /\
  fst (fcDomainOpenConsole env_ok w_d1_console) = 0 /\
  events_of (fcDomainOpenConsole env_ok) w_d1_console =
  [EvFDStreamOpenPTY (Some "/dev/pts/7") 0].
Proof. repeat split; vm_compute; reflexivity. Qed.

Lemma fcDomainOpenConsole_run (env : Env) (w : World) :
  let vm := w_vm w in
  let path := console_pty_path (privateData vm) in
  let rc := virFDStreamOpenPTY env (w_trace w) path in
  fcDomainOpenConsole env w =
  if virDomainObjIsActive vm then
    match consoles (def vm) with
    | [] => (-1, mkWorld vm (w_trace w ++ [EvReportError no_serial_console]))
    | _ :: _ =>
        (if rc <? 0 then -1 else 0,
         mkWorld vm (w_trace w ++ [EvFDStreamOpenPTY path rc]))
    end
  else
    (-1, mkWorld vm
           (w_trace w ++
            [EvReportError
               (mkError VIR_ERR_OPERATION_INVALID "domain is not running")])).
Proof.
  destruct w as [vm t]. cbn [w_vm w_trace]. cbv zeta.
  driver_unfold. unfold ask. fc_cbn. unfold nconsoles.
  destruct (virDomainObjIsActive vm); fc_cbn; [|reflexivity].
  destruct (consoles (def vm)) as [| c l];
    cbn [List.length Nat.ltb Nat.leb]; fc_cbn; [reflexivity|].
  destruct (virFDStreamOpenPTY env t (console_pty_path (privateData vm)) <? 0);
    reflexivity.
Qed.

(** C9, as amended.  The validator rejects every definition with a console
    device.  Opening the console is decided on the definition the guest has
    at the call: it fails with an operation-invalid error and opens no
    stream when the guest is not active or that definition has no console
    device, whatever its serial device and its recorded pty path are, since
    the guard counts console devices and not serial devices.  For an active
    guest whose definition has a console device it opens a stream on the
    recorded pty path, and returns 0 when that succeeds and -1 when not.
    The guest is never changed. *)
Theorem open_console_needs_console_device (env env_v : Env) (w : World) :
  let m := fcDomainOpenConsole env in
  let vm := w_vm w in
  let path := console_pty_path (privateData vm) in
  let rc := virFDStreamOpenPTY env (w_trace w) path in
  (forall d, (0 < nconsoles d)%nat ->
             fst (fst (virFCDomainDefPostParseBasic env_v d)) = -1) /\
  (virDomainObjIsActive vm = false \/ consoles (def vm) = [] ->
   fst (m w) = -1 /\
   (exists msg,
      events_of m w = [EvReportError (mkError VIR_ERR_OPERATION_INVALID msg)]) /\
   (virDomainObjIsActive vm = true ->
    events_of m w = [EvReportError no_serial_console])) /\
  (virDomainObjIsActive vm = true -> consoles (def vm) <> [] ->
   events_of m w = [EvFDStreamOpenPTY path rc] /\
   fst (m w) = (if rc <? 0 then -1 else 0)) /\
  (fst (m w) = 0 <->
   virDomainObjIsActive vm = true /\ consoles (def vm) <> [] /\ 0 <= rc) /\
  w_vm (snd (m w)) = vm.
Proof.
  cbv zeta.
  split; [intros d; apply post_parse_rejects_consoles|].
  pose proof (fcDomainOpenConsole_run env w) as E. cbv zeta in E.
  destruct (virDomainObjIsActive (w_vm w)) eqn:Ha;
    [destruct (consoles (def (w_vm w))) as [| c l] eqn:Hc|];
    rewrite (events_of_run _ _ _ _ _ E), E; cbn [fst snd w_vm].
  - split; [intros _; split; [reflexivity|]; split;
            [eexists; reflexivity | reflexivity]|].
    split; [intros _ H; contradiction|].
    split; [|reflexivity].
    split; [discriminate | intros (_ & H & _); contradiction].
  - split; [intros [H | H]; discriminate|].
    split; [intros _ _; split; reflexivity|].
    split; [|reflexivity].
    destruct (Z.ltb_spec
                (virFDStreamOpenPTY env (w_trace w)
                   (console_pty_path (privateData (w_vm w)))) 0) as [Hr | Hr].
    + split; [discriminate | intros (_ & _ & H); lia].
    + split; [intros _; repeat split; [discriminate | exact Hr] | reflexivity].
  - split; [intros _; split; [reflexivity|]; split;
            [eexists; reflexivity | discriminate]|].
    split; [discriminate|].
    split; [|reflexivity].
    split; [discriminate | intros (H & _); discriminate].
Qed.

Lemma open_console_needs_console_device_witness :
  virDomainObjIsActive (w_vm w_d1_started) = true /\
  serials (def (w_vm w_d1_started)) =
  [mkChr VIR_DOMAIN_CHR_DEVICE_TYPE_SERIAL VIR_DOMAIN_CHR_TYPE_PTY 0] /\
  console_pty_path (privateData (w_vm w_d1_started)) = Some "/dev/pts/7" /\
  fst (fcDomainOpenConsole env_ok w_d1_started) = -1 /\
  events_of (fcDomainOpenConsole env_ok) w_d1_started =
  [EvReportError no_serial_console].
Proof.
  split; [vm_compute; reflexivity|]. split; [vm_compute; reflexivity|].
  split; [vm_compute; reflexivity|].
  destruct (open_console_needs_console_device env_ok env_ok w_d1_started)
    as (_ & H & _).
  destruct H as (H1 & _ & H2); [right; vm_compute; reflexivity|].
  split; [exact H1 | apply H2; vm_compute; reflexivity].
Defined.

(** * Further properties of the code *)

(** ** The root disk lookup *)

Lemma getRootFSDiskDevice_loop_split root ds x :
  getRootFSDiskDevice_loop root ds = Some x <->
  exists pre post,
    ds = (pre ++ x :: post)%list /\ dst x = root /\
    Forall (fun y => dst y <> root) pre.
Proof.
  induction ds as [| d ds IH].
  - cbn. split; [discriminate|].
    intros (pre & post & E & _). destruct pre; discriminate E.
  - cbn. unfold STREQ.
    destruct (String.eqb_spec root (dst d)) as [E | N].
    + split.
      * intros [= ->]. exists [], ds. repeat split; auto.
      * intros (pre & post & Hds & Hx & Hpre).
        destruct pre as [| y pre]; cbn in Hds.
        -- injection Hds as -> _. reflexivity.
        -- injection Hds as -> _. inversion Hpre; subst. congruence.
    + rewrite IH. split.
      * intros (pre & post & -> & Hx & Hpre).
        exists (d :: pre), post. repeat split; auto.
      * intros (pre & post & Hds & Hx & Hpre).
        destruct pre as [| y pre]; cbn in Hds.
        -- injection Hds as -> _. congruence.
        -- injection Hds as -> ->. inversion Hpre; subst.
           exists pre, post. repeat split; auto.
Qed.

(** X1.  The root disk lookup returns a disk exactly when the root name is
    set and that disk is the first one, in the order of the definition,
    whose target is the root name: of two disks with the same target the
    earlier one is taken. *)
Theorem getRootFSDiskDevice_first_match (d : virDomainDef)
    (x : virDomainDiskDef) :
  getRootFSDiskDevice d = Some x <->
  exists root pre post,
    os_root d = Some root /\ disks d = (pre ++ x :: post)%list /\
    dst x = root /\ Forall (fun y => dst y <> root) pre.
Proof.
  unfold getRootFSDiskDevice. destruct (os_root d) as [root |].
  - rewrite getRootFSDiskDevice_loop_split. split.
    + intros (pre & post & H). exists root, pre, post. tauto.
    + intros (r & pre & post & [= <-] & H). exists pre, post. exact H.
  - split; [discriminate | intros (r & pre & post & E & _); discriminate E].
Qed.

Lemma getRootFSDiskDevice_first_match_witness :
  getRootFSDiskDevice def_d2 = Some (mkDisk (Some "/img.ext4") "vda").
Proof.
  apply getRootFSDiskDevice_first_match.
  exists "vda", [mkDisk (Some "/scratch.ext4") "vdb"],
    [mkDisk (Some "/other.ext4") "vda"].
  repeat split. repeat constructor. discriminate.
Defined.

(** ** The post-parse callback *)

(** The callback answers 0 without an error, or -1 with one. *)
Lemma post_parse_result (env : Env) (d : virDomainDef) :
  let r := virFCDomainDefPostParseBasic env d in
  (fst (fst r) = 0 /\ snd r = None) \/
  (fst (fst r) = -1 /\ exists e, snd r = Some e).
Proof.
  cbv zeta. unfold virFCDomainDefPostParseBasic.
  repeat match goal with
         | |- context [if ?c then _ else _] => destruct c
         | |- context [match ?c with _ => _ end] => destruct c
         end; cbn; eauto.
Qed.

Lemma nat_ltb_0_length {A : Type} (l : list A) :
  (0 <? List.length l)%nat = false <-> l = [].
Proof. destruct l; cbn; split; congruence. Qed.

Lemma post_parse_accepts (env : Env) (d : virDomainDef) :
  fst (fst (virFCDomainDefPostParseBasic env d)) = 0 <->
  contains_char newline (name d) = false /\
  (emulator d <> None \/ g_find_program_in_path env FC_CMD <> None) /\
  virStringIsEmpty (os_kernel d) = false /\
  virStringIsEmpty (os_root d) = false /\
  parallels d = [] /\ consoles d = [] /\ channels d = [] /\
  (serials d = [] \/
   exists port,
     serials d = [mkChr VIR_DOMAIN_CHR_DEVICE_TYPE_SERIAL
                        VIR_DOMAIN_CHR_TYPE_PTY port]) /\
  (exists x, getRootFSDiskDevice d = Some x).
Proof.
  unfold virFCDomainDefPostParseBasic.
  destruct (contains_char newline (name d)).
  { cbn. split; [discriminate | intros (H & _); discriminate H]. }
  assert (Hfound :
    match emulator d with
    | Some e => Some e
    | None => g_find_program_in_path env FC_CMD
    end = None <->
    ~ (emulator d <> None \/ g_find_program_in_path env FC_CMD <> None)).
  { destruct (emulator d); [|destruct (g_find_program_in_path env FC_CMD)];
      split; try discriminate; try tauto;
      intros H; exfalso; apply H; [left | right]; discriminate. }
  destruct (match emulator d with
            | Some e => Some e
            | None => g_find_program_in_path env FC_CMD
            end) as [e |].
  2: { cbn. split; [discriminate|]. intros (_ & H & _).
       exfalso. apply Hfound; [reflexivity | exact H]. }
  assert (He : emulator d <> None \/ g_find_program_in_path env FC_CMD <> None).
  { destruct (emulator d); [left; discriminate|].
    destruct (g_find_program_in_path env FC_CMD); [right; discriminate|].
    exfalso. destruct Hfound as [_ Hf].
    assert (Some e = None) by (apply Hf; intros [H | H]; apply H; reflexivity).
    discriminate. }
  clear Hfound.
  cbv zeta.
  change (os_kernel (with_emulator d (Some e))) with (os_kernel d).
  change (os_root (with_emulator d (Some e))) with (os_root d).
  change (nparallels (with_emulator d (Some e))) with (List.length (parallels d)).
  change (nconsoles (with_emulator d (Some e))) with (List.length (consoles d)).
  change (nchannels (with_emulator d (Some e))) with (List.length (channels d)).
  change (nserials (with_emulator d (Some e))) with (List.length (serials d)).
  change (serials (with_emulator d (Some e))) with (serials d).
  change (getRootFSDiskDevice (with_emulator d (Some e)))
    with (getRootFSDiskDevice d).
  destruct (virStringIsEmpty (os_kernel d)).
  { cbn. split; [discriminate | intros (_ & _ & H & _); discriminate H]. }
  destruct (virStringIsEmpty (os_root d)).
  { cbn. split; [discriminate | intros (_ & _ & _ & H & _); discriminate H]. }
  destruct (parallels d) as [| p lp].
  2: { cbn. split; [discriminate | intros (_ & _ & _ & _ & H & _); discriminate H]. }
  destruct (consoles d) as [| c lc].
  2: { cbn. split; [discriminate | intros (_ & _ & _ & _ & _ & H & _); discriminate H]. }
  destruct (channels d) as [| ch lch].
  2: { cbn. split; [discriminate | intros (_ & _ & _ & _ & _ & _ & H & _); discriminate H]. }
  cbn [List.length Nat.ltb Nat.leb].
  destruct (serials d) as [| s0 [| s1 ls]].
  - cbn [List.length Nat.ltb Nat.leb].
    destruct (getRootFSDiskDevice d) as [x |]; cbn.
    + split; [|reflexivity]. intros _. repeat split; eauto.
    + split; [discriminate|].
      intros (_ & _ & _ & _ & _ & _ & _ & _ & x & Hx). discriminate Hx.
  - cbn [List.length Nat.ltb Nat.leb].
    destruct s0 as [dt st port].
    destruct dt, st; cbn;
      try (split; [discriminate|];
           intros (_ & _ & _ & _ & _ & _ & _ & [H | (p0 & H)] & _);
           discriminate H).
    destruct (getRootFSDiskDevice d) as [x |]; cbn.
    + split; [|reflexivity]. intros _. repeat split; eauto.
    + split; [discriminate|].
      intros (_ & _ & _ & _ & _ & _ & _ & _ & x & Hx). discriminate Hx.
  - cbn. split; [discriminate|].
    intros (_ & _ & _ & _ & _ & _ & _ & [H | (p0 & H)] & _); discriminate H.
Qed.

(** X2.  The post-parse callback accepts a definition exactly when the name
    has no newline, an emulator is given or the firecracker binary is found
    on the path, the kernel path and the root name are not blank, there is
    no parallel, console or channel device, there is no serial device or
    exactly one, of type serial and backed by a pty, and some disk has the
    root name as its target.  It answers 0 without an error or -1 with
    one. *)
Theorem post_parse_accepts_iff (env : Env) (d : virDomainDef) :
  let r := virFCDomainDefPostParseBasic env d in
  (fst (fst r) = 0 <->
   contains_char newline (name d) = false /\
   (emulator d <> None \/ g_find_program_in_path env FC_CMD <> None) /\
   virStringIsEmpty (os_kernel d) = false /\
   virStringIsEmpty (os_root d) = false /\
   parallels d = [] /\ consoles d = [] /\ channels d = [] /\
   (serials d = [] \/
    exists port,
      serials d = [mkChr VIR_DOMAIN_CHR_DEVICE_TYPE_SERIAL
                         VIR_DOMAIN_CHR_TYPE_PTY port]) /\
   (exists x, getRootFSDiskDevice d = Some x)) /\
  ((fst (fst r) = 0 /\ snd r = None) \/
   (fst (fst r) = -1 /\ exists e, snd r = Some e)).
Proof.
  cbv zeta. split; [apply post_parse_accepts | apply post_parse_result].
Qed.

Lemma post_parse_accepts_iff_witness :
  fst (fst (virFCDomainDefPostParseBasic env_ok def_d2)) = 0 /\
  fst (fst (virFCDomainDefPostParseBasic env_ok def_no_root)) = -1.
Proof.
  destruct (post_parse_accepts_iff env_ok def_d2) as [[_ H] _].
  destruct (post_parse_accepts_iff env_ok def_no_root) as [[H1 _] [[H2 _] | [H2 _]]].
  - split; [|exfalso; apply H1 in H2;
               destruct H2 as (_ & _ & _ & _ & _ & _ & _ & _ & x & Hx);
               discriminate Hx].
    apply H. repeat split; try reflexivity.
    + right. discriminate.
    + left. reflexivity.
    + eexists. reflexivity.
  - split; [|exact H2].
    apply H. repeat split; try reflexivity.
    + right. discriminate.
    + left. reflexivity.
    + eexists. reflexivity.
Defined.

Lemma with_emulator_same (d : virDomainDef) :
  with_emulator d (emulator d) = d.
Proof. destruct d; reflexivity. Qed.

Lemma post_parse_definition (env : Env) (d : virDomainDef) :
  let found := match emulator d with
               | Some e => Some e
               | None => g_find_program_in_path env FC_CMD
               end in
  snd (fst (virFCDomainDefPostParseBasic env d)) =
  if contains_char newline (name d) then d
  else match found with
       | Some e => with_emulator d (Some e)
       | None => d
       end.
Proof.
  cbv zeta. unfold virFCDomainDefPostParseBasic.
  destruct (contains_char newline (name d)); [reflexivity|].
  destruct (match emulator d with
            | Some e => Some e
            | None => g_find_program_in_path env FC_CMD
            end); [|reflexivity].
  cbv zeta.
  repeat match goal with
         | |- context [if ?c then _ else _] => destruct c
         | |- context [match ?c with _ => _ end] => destruct c
         end; reflexivity.
Qed.

(** X3.  The callback changes nothing in a definition but the emulator, and
    that only when none was given: an emulator of the definition is kept,
    a missing one becomes the binary found on the path, also when the
    definition is then rejected for another reason.  A definition the
    callback has accepted has an emulator and is accepted again
    unchanged. *)
Theorem post_parse_sets_emulator_only (env : Env) (d : virDomainDef) :
  let r := virFCDomainDefPostParseBasic env d in
  let d' := snd (fst r) in
  (emulator d <> None -> d' = d) /\
  (emulator d = None ->
   d' = d \/
   exists e, g_find_program_in_path env FC_CMD = Some e /\
             d' = with_emulator d (Some e)) /\
  (emulator d = None ->
   contains_char newline (name d) = false ->
   d' = with_emulator d (g_find_program_in_path env FC_CMD)) /\
  (fst (fst r) = 0 ->
   emulator d' <> None /\
   virFCDomainDefPostParseBasic env d' = (0, d', None)).
Proof.
  cbv zeta. rewrite post_parse_definition. cbv zeta.
  split; [|split; [|split]].
  - intros He. destruct (contains_char newline (name d)); [reflexivity|].
    destruct (emulator d) as [e |] eqn:E; [|congruence].
    rewrite <- E. apply with_emulator_same.
  - intros He. rewrite He.
    destruct (contains_char newline (name d)); [left; reflexivity|].
    destruct (g_find_program_in_path env FC_CMD) as [e |];
      [right; exists e; split; reflexivity | left; reflexivity].
  - intros He Hn. rewrite He, Hn.
    destruct (g_find_program_in_path env FC_CMD) as [e |]; [reflexivity|].
    rewrite <- He. symmetry. apply with_emulator_same.
  - intros H0. pose proof H0 as Hacc. apply post_parse_accepts in Hacc.
    destruct Hacc as (Hn & He & Hk & Hr & Hp & Hc & Hch & Hs & Hd).
    rewrite Hn.
    destruct (match emulator d with
              | Some e => Some e
              | None => g_find_program_in_path env FC_CMD
              end) as [e |] eqn:Ef.
    2: { exfalso. destruct (emulator d); [discriminate|].
         destruct He as [He | He]; apply He; [reflexivity | exact Ef]. }
    split; [cbn; discriminate|].
    destruct (post_parse_result env (with_emulator d (Some e)))
      as [[H1 H2] | [H1 _]].
    + pose proof (post_parse_definition env (with_emulator d (Some e))) as Hd'.
      cbv zeta in Hd'. cbn [name emulator with_emulator] in Hd'.
      rewrite Hn in Hd'.
      destruct (virFCDomainDefPostParseBasic env (with_emulator d (Some e)))
        as [[rc d2] err].
      cbn in H1, H2, Hd'. subst. reflexivity.
    + exfalso.
      assert (Ha : fst (fst (virFCDomainDefPostParseBasic env
                               (with_emulator d (Some e)))) = 0).
      { apply post_parse_accepts. cbn [name emulator with_emulator os_kernel
          os_root parallels consoles channels serials].
        repeat split; try assumption. left. discriminate. }
      rewrite Ha in H1. discriminate.
Qed.

Lemma post_parse_sets_emulator_only_witness :
  snd (fst (virFCDomainDefPostParseBasic env_ok def_d1)) = def_d1 /\
  snd (fst (virFCDomainDefPostParseBasic env_ok def_d2)) =
  with_emulator def_d2 (Some "/usr/bin/firecracker") /\
  virFCDomainDefPostParseBasic env_ok
    (with_emulator def_d2 (Some "/usr/bin/firecracker")) =
  (0, with_emulator def_d2 (Some "/usr/bin/firecracker"), None).
Proof.
  destruct (post_parse_sets_emulator_only env_ok def_d1) as (H1 & _).
  destruct (post_parse_sets_emulator_only env_ok def_d2) as (_ & _ & H2 & H3).
  split; [apply H1; discriminate|].
  split; [apply H2; reflexivity|].
  apply H3. reflexivity.
Defined.

(** ** The paths of a guest *)

Lemma append_inj_l (p a b : string) : p ++ a = p ++ b -> a = b.
Proof.
  induction p as [| c p IH]; cbn; [auto|]. intros [= H]. auto.
Qed.

Lemma append_inj_r (a b s : string) : a ++ s = b ++ s -> a = b.
Proof.
  revert b. induction a as [| c a IH]; intros [| c' b] H; cbn in H.
  - reflexivity.
  - exfalso. apply (f_equal String.length) in H. cbn in H.
    rewrite length_append in H. lia.
  - exfalso. apply (f_equal String.length) in H. cbn in H.
    rewrite length_append in H. lia.
  - injection H as -> H. f_equal. auto.
Qed.

Lemma string_app_assoc (a b c : string) : (a ++ b) ++ c = a ++ b ++ c.
Proof. induction a as [| x a IH]; cbn; [reflexivity | rewrite IH; reflexivity]. Qed.

(** X4.  [fcPopulatePrivateData] derives the guest's directory and socket
    path from the state directory of the driver and the guest's name, and
    touches nothing else: the definition, the lifecycle state, the console
    path, the process handle and the trace stay as they are.  Under one
    driver configuration, guests with different names get different
    directories and different socket paths. *)
Theorem guest_paths_follow_name (driver : virFCDriverConfig) (w1 w2 : World) :
  let after := fun w => snd (fcPopulatePrivateData driver w) in
  let p1 := privateData (w_vm (after w1)) in
  let p2 := privateData (w_vm (after w2)) in
  vm_dir p1 = Some (stateDir driver ++ "/" ++ name (def (w_vm w1))) /\
  socketpath p1 =
  Some (stateDir driver ++ "/" ++ name (def (w_vm w1)) ++ "/firecracker-lv.socket") /\
  console_pty_path p1 = console_pty_path (privateData (w_vm w1)) /\
  fc_process p1 = fc_process (privateData (w_vm w1)) /\
  def (w_vm (after w1)) = def (w_vm w1) /\
  state (w_vm (after w1)) = state (w_vm w1) /\
  w_trace (after w1) = w_trace w1 /\
  (name (def (w_vm w1)) <> name (def (w_vm w2)) ->
   vm_dir p1 <> vm_dir p2 /\ socketpath p1 <> socketpath p2).
Proof.
  cbv zeta.
  unfold fcPopulatePrivateData, bind, get_vm, get_private, set_private.
  cbn [fst snd w_vm w_trace def state privateData vm_dir socketpath
       console_pty_path fc_process].
  repeat split.
  - rewrite !string_app_assoc. reflexivity.
  - intros [= E]. apply append_inj_l in E. injection E as E. auto.
  - intros [= E]. apply append_inj_r, append_inj_l in E.
    injection E as E. auto.
Qed.

Lemma guest_paths_follow_name_witness :
  socketpath (privateData (w_vm (snd (fcPopulatePrivateData driver_config w_d1))))
  = Some "/var/run/libvirt/fc/d1/firecracker-lv.socket" /\
  socketpath (privateData (w_vm (snd (fcPopulatePrivateData driver_config w_d1))))
  <>
  socketpath (privateData (w_vm (snd (fcPopulatePrivateData driver_config w_d2)))).
Proof.
  destruct (guest_paths_follow_name driver_config w_d1 w_d2)
    as (_ & H1 & _ & _ & _ & _ & _ & H2).
  split; [exact H1|]. apply H2. discriminate.
Defined.

(** ** The two monitor calls the start sequence leaves out *)

Lemma virFCMonitorSetConfig_run (env : Env) sock ht d (w : World) :
  virFCMonitorSetConfig env sock ht d w =
  (let h := machine_config_handle sock ht
              (int_of_long (mem_initial d / 1024))
              (int_of_long (maxvcpus d)) in
   let r := curl_easy_perform env (w_trace w) h in
   (rpc_result r,
    mkWorld (w_vm w) (w_trace w ++ EvCurl h r :: curl_exec_errors r))).
Proof. unfold virFCMonitorSetConfig, machine_config_handle. monitor_run. Qed.

Lemma virFCMonitorSetNetwork_run (env : Env) sock iface gmac host mmds
    (w : World) :
  virFCMonitorSetNetwork env sock iface gmac host mmds w =
  (let h := network_handle sock iface gmac host mmds in
   let r := curl_easy_perform env (w_trace w) h in
   (rpc_result r,
    mkWorld (w_vm w) (w_trace w ++ EvCurl h r :: curl_exec_errors r))).
Proof. unfold virFCMonitorSetNetwork, network_handle. monitor_run. Qed.

Lemma curl_requests_one (h : CurlHandle) (r : CurlReply) :
  curl_requests (EvCurl h r :: curl_exec_errors r) = [h].
Proof.
  change (EvCurl h r :: curl_exec_errors r)
    with ([EvCurl h r] ++ curl_exec_errors r)%list.
  rewrite curl_requests_app, curl_requests_exec_errors. reflexivity.
Qed.

(** X5.  [virFCMonitorSetConfig] sends one PUT to machine-config.  For a
    memory size (in KiB) whose count of whole MiB fits an [int], the
    memory in the request is the size divided by 1024 and rounded down, so
    up to 1023 KiB of the definition are dropped and a size below 1 MiB is
    sent as 0; the vCPU count is the maximum of the definition, and the
    hyper-threading flag is the one passed.  The call returns 0 when the
    reply has a success code and -1 otherwise. *)
Theorem setConfig_rounds_memory_down (env : Env) (sock : option string)
    (ht : bool) (d : virDomainDef) (w : World) :
  let m := virFCMonitorSetConfig env sock ht d in
  let mib := mem_initial d / 1024 in
  let h := machine_config_handle sock ht mib (maxvcpus d) in
  0 <= mem_initial d -> mib <= INT_MAX -> int_range (maxvcpus d) ->
  curl_requests (events_of m w) = [h] /\
  CURLOPT_URL h = "http://localhost/machine-config" /\
  mib * 1024 <= mem_initial d < mib * 1024 + 1024 /\
  (mem_initial d < 1024 -> mib = 0) /\
  fst (m w) = rpc_result (curl_easy_perform env (w_trace w) h) /\
  (fst (m w) = 0 \/ fst (m w) = -1).
Proof.
  cbv zeta. intros Hm Hi Hv.
  pose proof (virFCMonitorSetConfig_run env sock ht d w) as E. cbv zeta in E.
  assert (H0 : 0 <= mem_initial d / 1024) by (apply Z.div_pos; lia).
  rewrite (int_of_long_small (mem_initial d / 1024)) in E
    by (unfold int_range, INT_MIN, INT_MAX in *; lia).
  rewrite (int_of_long_small _ Hv) in E.
  rewrite (events_of_run _ _ _ _ _ E), E. cbn [fst].
  split; [apply curl_requests_one|].
  split; [reflexivity|].
  split; [pose proof (Z.div_mod (mem_initial d) 1024);
          pose proof (Z.mod_pos_bound (mem_initial d) 1024); lia|].
  split; [intros Hs; apply Z.div_small; lia|].
  split; [reflexivity | apply rpc_result_cases].
Qed.

Lemma setConfig_rounds_memory_down_witness :
  curl_requests
    (events_of (virFCMonitorSetConfig env_ok (Some "/s") false
                  (mkDef "d3" (-1) None 1535 2 None None None [] [] [] [] [] []))
               w_d1) =
  [machine_config_handle (Some "/s") false 1 2] /\
  fst (virFCMonitorSetConfig env_ok (Some "/s") false
         (mkDef "d3" (-1) None 1535 2 None None None [] [] [] [] [] []) w_d1) = 0.
Proof.
  destruct (setConfig_rounds_memory_down env_ok (Some "/s") false
              (mkDef "d3" (-1) None 1535 2 None None None [] [] [] [] [] [])
              w_d1) as (H1 & _ & _ & _ & H2 & _).
  - cbn. lia.
  - unfold INT_MAX. cbn. lia.
  - unfold int_range, INT_MIN, INT_MAX. cbn. lia.
  - split; [exact H1 | exact H2].
Defined.

(** X6.  Every monitor call of the start and stop sequences, and the
    network call, makes exactly one transfer, a PUT on the socket it is
    given, with the two JSON headers and the endpoint under
    [http://localhost/]; its events are that transfer and what
    [virFCMonitorCurlExec] reports about it; it leaves the guest alone and
    returns 0 when the reply has a success code and -1 otherwise.  A reply
    that came through with a non-negative code is never reported, also when
    the code is an error of the VMM: reporting it is left to the caller. *)
Theorem monitor_calls_send_one_request (env : Env) (sock : option string)
    (w : World) :
  (forall kernel cmdline,
     one_request env (virFCMonitorSetKernel env sock kernel (Some cmdline)) w
       (boot_source_handle sock kernel cmdline)) /\
  (forall drive_id path rootdev ro,
     one_request env (virFCMonitorSetDisk env sock drive_id path rootdev ro) w
       (set_disk_handle sock drive_id path rootdev ro)) /\
  one_request env (virFCMonitorStartVM env sock) w
    (action_type_handle sock "InstanceStart") /\
  one_request env (virFCMonitorShutdownVM env sock) w
    (action_type_handle sock "SendCtrlAltDel") /\
  (forall iface gmac host mmds,
     one_request env (virFCMonitorSetNetwork env sock iface gmac host mmds) w
       (network_handle sock iface gmac host mmds)) /\
  (forall ep obj,
     let h := action_handle sock ep "PUT" obj in
     CURLOPT_UNIX_SOCKET_PATH h = sock /\
     CURLOPT_URL h = "http://localhost/" ++ ep /\
     CURLOPT_CUSTOMREQUEST h = Some "PUT" /\
     CURLOPT_HTTPHEADER h =
     ["Accept: application/json"; "Content-Type: application/json"] /\
     CURLOPT_POSTFIELDS h = Some (VIR_JSON_OBJECT obj)) /\
  (forall r,
     (rpc_result r = 0 \/ rpc_result r = -1) /\
     (int_range (response_code r) ->
      (rpc_result r = 0 <->
       transport_ok r = true /\ isSuccessCode (response_code r) = true)) /\
     (transport_ok r = true -> 0 <= response_code r ->
      curl_exec_errors r = [])).
Proof.
  unfold one_request.
  split; [|split; [|split; [|split; [|split; [|split]]]]].
  - intros kernel cmdline.
    pose proof (virFCMonitorSetKernel_run env sock kernel cmdline w) as E.
    cbv zeta in E. rewrite (events_of_run _ _ _ _ _ E), E. repeat split.
  - intros drive_id path rootdev ro.
    pose proof (virFCMonitorSetDisk_run env sock drive_id path rootdev ro w) as E.
    cbv zeta in E. rewrite (events_of_run _ _ _ _ _ E), E. repeat split.
  - pose proof (virFCMonitorStartVM_run env sock w) as E.
    cbv zeta in E. rewrite (events_of_run _ _ _ _ _ E), E. repeat split.
  - pose proof (virFCMonitorShutdownVM_run env sock w) as E.
    cbv zeta in E. rewrite (events_of_run _ _ _ _ _ E), E. repeat split.
  - intros iface gmac host mmds.
    pose proof (virFCMonitorSetNetwork_run env sock iface gmac host mmds w) as E.
    cbv zeta in E. rewrite (events_of_run _ _ _ _ _ E), E. repeat split.
  - intros ep obj. repeat split.
  - intros r. split; [apply rpc_result_cases|].
    split; [apply rpc_result_success|].
    intros Ht Hc. apply (curl_exec_code_ok r Ht Hc).
Qed.

Lemma monitor_calls_send_one_request_witness :
  fst (virFCMonitorSetNetwork (env_answering 400 "") (Some "/s") "eth0"
         (Some "aa:bb:cc:dd:ee:ff") (Some "tap0") false w_d1) = -1 /\
  reported_errors
    (events_of (virFCMonitorSetNetwork (env_answering 400 "") (Some "/s") "eth0"
                  (Some "aa:bb:cc:dd:ee:ff") (Some "tap0") false) w_d1) = [].
Proof.
  destruct (monitor_calls_send_one_request (env_answering 400 "") (Some "/s")
              w_d1) as (_ & _ & _ & _ & H & _ & Hr).
  destruct (H "eth0" (Some "aa:bb:cc:dd:ee:ff") (Some "tap0") false)
    as (Hev & Hrc & _).
  destruct (Hr (mkReply 0 0 400 "")) as (_ & _ & Herr).
  split.
  - rewrite Hrc. reflexivity.
  - rewrite Hev.
    change (curl_easy_perform (env_answering 400 "") (w_trace w_d1) _)
      with (mkReply 0 0 400 "").
    rewrite Herr; [reflexivity | reflexivity | cbn; lia].
Defined.

(** ** The wait for the socket *)

Lemma file_polls_app (a b : list Event) :
  file_polls (a ++ b) = (file_polls a ++ file_polls b)%list.
Proof. unfold file_polls. apply flat_map_app. Qed.

Lemma last_cons_default {A : Type} (a d : A) (l : list A) :
  last (a :: l) d = last l a.
Proof.
  revert a d. induction l as [| b l IH]; intros a d; [reflexivity|].
  change (last (a :: b :: l) d) with (last (b :: l) d).
  rewrite (IH b d), (IH b a). reflexivity.
Qed.

Lemma fcWaitUntilExists_loop_polls (env : Env) (n : nat) path e (w : World) :
  exists b evs,
    fcWaitUntilExists_loop env n path e w =
    (b, mkWorld (w_vm w) (w_trace w ++ evs)) /\
    b = last (file_polls evs) e /\
    Forall (fun x => x = false) (removelast (file_polls evs)) /\
    (List.length (file_polls evs) <= n)%nat /\
    reported_errors evs = [] /\
    (forall a c rc, ~ In (EvTimeBackOffStart a c rc) evs).
Proof.
  revert e w. induction n as [| n IH]; intros e w.
  - exists e, [EvTimeBackOffWait false]. cbn.
    repeat split; auto. intros a c rc [H | []]. discriminate H.
  - cbn [fcWaitUntilExists_loop]. unfold bind, emit. rewrite ask_run.
    cbn [w_vm w_trace].
    destruct (virFileExists env _ path) eqn:E.
    + exists true, [EvTimeBackOffWait true; EvFileExists path true].
      unfold ret. rewrite <- app_assoc. cbn.
      repeat split; auto; try lia.
      intros a c rc [H | [H | []]]; discriminate H.
    + match goal with
      | |- context [fcWaitUntilExists_loop env n path false ?W] =>
          destruct (IH false W) as (b & evs & -> & Hb & Hf & Hl & He & Ht)
      end.
      exists b, (EvTimeBackOffWait true :: EvFileExists path false :: evs).
      cbn [w_vm w_trace]. rewrite <- !app_assoc.
      split; [reflexivity|].
      change (file_polls (EvTimeBackOffWait true :: EvFileExists path false :: evs))
        with (false :: file_polls evs).
      split; [rewrite last_cons_default; exact Hb|].
      split.
      { destruct (file_polls evs) as [| p l] eqn:Ep; [constructor|].
        change (removelast (false :: p :: l)) with (false :: removelast (p :: l)).
        constructor; [reflexivity | exact Hf]. }
      split; [cbn; lia|].
      split; [exact He|].
      intros a c rc [H | [H | H]]; try discriminate H. exact (Ht _ _ _ H).
Qed.

Lemma fcWaitUntilExists_polls (env : Env) (path : option string) (w : World) :
  let first := virFileExists env (w_trace w) path in
  let rc := virTimeBackOffStart env (w_trace w ++ [EvFileExists path first]) in
  exists res tail,
    fcWaitUntilExists env path w =
    (res, mkWorld (w_vm w)
            (w_trace w ++
             EvFileExists path first :: EvTimeBackOffStart 1 10000 rc :: tail)) /\
    (rc < 0 ->
     res = -1 /\
     tail = [EvReportError
               (mkError VIR_ERR_INTERNAL_ERROR
                  "virTimeBackOffStart() returned negative value")]) /\
    (0 <= rc ->
     res = (if last (file_polls tail) first then 0 else -1) /\
     Forall (fun x => x = false) (removelast (file_polls tail)) /\
     (List.length (file_polls tail) <=
      backoff_rounds env
        (w_trace w ++ [EvFileExists path first; EvTimeBackOffStart 1 10000 rc]))%nat /\
     reported_errors tail = []).
Proof.
  cbv zeta.
  unfold fcWaitUntilExists, bind. rewrite !ask_run. cbv zeta.
  cbn [w_vm w_trace fst snd].
  change (MAX_SECONDS_WAITING_UPDATE * 1000) with 10000.
  set (first := virFileExists env (w_trace w) path).
  set (rc := virTimeBackOffStart env _).
  destruct (rc <? 0) eqn:Erc.
  - apply Z.ltb_lt in Erc.
    unfold virReportError, emit, ret. cbn [w_vm w_trace fst snd].
    rewrite <- !app_assoc. cbn [app].
    do 2 eexists. split; [reflexivity|].
    split; [intros _; split; reflexivity | lia].
  - apply Z.ltb_ge in Erc.
    match goal with
    | |- context [fcWaitUntilExists_loop env ?n path first ?W] =>
        destruct (fcWaitUntilExists_loop_polls env n path first W)
          as (b & evs & E & Hb & Hf & Hl & He & Ht)
    end.
    rewrite E. unfold ret. cbn [w_vm w_trace fst snd] in *.
    rewrite <- !app_assoc. cbn [app].
    do 2 eexists. split; [reflexivity|].
    split; [lia|]. intros _.
    split; [rewrite <- Hb; reflexivity|].
    split; [exact Hf|].
    split; [rewrite <- app_assoc in Hl; exact Hl | exact He].
Qed.

(** X7.  [fcWaitUntilExists] looks for the path once, arms the timer with
    a first wait of 1 ms and a limit of 10 s, and then looks again after
    every wait.  When the timer cannot be armed it fails after the first
    look, even if the path was there.  Otherwise its result is that of the
    last look, 0 for found and -1 for not found: the first look does not
    end the wait, every look of the loop but the last one has not found the
    path, and the loop looks at most as often as the timer lets it. *)
Theorem wait_follows_last_poll (env : Env) (path : option string) (w : World) :
  let m := fcWaitUntilExists env path in
  let evs := events_of m w in
  exists first rest rc,
    file_polls evs = first :: rest /\
    In (EvTimeBackOffStart 1 10000 rc) evs /\
    first = virFileExists env (w_trace w) path /\
    (rc < 0 ->
     fst (m w) = -1 /\ rest = [] /\
     reported_errors evs =
     [mkError VIR_ERR_INTERNAL_ERROR
        "virTimeBackOffStart() returned negative value"]) /\
    (0 <= rc ->
     fst (m w) = (if last rest first then 0 else -1) /\
     Forall (fun x => x = false) (removelast rest) /\
     (List.length rest <=
      backoff_rounds env
        (w_trace w ++ [EvFileExists path first; EvTimeBackOffStart 1 10000 rc]))%nat /\
     reported_errors evs = []).
Proof.
  cbv zeta.
  pose proof (fcWaitUntilExists_polls env path w) as H. cbv zeta in H.
  destruct H as (res & tail & E & Hneg & Hpos).
  rewrite (events_of_run _ _ _ _ _ E), E. cbn [fst].
  do 3 eexists.
  split; [reflexivity|]. split; [right; left; reflexivity|].
  split; [reflexivity|].
  split.
  - intros Hrc. destruct (Hneg Hrc) as [-> ->]. repeat split.
  - intros Hrc. destruct (Hpos Hrc) as (-> & Hf & Hl & He).
    repeat split; assumption.
Qed.

Lemma wait_follows_last_poll_witness :
  file_polls (events_of (fcWaitUntilExists env_slow_socket (Some "/s")) w_d1) =
  [false; false; false; true] /\
  fst (fcWaitUntilExists env_slow_socket (Some "/s") w_d1) = 0.
Proof.
  destruct (wait_follows_last_poll env_slow_socket (Some "/s") w_d1)
    as (first & rest & rc & Hp & Hin & Hfirst & _ & H).
  assert (Hpolls :
    file_polls (events_of (fcWaitUntilExists env_slow_socket (Some "/s")) w_d1)
    = [false; false; false; true]) by (vm_compute; reflexivity).
  split; [exact Hpolls|].
  rewrite Hpolls in Hp. injection Hp as <- <-.
  assert (Hrc : 0 <= rc).
  { vm_compute in Hin. destruct Hin as [Hin | [Hin | Hin]].
    - discriminate Hin.
    - injection Hin as <-. discriminate.
    - repeat (destruct Hin as [Hin | Hin]; [discriminate Hin|]). contradiction. }
  destruct (H Hrc) as (Hres & _). exact Hres.
Defined.

(** ** Stopping a guest *)

Lemma rpc_ok_no_errors (r : CurlReply) :
  rpc_result r = 0 -> curl_exec_errors r = [].
Proof.
  unfold rpc_result. intros H.
  destruct (transport_ok r) eqn:Ht.
  - destruct (Z_lt_le_dec (response_code r) 0) as [Hn | Hp].
    + destruct (curl_exec_code_negative r Ht Hn) as [E _].
      rewrite E in H. discriminate H.
    + apply (curl_exec_code_ok r Ht Hp).
  - destruct (curl_exec_code_failed r Ht) as [E _].
    rewrite E in H. discriminate H.
Qed.

Lemma fcStopVM_run (env : Env) (why : virDomainReason) (w : World) :
  fcStopVM env why w =
  (let h := action_type_handle (socketpath (privateData (w_vm w)))
              "SendCtrlAltDel" in
   let r := curl_easy_perform env (w_trace w) h in
   if rpc_result r <? 0 then
     (-1, mkWorld (w_vm w)
            (w_trace w ++ (EvCurl h r :: curl_exec_errors r) ++
             [EvReportError stop_failed]))
   else
     (0, mkWorld (mkObj (with_id (def (w_vm w)) (-1)) VIR_DOMAIN_SHUTOFF why
                        (persistent (w_vm w)) (privateData (w_vm w)))
           (w_trace w ++ EvCurl h r :: curl_exec_errors r))).
Proof.
  unfold fcStopVM, bind, get_private. cbv zeta.
  rewrite virFCMonitorShutdownVM_run. cbv zeta. cbn [w_vm w_trace].
  destruct (rpc_result _ <? 0).
  - unfold virReportError, emit, ret. cbn [w_vm w_trace].
    rewrite <- app_assoc. reflexivity.
  - reflexivity.
Qed.

(** X8.  [fcStopVM] sends one request, the action [SendCtrlAltDel].  When
    the VMM accepts it the guest is left shut off with the reason passed
    and inactive, its definition otherwise unchanged and its private data,
    the process handle included, kept; nothing is reported.  When the
    request is not accepted the guest is left exactly as it was and the
    operation-failed error is the last one reported. *)
Theorem stop_request_effect (env : Env) (why : virDomainReason) (w : World) :
  let m := fcStopVM env why in
  let vm := w_vm w in
  let vm' := w_vm (snd (m w)) in
  let h := action_type_handle (socketpath (privateData vm)) "SendCtrlAltDel" in
  let r := curl_easy_perform env (w_trace w) h in
  curl_requests (events_of m w) = [h] /\
  (rpc_result r = 0 ->
   fst (m w) = 0 /\
   state vm' = VIR_DOMAIN_SHUTOFF /\ reason vm' = why /\
   def vm' = with_id (def vm) (-1) /\
   virDomainObjIsActive vm' = false /\
   privateData vm' = privateData vm /\
   reported_errors (events_of m w) = []) /\
  (rpc_result r <> 0 ->
   fst (m w) = -1 /\ vm' = vm /\
   last_reported (events_of m w) = Some stop_failed).
Proof.
  cbv zeta. pose proof (fcStopVM_run env why w) as E. cbv zeta in E.
  set (r := curl_easy_perform env (w_trace w) _) in *.
  destruct (rpc_result_cases r) as [Hr | Hr]; rewrite Hr in E; fc_cbn_core;
    change (0 <? 0) with false in E; change (-1 <? 0) with true in E;
    rewrite (events_of_run _ _ _ _ _ E), E; cbn [fst snd w_vm].
  - split; [apply curl_requests_one|].
    split; [|intros H; rewrite Hr in H; contradiction].
    intros _. rewrite (rpc_ok_no_errors r Hr). repeat split.
  - split.
    { rewrite curl_requests_app, curl_requests_one. reflexivity. }
    split; [intros H; rewrite Hr in H; discriminate H|].
    intros _. split; [reflexivity|]. split; [reflexivity|].
    apply last_reported_snoc.
Qed.

Lemma stop_request_effect_witness :
  fst (fcStopVM env_ok VIR_DOMAIN_SHUTOFF_SHUTDOWN w_d1_started) = 0 /\
  virDomainObjIsActive
    (w_vm (snd (fcStopVM env_ok VIR_DOMAIN_SHUTOFF_SHUTDOWN w_d1_started)))
  = false /\
  fst (fcStopVM env_unreachable VIR_DOMAIN_SHUTOFF_SHUTDOWN w_d1_started) = -1 /\
  w_vm (snd (fcStopVM env_unreachable VIR_DOMAIN_SHUTOFF_SHUTDOWN w_d1_started))
  = w_vm w_d1_started.
Proof.
  destruct (stop_request_effect env_ok VIR_DOMAIN_SHUTOFF_SHUTDOWN w_d1_started)
    as (_ & H & _).
  destruct H as (H1 & _ & _ & _ & H2 & _); [vm_compute; reflexivity|].
  destruct (stop_request_effect env_unreachable VIR_DOMAIN_SHUTOFF_SHUTDOWN
              w_d1_started) as (_ & _ & H).
  destruct H as (H3 & H4 & _); [vm_compute; discriminate|].
  repeat split; assumption.
Defined.

(** ** Asking for the state *)

Lemma fcDomainGetState_run (env : Env) (w : World) :
  fcDomainGetState env w =
  (let sock := socketpath (privateData (w_vm w)) in
   let r := curl_easy_perform env (w_trace w) (status_handle sock) in
   let st := status_of_reply env r in
   let failed := virDomainState_eqb st VIR_DOMAIN_NOSTATE in
   ((0, if failed then VIR_DOMAIN_SHUTOFF else st),
    mkWorld (mkObj (def (w_vm w))
                   (if failed then VIR_DOMAIN_SHUTOFF else st)
                   (if failed then VIR_DOMAIN_SHUTOFF_UNKNOWN else REASON_0)
                   (persistent (w_vm w)) (privateData (w_vm w)))
            (w_trace w ++ EvCurl (status_handle sock) r :: status_errors env r))).
Proof.
  unfold fcDomainGetState, bind. rewrite fcUpdateState_run. cbv zeta.
  unfold virDomainObjSetState, virDomainObjGetState, ret.
  destruct (virDomainState_eqb _ _); reflexivity.
Qed.

(** X9.  [fcDomainGetState] always succeeds and never answers NOSTATE: it
    sends one status request, answers what the monitor reports, and answers
    SHUTOFF, with the reason unknown, when the refresh fails.  The state it
    answers is the state it leaves cached; the errors of a failed refresh
    stay reported although the call returns 0. *)
Theorem getState_never_nostate (env : Env) (w : World) :
  let m := fcDomainGetState env in
  let vm' := w_vm (snd (m w)) in
  fst (fst (m w)) = 0 /\
  snd (fst (m w)) <> VIR_DOMAIN_NOSTATE /\
  state vm' = snd (fst (m w)) /\
  curl_requests (events_of m w) =
  [status_handle (socketpath (privateData (w_vm w)))] /\
  (refreshed env w <> VIR_DOMAIN_NOSTATE ->
   snd (fst (m w)) = refreshed env w /\ reason vm' = REASON_0) /\
  (refreshed env w = VIR_DOMAIN_NOSTATE ->
   snd (fst (m w)) = VIR_DOMAIN_SHUTOFF /\
   reason vm' = VIR_DOMAIN_SHUTOFF_UNKNOWN /\
   reported_errors (events_of m w) =
   reported_errors (events_of (fcUpdateState env) w)) /\
  def vm' = def (w_vm w) /\ privateData vm' = privateData (w_vm w).
Proof.
  cbv zeta. pose proof (fcDomainGetState_run env w) as E. cbv zeta in E.
  pose proof (fcUpdateState_run env w) as Eu. cbv zeta in Eu.
  rewrite (events_of_run _ _ _ _ _ E), (events_of_run _ _ _ _ _ Eu), E.
  rewrite refreshed_run. cbn [fst snd w_vm state reason def privateData].
  set (st := status_of_reply env _).
  split; [reflexivity|].
  split; [destruct st; cbn; discriminate|].
  split; [reflexivity|].
  split.
  { match goal with
    | |- context [status_errors env ?r] =>
        pose proof (curl_requests_status_errors env r) as Hq
    end.
    obs. rewrite Hq. reflexivity. }
  split; [destruct st; cbn; intros H; try congruence; split; reflexivity|].
  split; [intros ->; repeat split | split; reflexivity].
Qed.

Lemma getState_never_nostate_witness :
  fst (fcDomainGetState env_unreachable w_d1_started) =
  (0, VIR_DOMAIN_SHUTOFF) /\
  fst (fcDomainGetState env_ok w_d1_started) = (0, VIR_DOMAIN_RUNNING).
Proof.
  destruct (getState_never_nostate env_unreachable w_d1_started)
    as (H1 & _ & _ & _ & _ & H2 & _).
  destruct (getState_never_nostate env_ok w_d1_started)
    as (H3 & _ & _ & _ & H4 & _).
  destruct H2 as (H2 & _); [vm_compute; reflexivity|].
  destruct H4 as (H4 & _); [vm_compute; discriminate|].
  split.
  - destruct (fcDomainGetState env_unreachable w_d1_started) as [[a b] c].
    cbn in *. subst. reflexivity.
  - destruct (fcDomainGetState env_ok w_d1_started) as [[a b] c].
    cbn in *. subst. vm_compute. reflexivity.
Defined.

(** ** Destroying a guest *)

Lemma fcDomainDestroyFlags_run (env : Env) (w : World) :
  fcDomainDestroyFlags env false w =
  (let p := privateData (w_vm w) in
   if virDomainState_eqb (state (w_vm w)) VIR_DOMAIN_RUNNING then
     let rc := g_remove env (w_trace w ++ [EvCommandAbort (fc_process p)])
                 (socketpath p) in
     (0, mkWorld (mkObj (with_id (def (w_vm w)) (-1)) VIR_DOMAIN_SHUTOFF
                        VIR_DOMAIN_SHUTOFF_DESTROYED (persistent (w_vm w)) p)
           (w_trace w ++
            [EvCommandAbort (fc_process p); EvRemove (socketpath p) rc]))
   else
     (-1, mkWorld (w_vm w) (w_trace w ++ [EvReportError destroy_not_running]))).
Proof.
  destruct w as [vm t].
  unfold fcDomainDestroyFlags. driver_unfold. fc_cbn.
  destruct (virDomainState_eqb (state vm) VIR_DOMAIN_RUNNING); fc_cbn.
  - rewrite ask_run. fc_cbn.
    destruct (g_remove env _ _ <? 0); fc_cbn;
      rewrite <- !app_assoc; reflexivity.
  - reflexivity.
Qed.

Lemma virDomainState_eqb_spec (a b : virDomainState) :
  virDomainState_eqb a b = true <-> a = b.
Proof. destruct a, b; cbn; split; congruence. Qed.

Lemma virDomainState_eqb_neq (a b : virDomainState) :
  virDomainState_eqb a b = false <-> a <> b.
Proof. destruct a, b; cbn; split; congruence. Qed.

(** X10.  Without the graceful flag, [fcDomainDestroyFlags] decides on the
    cached state alone and sends nothing to the VMM.  For a guest cached as
    RUNNING it aborts the recorded process, removes the socket file without
    looking at the outcome, and leaves the guest shut off, with the reason
    destroyed, and inactive; the private data, the process handle included,
    stay as they were.  For any other cached state it reports the
    operation-invalid error and changes nothing.  With the graceful flag it
    is [fcDomainShutdownFlags]. *)
Theorem destroy_uses_cached_state (env : Env) (w : World) :
  let m := fcDomainDestroyFlags env false in
  let vm := w_vm w in
  let vm' := w_vm (snd (m w)) in
  curl_requests (events_of m w) = [] /\
  (state vm = VIR_DOMAIN_RUNNING ->
   fst (m w) = 0 /\
   (exists rc,
      events_of m w =
      [EvCommandAbort (fc_process (privateData vm));
       EvRemove (socketpath (privateData vm)) rc]) /\
   state vm' = VIR_DOMAIN_SHUTOFF /\
   reason vm' = VIR_DOMAIN_SHUTOFF_DESTROYED /\
   def vm' = with_id (def vm) (-1) /\
   virDomainObjIsActive vm' = false /\
   privateData vm' = privateData vm) /\
  (state vm <> VIR_DOMAIN_RUNNING ->
   fst (m w) = -1 /\
   events_of m w = [EvReportError destroy_not_running] /\
   vm' = vm) /\
  fcDomainDestroyFlags env true w = fcDomainShutdownFlags env w.
Proof.
  cbv zeta. pose proof (fcDomainDestroyFlags_run env w) as E. cbv zeta in E.
  destruct (virDomainState_eqb (state (w_vm w)) VIR_DOMAIN_RUNNING) eqn:Es;
    rewrite (events_of_run _ _ _ _ _ E), E; cbn [fst snd w_vm].
  - apply virDomainState_eqb_spec in Es.
    split; [reflexivity|].
    split; [|split; [intros H; contradiction | reflexivity]].
    intros _. split; [reflexivity|]. split; [eexists; reflexivity|].
    repeat split.
  - apply virDomainState_eqb_neq in Es.
    split; [reflexivity|].
    split; [intros H; contradiction|].
    split; [|reflexivity]. intros _. repeat split.
Qed.

Lemma destroy_uses_cached_state_witness :
  fst (fcDomainDestroyFlags env_unreachable false w_d1_started) = 0 /\
  events_of (fcDomainDestroyFlags env_unreachable false) w_d1_started =
  [EvCommandAbort (fc_process (privateData (w_vm w_d1_started)));
   EvRemove (Some "/var/run/libvirt/fc/d1/firecracker-lv.socket") 0] /\
  fst (fcDomainDestroyFlags env_ok false w_d1) = -1.
Proof.
  destruct (destroy_uses_cached_state env_unreachable w_d1_started)
    as (_ & H & _).
  destruct H as (H1 & _); [vm_compute; reflexivity|].
  destruct (destroy_uses_cached_state env_ok w_d1) as (_ & _ & H & _).
  destruct H as (H2 & _); [vm_compute; discriminate|].
  split; [exact H1|]. split; [vm_compute; reflexivity | exact H2].
Defined.

(** ** Suspend and resume, continued *)

Ltac state_change_run w :=
  destruct w as [? ?];
  driver_unfold; rewrite fcUpdateState_run; cbv zeta; fc_cbn;
  match goal with
  | |- context [status_of_reply ?e ?r] =>
      destruct (status_of_reply e r); fc_norm
  end;
  try (rewrite <- !app_assoc; reflexivity);
  rewrite virFCMonitorChangeState_run;
  match goal with
  | |- context [STRNEQ ?a ?b && STRNEQ ?a ?c] =>
      change (STRNEQ a b && STRNEQ a c) with false
  end;
  fc_norm;
  match goal with
  | |- context [rpc_result ?r <? 0] => destruct (rpc_result r <? 0); fc_norm
  end;
  rewrite <- !app_assoc; reflexivity.

Lemma fcDomainSuspend_run (env : Env) (w : World) :
  fcDomainSuspend env w =
  (let vm := w_vm w in
   let sock := socketpath (privateData vm) in
   let r0 := curl_easy_perform env (w_trace w) (status_handle sock) in
   let st := status_of_reply env r0 in
   let t1 := (w_trace w ++ EvCurl (status_handle sock) r0 :: status_errors env r0)%list in
   let seen := mkObj (def vm) st REASON_0 (persistent vm) (privateData vm) in
   let h := change_state_handle sock "Paused" in
   let r1 := curl_easy_perform env t1 h in
   match st with
   | VIR_DOMAIN_NOSTATE =>
       (-1, mkWorld seen (t1 ++ [EvReportError refresh_failed]))
   | VIR_DOMAIN_RUNNING =>
       if rpc_result r1 <? 0 then
         (-1, mkWorld seen
                (t1 ++ (EvCurl h r1 :: curl_exec_errors r1) ++
                 [EvReportError suspend_failed]))
       else
         (0, mkWorld (mkObj (def vm) VIR_DOMAIN_PAUSED VIR_DOMAIN_PAUSED_USER
                            (persistent vm) (privateData vm))
               (t1 ++ EvCurl h r1 :: curl_exec_errors r1))
   | _ => (-1, mkWorld seen (t1 ++ [EvReportError not_running]))
   end).
Proof. cbv zeta. state_change_run w. Qed.

Lemma fcDomainResume_run (env : Env) (w : World) :
  fcDomainResume env w =
  (let vm := w_vm w in
   let sock := socketpath (privateData vm) in
   let r0 := curl_easy_perform env (w_trace w) (status_handle sock) in
   let st := status_of_reply env r0 in
   let t1 := (w_trace w ++ EvCurl (status_handle sock) r0 :: status_errors env r0)%list in
   let seen := mkObj (def vm) st REASON_0 (persistent vm) (privateData vm) in
   let h := change_state_handle sock "Resumed" in
   let r1 := curl_easy_perform env t1 h in
   match st with
   | VIR_DOMAIN_NOSTATE =>
       (-1, mkWorld seen (t1 ++ [EvReportError refresh_failed]))
   | VIR_DOMAIN_PAUSED =>
       if rpc_result r1 <? 0 then
         (-1, mkWorld seen
                (t1 ++ (EvCurl h r1 :: curl_exec_errors r1) ++
                 [EvReportError resume_failed]))
       else
         (0, mkWorld (mkObj (def vm) VIR_DOMAIN_RUNNING
                            VIR_DOMAIN_RUNNING_UNPAUSED
                            (persistent vm) (privateData vm))
               (t1 ++ EvCurl h r1 :: curl_exec_errors r1))
   | _ => (-1, mkWorld seen (t1 ++ [EvReportError not_paused]))
   end).
Proof. cbv zeta. state_change_run w. Qed.

Lemma status_handle_requests (env : Env) (h : CurlHandle) (r : CurlReply) :
  curl_requests (EvCurl h r :: status_errors env r) = [h].
Proof.
  change (EvCurl h r :: status_errors env r)
    with ([EvCurl h r] ++ status_errors env r)%list.
  rewrite curl_requests_app, curl_requests_status_errors. reflexivity.
Qed.

(** X11.  [fcDomainSuspend] refreshes the state first.  When the refresh
    reports anything but RUNNING the call fails, sends nothing but the
    status request and leaves the refreshed state cached; its error is the
    not-running error when the refresh reported PAUSED or SHUTOFF and the
    refresh error when the refresh failed. *)
Theorem suspend_guard (env : Env) (w : World) (s : virDomainState) :
  let m := fcDomainSuspend env in
  refreshed env w = s -> s <> VIR_DOMAIN_RUNNING ->
  fst (m w) = -1 /\
  curl_requests (events_of m w) =
  [status_handle (socketpath (privateData (w_vm w)))] /\
  state (w_vm (snd (m w))) = s /\
  (s <> VIR_DOMAIN_NOSTATE -> last_reported (events_of m w) = Some not_running) /\
  (s = VIR_DOMAIN_NOSTATE -> last_reported (events_of m w) = Some refresh_failed).
Proof.
  cbv zeta. rewrite refreshed_run. intros H Hs.
  pose proof (fcDomainSuspend_run env w) as E. cbv zeta in E.
  rewrite H in E.
  destruct s; try congruence; rewrite <- app_assoc in E;
    rewrite (events_of_run _ _ _ _ _ E), E; cbn [fst snd w_vm state];
    rewrite last_reported_snoc, curl_requests_app, status_handle_requests;
    repeat split; try reflexivity; try congruence; discriminate.
Qed.

Lemma suspend_guard_witness :
  fst (fcDomainSuspend (env_answering 200 "Paused") w_d1_started) = -1 /\
  last_reported
    (events_of (fcDomainSuspend (env_answering 200 "Paused")) w_d1_started) =
  Some not_running.
Proof.
  destruct (suspend_guard (env_answering 200 "Paused") w_d1_started
              VIR_DOMAIN_PAUSED) as (H1 & _ & _ & H2 & _);
    [vm_compute; reflexivity | discriminate |].
  split; [exact H1 | apply H2; discriminate].
Defined.

(** X12.  A run-state change the VMM does not accept changes nothing: when
    the refresh reports RUNNING and the PATCH to [Paused] is not accepted,
    suspend fails with its internal error and the cached state stays
    RUNNING; when the refresh reports PAUSED and the PATCH to [Resumed] is
    not accepted, resume fails with its internal error and the cached state
    stays PAUSED.  Both have then sent the status request and the PATCH. *)
Theorem rejected_patch_keeps_state (env : Env) (w : World) :
  let sock := socketpath (privateData (w_vm w)) in
  (refreshed env w = VIR_DOMAIN_RUNNING ->
   rpc_result (patch_reply env w "Paused") <> 0 ->
   fst (fcDomainSuspend env w) = -1 /\
   state (w_vm (snd (fcDomainSuspend env w))) = VIR_DOMAIN_RUNNING /\
   curl_requests (events_of (fcDomainSuspend env) w) =
   [status_handle sock; change_state_handle sock "Paused"] /\
   last_reported (events_of (fcDomainSuspend env) w) = Some suspend_failed) /\
  (refreshed env w = VIR_DOMAIN_PAUSED ->
   rpc_result (patch_reply env w "Resumed") <> 0 ->
   fst (fcDomainResume env w) = -1 /\
   state (w_vm (snd (fcDomainResume env w))) = VIR_DOMAIN_PAUSED /\
   curl_requests (events_of (fcDomainResume env) w) =
   [status_handle sock; change_state_handle sock "Resumed"] /\
   last_reported (events_of (fcDomainResume env) w) = Some resume_failed).
Proof.
  cbv zeta. rewrite refreshed_run, !patch_reply_run. cbv zeta.
  split; intros H Hp.
  - pose proof (fcDomainSuspend_run env w) as E. cbv zeta in E.
    rewrite H in E.
    match type of Hp with
    | rpc_result ?r <> 0 =>
        destruct (rpc_result_cases r) as [Hr | Hr]; [contradiction|];
        rewrite Hr in E
    end.
    change (-1 <? 0) with true in E. cbv iota in E.
    rewrite <- app_assoc in E.
    rewrite (events_of_run _ _ _ _ _ E), E. cbn [fst snd w_vm state].
    rewrite app_assoc, last_reported_snoc.
    rewrite !curl_requests_app, status_handle_requests, curl_requests_one.
    repeat split.
  - pose proof (fcDomainResume_run env w) as E. cbv zeta in E.
    rewrite H in E.
    match type of Hp with
    | rpc_result ?r <> 0 =>
        destruct (rpc_result_cases r) as [Hr | Hr]; [contradiction|];
        rewrite Hr in E
    end.
    change (-1 <? 0) with true in E. cbv iota in E.
    rewrite <- app_assoc in E.
    rewrite (events_of_run _ _ _ _ _ E), E. cbn [fst snd w_vm state].
    rewrite app_assoc, last_reported_snoc.
    rewrite !curl_requests_app, status_handle_requests, curl_requests_one.
    repeat split.
Qed.

Lemma rejected_patch_keeps_state_witness :
  fst (fcDomainSuspend (env_rejecting "Running") w_d1_started) = -1 /\
  state (w_vm (snd (fcDomainSuspend (env_rejecting "Running") w_d1_started)))
  = VIR_DOMAIN_RUNNING /\
  last_reported
    (events_of (fcDomainSuspend (env_rejecting "Running")) w_d1_started) =
  Some suspend_failed.
Proof.
  destruct (rejected_patch_keeps_state (env_rejecting "Running") w_d1_started)
    as [H _].
  destruct H as (H1 & H2 & _ & H3);
    [vm_compute; reflexivity | vm_compute; discriminate |].
  repeat split; assumption.
Defined.

Lemma fcDomainSuspend_paused (env : Env) (w : World) :
  fst (fcDomainSuspend env w) = 0 ->
  state (w_vm (snd (fcDomainSuspend env w))) = VIR_DOMAIN_PAUSED /\
  reason (w_vm (snd (fcDomainSuspend env w))) = VIR_DOMAIN_PAUSED_USER /\
  def (w_vm (snd (fcDomainSuspend env w))) = def (w_vm w) /\
  privateData (w_vm (snd (fcDomainSuspend env w))) = privateData (w_vm w).
Proof.
  rewrite fcDomainSuspend_run. cbv zeta.
  destruct (status_of_reply env _); cbn [fst]; try discriminate.
  destruct (rpc_result _ <? 0); cbn [fst snd w_vm state]; try discriminate.
  intros _. repeat split.
Qed.

(** ** Shutdown, continued *)

Ltac norm_trace :=
  repeat first [ rewrite <- app_assoc | progress cbn [app] | rewrite app_nil_r ].

Lemma fcDomainShutdownFlags_run (env : Env) (w : World) :
  fcDomainShutdownFlags env w =
  (let vm := w_vm w in
   let p := privateData vm in
   let sock := socketpath p in
   let r0 := curl_easy_perform env (w_trace w) (status_handle sock) in
   let st := status_of_reply env r0 in
   let t1 := (w_trace w ++ EvCurl (status_handle sock) r0 :: status_errors env r0)%list in
   let seen := mkObj (def vm) st REASON_0 (persistent vm) p in
   let h := action_type_handle sock "SendCtrlAltDel" in
   let r1 := curl_easy_perform env t1 h in
   let t2 := (t1 ++ (EvCurl h r1 :: curl_exec_errors r1) ++
              (if persistent vm then [] else [EvDomainObjListRemove]))%list in
   let rcw := virCommandWait env t2 (fc_process p) in
   let rcr := g_remove env
                (t2 ++ [EvCommandWait (fc_process p) rcw;
                        EvCommandFree (fc_process p)]) sock in
   match st with
   | VIR_DOMAIN_NOSTATE =>
       (-1, mkWorld seen
              (t1 ++ [EvReportError
                        (if virDomainState_eqb (state vm) VIR_DOMAIN_SHUTOFF
                         then not_running else refresh_failed)]))
   | VIR_DOMAIN_RUNNING =>
       if rpc_result r1 <? 0 then
         (-1, mkWorld seen
                (t1 ++ (EvCurl h r1 :: curl_exec_errors r1) ++
                 [EvReportError stop_failed]))
       else if rcw <? 0 then
         (-1, mkWorld (mkObj (with_id (def vm) (-1)) VIR_DOMAIN_SHUTOFF
                             VIR_DOMAIN_SHUTOFF_SHUTDOWN (persistent vm) p)
                (t2 ++ [EvCommandWait (fc_process p) rcw;
                        EvReportError reap_failed]))
       else
         (0, mkWorld (mkObj (with_id (def vm) (-1)) VIR_DOMAIN_SHUTOFF
                            VIR_DOMAIN_SHUTOFF_SHUTDOWN (persistent vm)
                            (mkPrivate (console_pty_path p) (vm_dir p)
                                       (socketpath p) None))
               (t2 ++ [EvCommandWait (fc_process p) rcw;
                       EvCommandFree (fc_process p);
                       EvRemove sock rcr]))
   | _ => (-1, mkWorld seen (t1 ++ [EvReportError not_running]))
   end).
Proof.
  destruct w as [vm t]. cbv zeta.
  driver_unfold. rewrite fcUpdateState_run. cbv zeta. fc_cbn.
  destruct (persistent vm) eqn:Ep;
    destruct (status_of_reply env _);
    destruct (virDomainState_eqb (state vm) VIR_DOMAIN_SHUTOFF);
    fc_norm; norm_trace; try reflexivity.
  all: rewrite virFCMonitorShutdownVM_run; fc_norm; norm_trace.
  all: destruct (rpc_result _ <? 0); fc_norm; norm_trace; try reflexivity.
  all: rewrite ?Ep; fc_norm; rewrite ask_run; fc_norm; norm_trace.
  all: destruct (virCommandWait env _ _ <? 0); fc_norm; norm_trace;
    try reflexivity.
  all: rewrite ask_run; fc_norm; norm_trace.
  all: destruct (g_remove env _ _ <? 0); fc_norm; norm_trace; reflexivity.
Qed.

Lemma status_errors_monitor (env : Env) (r : CurlReply) :
  Forall monitor_event (status_errors env r).
Proof.
  unfold status_errors, info_errors.
  repeat match goal with
         | |- context [if ?c then _ else _] => destruct c
         | |- context [match ?c with _ => _ end] => destruct c
         end; repeat constructor; apply monitor_event_exec_errors.
Qed.

Lemma status_known_no_errors (env : Env) (r : CurlReply) :
  status_of_reply env r <> VIR_DOMAIN_NOSTATE -> status_errors env r = [].
Proof.
  unfold status_of_reply, status_errors, info_state, info_errors.
  repeat match goal with
         | |- context [if ?c then _ else _] => destruct c
         | |- context [match ?c with _ => _ end] => destruct c
         end; try reflexivity; intros H; exfalso; apply H; reflexivity.
Qed.

Lemma monitor_event_keeps (l : list Event) :
  Forall monitor_event l ->
  Forall keeps_directory l /\ Forall keeps_process l.
Proof.
  induction 1 as [| e l He _ [IH1 IH2]]; [split; constructor|].
  destruct e; cbn in He; try contradiction;
    split; constructor; cbn; auto.
Qed.

Lemma monitor_event_in (l : list Event) (e : Event) :
  Forall monitor_event l -> In e l -> monitor_event e.
Proof. intros H Hin. rewrite Forall_forall in H. auto. Qed.

(** X13.  A shutdown that returns 0 has sent the status request, which
    reported RUNNING, and the [SendCtrlAltDel] action, which the VMM
    accepted; it has then dropped a transient guest from the list of
    domains, waited for the process, freed its handle and removed the socket
    file, in this order, and reported nothing.  The guest is left shut off,
    with the reason shutdown, inactive and without a process handle; its
    directory and socket paths are kept. *)
Theorem shutdown_success_sequence (env : Env) (w : World) :
  let m := fcDomainShutdownFlags env in
  let vm := w_vm w in
  let p := privateData vm in
  let sock := socketpath p in
  let vm' := w_vm (snd (m w)) in
  fst (m w) = 0 ->
  refreshed env w = VIR_DOMAIN_RUNNING /\
  state vm' = VIR_DOMAIN_SHUTOFF /\
  reason vm' = VIR_DOMAIN_SHUTOFF_SHUTDOWN /\
  def vm' = with_id (def vm) (-1) /\
  virDomainObjIsActive vm' = false /\
  privateData vm' =
  mkPrivate (console_pty_path p) (vm_dir p) (socketpath p) None /\
  reported_errors (events_of m w) = [] /\
  exists r0 r1 rcw rcr,
    rpc_result r1 = 0 /\ 0 <= rcw /\
    events_of m w =
    ([EvCurl (status_handle sock) r0;
      EvCurl (action_type_handle sock "SendCtrlAltDel") r1] ++
     (if persistent vm then [] else [EvDomainObjListRemove]) ++
     [EvCommandWait (fc_process p) rcw; EvCommandFree (fc_process p);
      EvRemove sock rcr])%list.
Proof.
  cbv zeta. rewrite refreshed_run.
  pose proof (fcDomainShutdownFlags_run env w) as E. cbv zeta in E.
  set (r0 := curl_easy_perform env (w_trace w) _) in *.
  destruct (status_of_reply env r0) eqn:Est;
    try (rewrite E; cbn [fst]; discriminate).
  rewrite status_known_no_errors in E by (rewrite Est; discriminate).
  set (r1 := curl_easy_perform env _ (action_type_handle _ _)) in *.
  destruct (rpc_result r1 <? 0) eqn:Er1;
    try (rewrite E; cbn [fst]; discriminate).
  apply rpc_result_nonneg in Er1.
  rewrite (rpc_ok_no_errors _ Er1) in E.
  set (rcw := virCommandWait env _ _) in *.
  destruct (rcw <? 0) eqn:Ew;
    try (rewrite E; cbn [fst]; discriminate).
  apply Z.ltb_ge in Ew.
  set (rcr := g_remove env _ _) in *.
  clearbody r0 r1 rcw rcr.
  intros _.
  rewrite <- !app_assoc in E. cbn [app] in E.
  rewrite (events_of_run _ _ _ _ _ E), E. cbn [fst snd w_vm].
  split; [reflexivity|]. repeat (split; [reflexivity|]).
  split.
  { destruct (persistent (w_vm w)); reflexivity. }
  exists r0, r1, rcw, rcr. split; [exact Er1|]. split; [exact Ew|].
  reflexivity.
Qed.

Lemma shutdown_success_sequence_witness :
  fst (fcDomainShutdownFlags env_ok w_d1_started) = 0 /\
  state (w_vm (snd (fcDomainShutdownFlags env_ok w_d1_started))) =
  VIR_DOMAIN_SHUTOFF /\
  fc_process (privateData (w_vm (snd (fcDomainShutdownFlags env_ok w_d1_started))))
  = None.
Proof.
  assert (H0 : fst (fcDomainShutdownFlags env_ok w_d1_started) = 0)
    by (vm_compute; reflexivity).
  destruct (shutdown_success_sequence env_ok w_d1_started H0)
    as (_ & H1 & _ & _ & _ & H2 & _).
  split; [exact H0|]. split; [exact H1|]. rewrite H2. reflexivity.
Defined.

Lemma last_reported_app (a b : list Event) :
  last_reported (a ++ b) =
  match last_reported b with
  | Some e => Some e
  | None => last_reported a
  end.
Proof.
  unfold last_reported. rewrite reported_errors_app, rev_app_distr.
  destruct (rev (reported_errors b)); reflexivity.
Qed.

(** The last error of a trace that ends in explicit events. *)
Ltac last_reported_tail :=
  rewrite ?app_comm_cons; rewrite ?app_assoc; rewrite last_reported_app;
  reflexivity.

Ltac no_such_event Hin :=
  repeat first
    [ contradiction
    | discriminate Hin
    | match type of Hin with
      | In _ (_ ++ _) =>
          apply in_app_or in Hin; destruct Hin as [Hin | Hin]
      | In _ (_ :: _) => destruct Hin as [Hin | Hin]
      | In _ (status_errors _ _) =>
          apply (monitor_event_in _ _ (status_errors_monitor _ _)) in Hin
      | In _ (curl_exec_errors _) =>
          apply (monitor_event_in _ _ (monitor_event_exec_errors _)) in Hin
      | In _ (if ?c then _ else _) => destruct c
      | In _ [] => contradiction
      end ].

(** X14.  When the wait for the firecracker process fails during a
    shutdown, the call returns -1 with the reaping error, but the guest has
    already been stopped: it is left shut off and inactive, the process
    handle is kept in the private data and not freed, and the socket file
    is not removed. *)
Theorem shutdown_reap_failure (env : Env) (w : World)
    (c : option virCommand) (rc : Z) :
  let m := fcDomainShutdownFlags env in
  let vm' := w_vm (snd (m w)) in
  In (EvCommandWait c rc) (events_of m w) -> rc < 0 ->
  fst (m w) = -1 /\
  c = fc_process (privateData (w_vm w)) /\
  state vm' = VIR_DOMAIN_SHUTOFF /\
  reason vm' = VIR_DOMAIN_SHUTOFF_SHUTDOWN /\
  virDomainObjIsActive vm' = false /\
  privateData vm' = privateData (w_vm w) /\
  last_reported (events_of m w) = Some reap_failed /\
  (forall p r, ~ In (EvRemove p r) (events_of m w)) /\
  (forall c', ~ In (EvCommandFree c') (events_of m w)).
Proof.
  cbv zeta.
  pose proof (fcDomainShutdownFlags_run env w) as E. cbv zeta in E.
  set (r0 := curl_easy_perform env (w_trace w) _) in *.
  set (r1 := curl_easy_perform env _ (action_type_handle _ _)) in *.
  set (rcw := virCommandWait env _ _) in *.
  set (rcr := g_remove env _ _) in *.
  clearbody r0 r1 rcw rcr.
  destruct (status_of_reply env r0);
    [ | destruct (rpc_result r1 <? 0);
        [ | destruct (rcw <? 0) eqn:Ew ] | | ];
    rewrite <- ?app_assoc in E; cbn [app] in E;
    rewrite (events_of_run _ _ _ _ _ E), E; cbn [fst snd w_vm];
    intros Hin Hrc.
  1, 2, 5, 6: exfalso; no_such_event Hin.
  - (* the wait has failed *)
    assert (Hc : c = fc_process (privateData (w_vm w)) /\ rc = rcw).
    { no_such_event Hin; injection Hin as <- <-; split; reflexivity. }
    destruct Hc as [-> ->].
    split; [reflexivity|]. split; [reflexivity|].
    repeat (split; [reflexivity|]).
    split; [last_reported_tail|].
    split.
    + intros p r H. no_such_event H.
    + intros c' H. no_such_event H.
  - (* the wait has succeeded: its code is not negative *)
    exfalso. apply Z.ltb_ge in Ew.
    assert (rc = rcw) by (no_such_event Hin; injection Hin as _ <-; reflexivity).
    lia.
Qed.

Lemma shutdown_reap_failure_witness :
  fst (fcDomainShutdownFlags (env_ok_but 0 (-1)) w_d1_started) = -1 /\
  state (w_vm (snd (fcDomainShutdownFlags (env_ok_but 0 (-1)) w_d1_started))) =
  VIR_DOMAIN_SHUTOFF /\
  fc_process
    (privateData (w_vm (snd (fcDomainShutdownFlags (env_ok_but 0 (-1))
                               w_d1_started)))) =
  fc_process (privateData (w_vm w_d1_started)).
Proof.
  assert (Hin : In (EvCommandWait (fc_process (privateData (w_vm w_d1_started)))
                      (-1))
                   (events_of (fcDomainShutdownFlags (env_ok_but 0 (-1)))
                              w_d1_started)).
  { vm_compute. repeat first [left; reflexivity | right]. }
  destruct (shutdown_reap_failure (env_ok_but 0 (-1)) w_d1_started _ _ Hin)
    as (H1 & _ & H2 & _ & _ & H3 & _); [lia|].
  split; [exact H1|]. split; [exact H2|]. rewrite H3. reflexivity.
Defined.

(** X15.  Neither a shutdown nor a destroy touches the guest's directory:
    no tree is deleted and no directory is created, so the log files of the
    process stay until the next start recreates the directory.  A shutdown
    does not abort the process either; it only waits for it. *)
Theorem stop_keeps_directory (env : Env) (w : World) (graceful : bool) :
  Forall keeps_directory (events_of (fcDomainDestroyFlags env graceful) w) /\
  Forall keeps_directory (events_of (fcDomainShutdownFlags env) w) /\
  Forall keeps_process (events_of (fcDomainShutdownFlags env) w) /\
  vm_dir (privateData (w_vm (snd (fcDomainDestroyFlags env graceful w)))) =
  vm_dir (privateData (w_vm w)).
Proof.
  assert (Hs : Forall keeps_directory (events_of (fcDomainShutdownFlags env) w) /\
               Forall keeps_process (events_of (fcDomainShutdownFlags env) w) /\
               vm_dir (privateData (w_vm (snd (fcDomainShutdownFlags env w)))) =
               vm_dir (privateData (w_vm w))).
  { pose proof (fcDomainShutdownFlags_run env w) as E. cbv zeta in E.
    set (r0 := curl_easy_perform env (w_trace w) _) in *.
    set (r1 := curl_easy_perform env _ (action_type_handle _ _)) in *.
    set (rcw := virCommandWait env _ _) in *.
    set (rcr := g_remove env _ _) in *.
    clearbody r0 r1 rcw rcr.
    pose proof (monitor_event_keeps _ (status_errors_monitor env r0)) as [? ?].
    pose proof (monitor_event_keeps _ (monitor_event_exec_errors r1)) as [? ?].
    destruct (status_of_reply env r0);
      [ | destruct (rpc_result r1 <? 0);
          [ | destruct (rcw <? 0) ] | | ];
      rewrite <- ?app_assoc in E; cbn [app] in E;
      rewrite (events_of_run _ _ _ _ _ E), E; cbn [fst snd w_vm];
      (split; [|split; [|reflexivity]]);
      repeat first
        [ apply Forall_nil
        | assumption
        | apply Forall_cons; [exact I|]
        | apply Forall_app; split
        | match goal with
          | |- context [if ?c then _ else _] => destruct c
          end ]. }
  destruct Hs as (Hs1 & Hs2 & Hs3).
  split; [|split; [exact Hs1 | split; [exact Hs2|]]].
  - destruct graceful; [exact Hs1|].
    pose proof (fcDomainDestroyFlags_run env w) as E. cbv zeta in E.
    destruct (virDomainState_eqb _ _);
      rewrite (events_of_run _ _ _ _ _ E); repeat constructor.
  - destruct graceful; [exact Hs3|].
    rewrite fcDomainDestroyFlags_run. cbv zeta.
    destruct (virDomainState_eqb _ _); reflexivity.
Qed.

(** X16.  A guest that has just been suspended cannot be stopped: destroy
    without the graceful flag refuses it on the cached state PAUSED, with
    the operation-invalid error, and neither aborts the process nor changes
    the guest; and as long as the VMM reports it as paused a shutdown, and
    so a graceful destroy, fails at the running check without sending the
    stop request. *)
Theorem paused_guest_is_not_stopped (env env' : Env) (w : World) :
  fst (fcDomainSuspend env w) = 0 ->
  let w1 := snd (fcDomainSuspend env w) in
  state (w_vm w1) = VIR_DOMAIN_PAUSED /\
  fst (fcDomainDestroyFlags env' false w1) = -1 /\
  events_of (fcDomainDestroyFlags env' false) w1 =
  [EvReportError destroy_not_running] /\
  w_vm (snd (fcDomainDestroyFlags env' false w1)) = w_vm w1 /\
  (refreshed env' w1 = VIR_DOMAIN_PAUSED ->
   fst (fcDomainDestroyFlags env' true w1) = -1 /\
   curl_requests (events_of (fcDomainDestroyFlags env' true) w1) =
   [status_handle (socketpath (privateData (w_vm w1)))] /\
   last_reported (events_of (fcDomainDestroyFlags env' true) w1) =
   Some not_running).
Proof.
  intros H0. cbv zeta.
  destruct (fcDomainSuspend_paused env w H0) as (Hst & _).
  set (w1 := snd (fcDomainSuspend env w)) in *. clearbody w1.
  split; [exact Hst|].
  pose proof (fcDomainDestroyFlags_run env' w1) as E. cbv zeta in E.
  rewrite Hst in E. cbn [virDomainState_eqb] in E.
  rewrite (events_of_run _ _ _ _ _ E), E. cbn [fst snd w_vm].
  repeat (split; [reflexivity|]).
  rewrite refreshed_run. intros Hr.
  change (fcDomainDestroyFlags env' true) with (fcDomainShutdownFlags env').
  pose proof (fcDomainShutdownFlags_run env' w1) as Es. cbv zeta in Es.
  rewrite Hr in Es. rewrite <- app_assoc in Es.
  rewrite (events_of_run _ _ _ _ _ Es), Es. cbn [fst].
  rewrite last_reported_snoc, curl_requests_app, status_handle_requests.
  repeat split.
Qed.

Lemma paused_guest_is_not_stopped_witness :
  state (w_vm (snd (fcDomainSuspend env_pausing w_d1_started))) =
  VIR_DOMAIN_PAUSED /\
  fst (fcDomainDestroyFlags env_pausing false
         (snd (fcDomainSuspend env_pausing w_d1_started))) = -1 /\
  fst (fcDomainDestroyFlags env_pausing true
         (snd (fcDomainSuspend env_pausing w_d1_started))) = -1.
Proof.
  assert (H0 : fst (fcDomainSuspend env_pausing w_d1_started) = 0)
    by (vm_compute; reflexivity).
  destruct (paused_guest_is_not_stopped env_pausing env_pausing w_d1_started H0)
    as (H1 & H2 & _ & _ & H3).
  destruct H3 as (H3 & _); [vm_compute; reflexivity|].
  repeat split; assumption.
Defined.

(** ** Undefining a guest *)

Lemma events_of_none {A : Type} (m : M A) (w : World) vm :
  snd (m w) = mkWorld vm (w_trace w) -> events_of m w = [].
Proof. unfold events_of. intros ->. cbn. apply skipn_all. Qed.

Lemma fcDomainUndefineFlags_run (w : World) :
  fcDomainUndefineFlags w =
  (let vm := w_vm w in
   if negb (persistent vm) then
     (-1, mkWorld vm (w_trace w ++ [EvReportError undefine_transient]))
   else if virDomainObjIsActive vm then
     (0, mkWorld (mkObj (def vm) (state vm) (reason vm) false (privateData vm))
           (w_trace w))
   else (0, mkWorld vm (w_trace w ++ [EvDomainObjListRemove]))).
Proof.
  destruct w as [vm t]. unfold fcDomainUndefineFlags, bind, get_vm. cbv zeta.
  cbn [fst snd w_vm w_trace].
  destruct (negb (persistent vm)); [reflexivity|].
  destruct (virDomainObjIsActive vm); reflexivity.
Qed.

Lemma fcDomainUndefineFlags_active (env : Env) (w : World) :
  persistent (w_vm w) = true -> virDomainObjIsActive (w_vm w) = true ->
  let w1 := snd (fcDomainUndefineFlags w) in
  fst (fcDomainUndefineFlags w) = 0 /\
  events_of fcDomainUndefineFlags w = [] /\
  w_vm w1 = mkObj (def (w_vm w)) (state (w_vm w)) (reason (w_vm w)) false
                  (privateData (w_vm w)) /\
  fst (fcDomainUndefineFlags w1) = -1 /\
  events_of fcDomainUndefineFlags w1 = [EvReportError undefine_transient] /\
  (fst (fcDomainShutdownFlags env w1) = 0 ->
   In EvDomainObjListRemove (events_of (fcDomainShutdownFlags env) w1)) /\
  ~ In EvDomainObjListRemove (events_of (fcDomainDestroyFlags env false) w1).
Proof.
  intros Hp Ha. cbv zeta.
  pose proof (fcDomainUndefineFlags_run w) as E. cbv zeta in E.
  rewrite Hp, Ha in E. cbn [negb] in E.
  rewrite (events_of_none _ _ _ (f_equal snd E)), E. cbn [fst snd].
  split; [reflexivity|]. split; [reflexivity|]. split; [reflexivity|].
  match goal with |- context [fcDomainUndefineFlags ?W] => set (w1 := W) end.
  pose proof (fcDomainUndefineFlags_run w1) as E1. cbv zeta in E1.
  cbn [w1 w_vm w_trace persistent negb] in E1.
  assert (Et : w_trace w = w_trace w1) by reflexivity.
  rewrite Et in E1.
  rewrite (events_of_run _ _ _ _ _ E1), E1. cbn [fst].
  split; [reflexivity|]. split; [reflexivity|].
  split.
  - intros H0.
    pose proof (fcDomainShutdownFlags_run env w1) as Es. cbv zeta in Es.
    set (r0 := curl_easy_perform env (w_trace w1) _) in *.
    set (r1 := curl_easy_perform env _ (action_type_handle _ _)) in *.
    set (rcw := virCommandWait env _ _) in *.
    set (rcr := g_remove env _ _) in *.
    clearbody r0 r1 rcw rcr.
    change (persistent (w_vm w1)) with false in Es.
    destruct (status_of_reply env r0);
      [ | destruct (rpc_result r1 <? 0);
          [ | destruct (rcw <? 0) ] | | ];
      try (rewrite Es in H0; cbn [fst] in H0; discriminate H0).
    rewrite <- ?app_assoc in Es. cbn [app] in Es.
    rewrite (events_of_run _ _ _ _ _ Es).
    right. apply in_or_app. right. right. apply in_or_app. right.
    left. reflexivity.
  - pose proof (fcDomainDestroyFlags_run env w1) as Ed. cbv zeta in Ed.
    destruct (virDomainState_eqb _ _);
      rewrite (events_of_run _ _ _ _ _ Ed); intros Hin; no_such_event Hin.
Qed.

Lemma fcDomainUndefineFlags_inactive (w : World) :
  let m := fcDomainUndefineFlags in
  (persistent (w_vm w) = false ->
   fst (m w) = -1 /\
   events_of m w = [EvReportError undefine_transient] /\
   w_vm (snd (m w)) = w_vm w) /\
  (persistent (w_vm w) = true -> virDomainObjIsActive (w_vm w) = false ->
   fst (m w) = 0 /\
   events_of m w = [EvDomainObjListRemove] /\
   w_vm (snd (m w)) = w_vm w).
Proof.
  cbv zeta. pose proof (fcDomainUndefineFlags_run w) as E. cbv zeta in E.
  split.
  - intros Hp. rewrite Hp in E. cbn [negb] in E.
    rewrite (events_of_run _ _ _ _ _ E), E. repeat split.
  - intros Hp Ha. rewrite Hp, Ha in E. cbn [negb] in E.
    rewrite (events_of_run _ _ _ _ _ E), E. repeat split.
Qed.

(** X17.  Undefining a transient guest is refused with the
    operation-invalid error and changes nothing.  Undefining a persistent
    guest that is not active removes it from the list of domains at once.
    Undefining a persistent guest while it is active removes nothing: it
    only makes the guest transient, so that a second undefine is refused;
    the removal is left to the shutdown, and a shutdown of that guest that
    succeeds removes it from the list.  A destroy without the graceful
    flag never removes a guest from the list. *)
Theorem undefine_defers_removal (env : Env) (w : World) :
  let m := fcDomainUndefineFlags in
  let w1 := snd (m w) in
  (persistent (w_vm w) = false ->
   fst (m w) = -1 /\
   events_of m w = [EvReportError undefine_transient] /\
   w_vm w1 = w_vm w) /\
  (persistent (w_vm w) = true -> virDomainObjIsActive (w_vm w) = false ->
   fst (m w) = 0 /\
   events_of m w = [EvDomainObjListRemove] /\
   w_vm w1 = w_vm w) /\
  (persistent (w_vm w) = true -> virDomainObjIsActive (w_vm w) = true ->
   fst (m w) = 0 /\
   events_of m w = [] /\
   w_vm w1 = mkObj (def (w_vm w)) (state (w_vm w)) (reason (w_vm w)) false
                   (privateData (w_vm w)) /\
   fst (m w1) = -1 /\
   events_of m w1 = [EvReportError undefine_transient] /\
   (fst (fcDomainShutdownFlags env w1) = 0 ->
    In EvDomainObjListRemove (events_of (fcDomainShutdownFlags env) w1)) /\
   ~ In EvDomainObjListRemove (events_of (fcDomainDestroyFlags env false) w1)).
Proof.
  cbv zeta. destruct (fcDomainUndefineFlags_inactive w) as [H1 H2].
  split; [exact H1|]. split; [exact H2|].
  apply fcDomainUndefineFlags_active.
Qed.

Lemma undefine_defers_removal_witness :
  (fst (fcDomainUndefineFlags w_d1) = 0 /\
   events_of fcDomainUndefineFlags w_d1 = [EvDomainObjListRemove]) /\
  (persistent (w_vm (snd (fcDomainUndefineFlags w_d1_started))) = false /\
   fst (fcDomainUndefineFlags (snd (fcDomainUndefineFlags w_d1_started))) = -1 /\
   In EvDomainObjListRemove
      (events_of (fcDomainShutdownFlags env_ok)
                 (snd (fcDomainUndefineFlags w_d1_started)))).
Proof.
  destruct (undefine_defers_removal env_ok w_d1) as (_ & H & _).
  destruct (undefine_defers_removal env_ok w_d1_started) as (_ & _ & H').
  split.
  - destruct H as (H1 & H2 & _); [reflexivity | reflexivity |].
    split; assumption.
  - destruct H' as (_ & _ & H1 & H2 & _ & H3 & _);
      [vm_compute; reflexivity | vm_compute; reflexivity |].
    split; [rewrite H1; reflexivity|]. split; [exact H2|].
    apply H3. vm_compute. reflexivity.
Defined.

(** ** Starting the process *)

Lemma run_unique {A : Type} (m : M A) (w : World) a1 vm1 evs1 a2 vm2 evs2 :
  m w = (a1, mkWorld vm1 (w_trace w ++ evs1)) ->
  m w = (a2, mkWorld vm2 (w_trace w ++ evs2)) ->
  a1 = a2 /\ vm1 = vm2 /\ evs1 = evs2.
Proof.
  intros E1 E2. rewrite E1 in E2. injection E2 as -> -> H.
  apply app_inv_head in H. auto.
Qed.

Lemma fcWaitUntilExists_outcome (env : Env) path (w : World) :
  exists rc evs,
    fcWaitUntilExists env path w = (rc, mkWorld (w_vm w) (w_trace w ++ evs)) /\
    Forall poll_event evs /\
    (rc = 0 \/ rc = -1) /\
    (rc = 0 -> reported_errors evs = []).
Proof.
  destruct (fcWaitUntilExists_run env path w) as (rc & evs & E & Hp).
  exists rc, evs. split; [exact E|]. split; [exact Hp|].
  pose proof (fcWaitUntilExists_polls env path w) as H. cbv zeta in H.
  destruct H as (res & tail & E' & Hneg & Hpos).
  destruct (run_unique _ _ _ _ _ _ _ _ E E') as (-> & _ & ->).
  match type of Hneg with
  | ?x < 0 -> _ => destruct (Z_lt_le_dec x 0) as [Hn | Hn]
  end.
  - destruct (Hneg Hn) as [-> _]. split; [right; reflexivity | discriminate].
  - destruct (Hpos Hn) as (-> & _ & _ & He).
    split; [destruct (last _ _); auto|].
    intros _. exact He.
Qed.

Lemma poll_event_in (l : list Event) (e : Event) :
  Forall poll_event l -> In e l -> poll_event e.
Proof. intros H Hin. rewrite Forall_forall in H. auto. Qed.

Ltac fc_step_outcome :=
  first
    [ rewrite ask_run; fc_cbn; abstract_answers; fc_cbn
    | match goal with
      | |- context [fcWaitUntilExists ?e ?p ?W] =>
          let rc := fresh "rc" in
          let evs := fresh "evs" in
          let Hp := fresh "Hpoll" in
          let Hrc := fresh "Hwait" in
          let Hq := fresh "Hquiet" in
          destruct (fcWaitUntilExists_outcome e p W)
            as (rc & evs & -> & Hp & Hrc & Hq);
          fc_cbn
      end
    | match goal with
      | |- context [if ?c then _ else _] => destruct c eqn:?; fc_cbn
      end ].

Lemma fcConfigAndStartVM_exact (env : Env) (w : World) :
  fcConfigAndStartVM env w =
  (let vm := w_vm w in
   let sock := socketpath (privateData vm) in
   let h1 := boot_source_handle sock (os_kernel (def vm))
               (fcAddAdditionalCmdlineArgs vm) in
   let r1 := curl_easy_perform env (w_trace w) h1 in
   let t1 := (w_trace w ++ EvCurl h1 r1 :: curl_exec_errors r1)%list in
   if rpc_result r1 <? 0 then
     (-1, mkWorld vm
            (t1 ++ [EvReportError
                      (mkError VIR_ERR_INTERNAL_ERROR
                         "Firecracker API call failed setting kernel and cmdline")]))
   else
     match getRootFSDiskDevice (def vm) with
     | None => (-1, mkWorld vm (t1 ++ [EvReportError root_disk_missing]))
     | Some root_device =>
         let h2 := set_disk_handle sock "rootfs" (src_path root_device)
                     true false in
         let r2 := curl_easy_perform env t1 h2 in
         let t2 := (t1 ++ EvCurl h2 r2 :: curl_exec_errors r2)%list in
         if rpc_result r2 <? 0 then
           (-1, mkWorld vm
                  (t2 ++ [EvReportError
                            (mkError VIR_ERR_INTERNAL_ERROR
                               "Firecracker API call failed setting rootfs")]))
         else
           let h3 := action_type_handle sock "InstanceStart" in
           let r3 := curl_easy_perform env t2 h3 in
           let t3 := (t2 ++ EvCurl h3 r3 :: curl_exec_errors r3)%list in
           if rpc_result r3 <? 0 then
             (-1, mkWorld vm
                    (t3 ++ [EvReportError
                              (mkError VIR_ERR_INTERNAL_ERROR
                                 "Firecracker API call failed starting the vm")]))
           else (0, mkWorld vm t3)
     end).
Proof.
  destruct w as [vm t]. cbv zeta. cbn [w_vm w_trace].
  unfold fcConfigAndStartVM, bind, get_vm, get_private, ret, virReportError,
    emit.
  fc_cbn.
  rewrite virFCMonitorSetKernel_run. fc_cbn.
  destruct (rpc_result _ <? 0); fc_cbn; [reflexivity|].
  destruct (getRootFSDiskDevice (def vm)) as [x |]; fc_cbn; [|reflexivity].
  rewrite virFCMonitorSetDisk_run. fc_cbn.
  destruct (rpc_result _ <? 0); fc_cbn; [reflexivity|].
  rewrite virFCMonitorStartVM_run. fc_cbn.
  destruct (rpc_result _ <? 0); fc_cbn; reflexivity.
Qed.

Ltac event_cases Hin :=
  repeat first
    [ contradiction
    | match type of Hin with
      | In (EvCurl _ _) ?l =>
          match goal with
          | H : curl_requests l = [] |- _ =>
              exfalso; exact (no_curl_event l _ _ H Hin)
          end
      | In _ (_ ++ _) => apply in_app_or in Hin; destruct Hin as [Hin | Hin]
      | In _ (_ :: _) => destruct Hin as [Hin | Hin]
      | In _ [] => contradiction
      | In _ (status_errors _ _) =>
          apply (monitor_event_in _ _ (status_errors_monitor _ _)) in Hin
      | In _ (curl_exec_errors _) =>
          apply (monitor_event_in _ _ (monitor_event_exec_errors _)) in Hin
      | In _ ?l =>
          match goal with
          | H : Forall poll_event l |- _ =>
              apply (poll_event_in _ _ H) in Hin; cbn in Hin
          | H : Forall monitor_event l |- _ =>
              apply (monitor_event_in _ _ H) in Hin; cbn in Hin
          end
      | In _ (if ?c then _ else _) => destruct c
      | _ = _ => first [ discriminate Hin | inversion Hin; subst; clear Hin ]
      end ].

Ltac in_search :=
  repeat first
    [ left; reflexivity
    | match goal with |- In _ (_ ++ _) => apply in_or_app; right end
    | right ].

Ltac nonempty_list :=
  let E := fresh "E" in
  intros E; apply (f_equal (@List.length _)) in E;
  repeat (rewrite ?length_app in E; cbn [List.length flat_map app] in E);
  lia.

Lemma fcStartVMProcess_shape (env : Env) (w : World) :
  let vm := w_vm w in
  let p := privateData vm in
  let errlog := fmt_s (vm_dir p) ++ "/fc_err.log" in
  let stdlog := fmt_s (vm_dir p) ++ "/fc_std.log" in
  let args := "--api-sock" ::
              match socketpath p with Some s => [s] | None => [] end in
  exists rc vm' evs,
    fcStartVMProcess env w = (rc, mkWorld vm' (w_trace w ++ evs)) /\
    (forall c r pid,
       In (EvCommandRunAsync c r pid) evs ->
       cmd_binary c = emulator (def vm) /\ cmd_args c = args /\
       cmd_umask c = 2 /\
       (exists fd, 0 <= fd /\ cmd_errfd c = Some fd /\
                   In (EvOpen errlog fd) evs) /\
       (serials (def vm) <> [] ->
        exists rcp primary secondary ptyname,
          0 <= rcp /\ In (EvOpenpty rcp primary secondary ptyname) evs /\
          cmd_infd c = Some primary /\ cmd_outfd c = Some primary /\
          (rc = 0 -> console_pty_path (privateData vm') = Some ptyname)) /\
       (serials (def vm) = [] ->
        cmd_infd c = None /\
        (exists fd, 0 <= fd /\ cmd_outfd c = Some fd /\
                    In (EvOpen stdlog fd) evs) /\
        console_pty_path (privateData vm') = None)) /\
    (forall path rcu,
       In (EvFileUpdatePerm path rcu) evs ->
       rc = 0 /\ path = socketpath p /\
       (rcu < 0 -> reported_errors evs = [socket_permissions]) /\
       (0 <= rcu -> reported_errors evs = [])) /\
    (rc = 0 -> exists rcu, In (EvFileUpdatePerm (socketpath p) rcu) evs) /\
    (rc = -1 -> reported_errors evs <> []).
Proof.
  destruct w as [vm t]. cbv zeta. cbn [w_vm w_trace].
  unfold fcStartVMProcess, fcStartVMProcess_launch, fcStartVMProcess_error,
    set_console_pty_path, set_fc_process, set_id, set_private, get_private,
    get_vm, bind, ret, virReportError, emit.
  fc_cbn.
  repeat fc_step_outcome.
  all: rewrite <- ?app_assoc; cbn [app].
  all: do 3 eexists; split; [reflexivity|].
  all: repeat match goal with
              | H : (_ <? 0) = true |- _ => apply Z.ltb_lt in H
              | H : (_ <? 0) = false |- _ => apply Z.ltb_ge in H
              | H : (0 <? nserials _)%nat = _ |- _ => unfold nserials in H
              end.
  all: try match goal with
           | Hw : ?rc = 0 \/ ?rc = -1, Hge : 0 <= ?rc, Hq : ?rc = 0 -> _ |- _ =>
               assert (Hz : rc = 0) by lia; specialize (Hq Hz)
           end.
  all: split; [|split; [|split]].
  (* the command of a launch *)
  1, 5, 9, 13, 17, 21, 25, 29, 33, 37, 41:
    intros c r pid Hin; event_cases Hin;
    (split; [reflexivity|]); (split; [reflexivity|]); (split; [reflexivity|]);
    (split; [eexists; (split; [|split; [reflexivity | in_search]]); assumption|]);
    (split;
     [ intros Hs;
       first
         [ do 4 eexists;
           (split;
            [|split;
              [in_search
              |split; [reflexivity
                      |split; [reflexivity
                              |intros E; first [discriminate E | reflexivity]]]]]);
           assumption
         | exfalso; apply Hs; apply nat_ltb_0_length; assumption ]
     | intros Hs;
       first
         [ rewrite Hs in *; discriminate
         | split; [reflexivity|];
           split; [|reflexivity];
           eexists; (split; [|split; [reflexivity | in_search]]); assumption ] ]).
  (* the permissions of the socket *)
  1, 4, 7, 10, 13, 16, 19, 22, 25, 28, 31:
    intros path rcu Hin; event_cases Hin;
    (split; [reflexivity|]); (split; [reflexivity|]);
    (split; intros Hrcu; first [lia | obs; rewrite ?Hquiet; reflexivity]).
  (* success has looked at the permissions *)
  1, 3, 5, 7, 9, 11, 13, 15, 17, 19, 21:
    intros Hrc; first [discriminate Hrc | eexists; in_search].
  (* failure has reported *)
  all: intros Hrc; first [discriminate Hrc | obs; nonempty_list].
Qed.

Lemma fcStartVMProcess_facts (env : Env) (w : World) :
  exists rc vm' evs,
    fcStartVMProcess env w = (rc, mkWorld vm' (w_trace w ++ evs)) /\
    (same_guest (w_vm w) vm' /\
     curl_requests evs = [] /\
     Forall (fun x => err_code x = VIR_ERR_INTERNAL_ERROR) (reported_errors evs) /\
     launch_outcome rc vm' evs) /\
    ((forall c r pid,
        In (EvCommandRunAsync c r pid) evs ->
        cmd_binary c = emulator (def (w_vm w)) /\
        cmd_args c =
        "--api-sock" ::
        match socketpath (privateData (w_vm w)) with
        | Some s => [s]
        | None => []
        end /\
        cmd_umask c = 2 /\
        (exists fd, 0 <= fd /\ cmd_errfd c = Some fd /\
                    In (EvOpen (fmt_s (vm_dir (privateData (w_vm w))) ++
                                "/fc_err.log") fd) evs) /\
        (serials (def (w_vm w)) <> [] ->
         exists rcp primary secondary ptyname,
           0 <= rcp /\ In (EvOpenpty rcp primary secondary ptyname) evs /\
           cmd_infd c = Some primary /\ cmd_outfd c = Some primary /\
           (rc = 0 -> console_pty_path (privateData vm') = Some ptyname)) /\
        (serials (def (w_vm w)) = [] ->
         cmd_infd c = None /\
         (exists fd, 0 <= fd /\ cmd_outfd c = Some fd /\
                     In (EvOpen (fmt_s (vm_dir (privateData (w_vm w))) ++
                                 "/fc_std.log") fd) evs) /\
         console_pty_path (privateData vm') = None)) /\
     (forall path rcu,
        In (EvFileUpdatePerm path rcu) evs ->
        rc = 0 /\ path = socketpath (privateData (w_vm w)) /\
        (rcu < 0 -> reported_errors evs = [socket_permissions]) /\
        (0 <= rcu -> reported_errors evs = [])) /\
     (rc = 0 ->
      exists rcu, In (EvFileUpdatePerm (socketpath (privateData (w_vm w))) rcu) evs) /\
     (rc = -1 -> reported_errors evs <> [])).
Proof.
  destruct (fcStartVMProcess_run env w) as (rc & vm' & evs & E & H).
  pose proof (fcStartVMProcess_shape env w) as S. cbv zeta in S.
  destruct S as (rc2 & vm2 & evs2 & E2 & S).
  destruct (run_unique _ _ _ _ _ _ _ _ E E2) as (<- & <- & <-).
  exists rc, vm', evs. split; [exact E|]. split; [exact H | exact S].
Qed.

(** X18.  A failure to change the permissions of the socket does not fail
    the start of the process: [fcStartVMProcess] reports the error and goes
    on, returns 0, and leaves the guest active with the process recorded.
    The permissions are only looked at once the socket has appeared, and
    they are the last step: whenever they are looked at the call
    succeeds. *)
Theorem permission_failure_is_not_fatal (env : Env) (w : World)
    (path : option string) (rcu : Z) :
  let m := fcStartVMProcess env in
  let vm' := w_vm (snd (m w)) in
  In (EvFileUpdatePerm path rcu) (events_of m w) ->
  fst (m w) = 0 /\
  path = socketpath (privateData (w_vm w)) /\
  (rcu < 0 -> reported_errors (events_of m w) = [socket_permissions]) /\
  (0 <= rcu -> reported_errors (events_of m w) = []) /\
  exists c c0 r0,
    launches (events_of m w) = [(c0, r0, cmd_pid c)] /\
    fc_process (privateData vm') = Some c /\
    id (def vm') = cmd_pid c.
Proof.
  cbv zeta.
  destruct (fcStartVMProcess_facts env w)
    as (rc & vm' & evs & E & (_ & _ & _ & Hout) & (_ & Hperm & _)).
  rewrite (events_of_run _ _ _ _ _ E), E. cbn [fst snd w_vm].
  intros Hin. destruct (Hperm _ _ Hin) as (-> & -> & Hneg & Hpos).
  repeat (split; [first [reflexivity | assumption]|]).
  destruct Hout as [(Hrc & _) | (_ & c0 & r0 & c & Hl & _ & Hid & Hfp & _)];
    [discriminate Hrc|].
  exists c, c0, r0. auto.
Qed.

Lemma permission_failure_is_not_fatal_witness :
  fst (fcStartVMProcess (env_ok_but (-1) 0)
         (snd (fcPopulatePrivateData driver_config w_d1))) = 0 /\
  reported_errors
    (events_of (fcStartVMProcess (env_ok_but (-1) 0))
               (snd (fcPopulatePrivateData driver_config w_d1))) =
  [socket_permissions].
Proof.
  assert (Hin : In (EvFileUpdatePerm
                      (Some "/var/run/libvirt/fc/d1/firecracker-lv.socket") (-1))
                   (events_of (fcStartVMProcess (env_ok_but (-1) 0))
                      (snd (fcPopulatePrivateData driver_config w_d1)))).
  { vm_compute. in_search. }
  destruct (permission_failure_is_not_fatal _ _ _ _ Hin) as (H1 & _ & H2 & _).
  split; [exact H1 | apply H2; lia].
Defined.

(** X19.  [fcStartVMProcess] launches at most one process, and the command
    it launches is the emulator of the definition with the two arguments
    [--api-sock] and the socket path, under the umask 002, with its error
    output on the descriptor of the log file fc_err.log of the guest's
    directory, opened before.  With a serial device, a pty has been opened
    and the command has its primary side both as input and as output, and
    after a successful start the name of the pty is the recorded console
    path; without one the command has no input, its output goes to the log
    file fc_std.log and no console path is recorded. *)
Theorem launched_command (env : Env) (w : World) (c : virCommand) (r pid : Z) :
  let m := fcStartVMProcess env in
  let vm := w_vm w in
  let p := privateData vm in
  let vm' := w_vm (snd (m w)) in
  In (EvCommandRunAsync c r pid) (events_of m w) ->
  launches (events_of m w) = [(c, r, pid)] /\
  cmd_binary c = emulator (def vm) /\
  cmd_args c =
  "--api-sock" :: match socketpath p with Some s => [s] | None => [] end /\
  cmd_umask c = 2 /\
  (exists fd, 0 <= fd /\ cmd_errfd c = Some fd /\
              In (EvOpen (fmt_s (vm_dir p) ++ "/fc_err.log") fd)
                 (events_of m w)) /\
  (serials (def vm) <> [] ->
   exists rcp primary secondary ptyname,
     0 <= rcp /\
     In (EvOpenpty rcp primary secondary ptyname) (events_of m w) /\
     cmd_infd c = Some primary /\ cmd_outfd c = Some primary /\
     (fst (m w) = 0 -> console_pty_path (privateData vm') = Some ptyname)) /\
  (serials (def vm) = [] ->
   cmd_infd c = None /\
   (exists fd, 0 <= fd /\ cmd_outfd c = Some fd /\
               In (EvOpen (fmt_s (vm_dir p) ++ "/fc_std.log") fd)
                  (events_of m w)) /\
   console_pty_path (privateData vm') = None).
Proof.
  cbv zeta.
  destruct (fcStartVMProcess_facts env w)
    as (rc & vm' & evs & E & (_ & _ & _ & Hout) & (Hcmd & _)).
  rewrite (events_of_run _ _ _ _ _ E), E. cbn [fst snd w_vm].
  intros Hin. split; [|exact (Hcmd _ _ _ Hin)].
  apply in_launches in Hin.
  destruct Hout as [(_ & _ & _ & [Hl | (c0 & r0 & p0 & Hl & _)])
                   | (_ & c0 & r0 & c1 & Hl & _)];
    rewrite Hl in Hin |- *; cbn in Hin;
    try contradiction;
    (destruct Hin as [Hin | Hin]; [|contradiction]);
    rewrite Hin; reflexivity.
Qed.

Lemma launched_command_witness :
  launches (events_of (fcStartVMProcess env_ok)
                      (snd (fcPopulatePrivateData driver_config w_d1))) =
  [(d1_command, 0, 4242)] /\
  cmd_infd d1_command = cmd_outfd d1_command.
Proof.
  assert (Hin : In (EvCommandRunAsync d1_command 0 4242)
                   (events_of (fcStartVMProcess env_ok)
                      (snd (fcPopulatePrivateData driver_config w_d1)))).
  { vm_compute. in_search. }
  destruct (launched_command _ _ _ _ _ Hin) as (H1 & _ & _ & _ & _ & H2 & _).
  split; [exact H1|].
  destruct H2 as (rcp & pr & se & nm & _ & _ & Hi & Ho & _);
    [vm_compute; discriminate|].
  rewrite Hi, Ho. reflexivity.
Defined.

(** ** The start of a guest, continued *)

Ltac fc_call_step_full :=
  match goal with
  | |- context [fcStartVMProcess ?e ?W] =>
      let rc := fresh "rc" in
      let vm' := fresh "vm" in
      let evs := fresh "evs" in
      let Hsame := fresh "Hsame" in
      let Hcurl := fresh "Hcurl" in
      let Herr := fresh "Herr" in
      let Hout := fresh "Hout" in
      let Hcmd := fresh "Hcmd" in
      let Hperm := fresh "Hperm" in
      let Hlook := fresh "Hlook" in
      let Hrep := fresh "Hrep" in
      destruct (fcStartVMProcess_facts e W)
        as (rc & vm' & evs & -> & (Hsame & Hcurl & Herr & Hout) &
            (Hcmd & Hperm & Hlook & Hrep));
      fc_cbn; cbn [w_vm w_trace] in Hsame, Hcmd, Hperm, Hlook
  | |- context [fcConfigAndStartVM ?e ?W] =>
      rewrite (fcConfigAndStartVM_exact e W); fc_cbn; abstract_answers; fc_cbn
  | |- context [match getRootFSDiskDevice ?d with _ => _ end] =>
      destruct (getRootFSDiskDevice d) eqn:?; fc_cbn; abstract_answers; fc_cbn
  end.

Ltac start_exec_full :=
  unfold fcDomainCreateWithFlags, fcDomainCreateWithFlags_body,
    fcPopulatePrivateData, fcRecreateVMDir, fcDeleteVMDir, fcCreateVMDir,
    virDomainObjSetState, set_id, set_private, get_private,
    get_vm, bind, ret, virReportError, emit;
  fc_cbn;
  repeat first [ fc_call_step_full | fc_step ];
  norm_trace.

Lemma same_guest_config (vm vm' : virDomainObj) :
  def vm' = with_id (def vm) (id (def vm')) ->
  os_kernel (def vm') = os_kernel (def vm) /\
  fcAddAdditionalCmdlineArgs vm' = fcAddAdditionalCmdlineArgs vm /\
  getRootFSDiskDevice (def vm') = getRootFSDiskDevice (def vm) /\
  serials (def vm') = serials (def vm) /\
  name (def vm') = name (def vm).
Proof.
  intros H. unfold fcAddAdditionalCmdlineArgs. rewrite H. repeat split.
Qed.

Lemma fcDomainCreateWithFlags_success (env : Env) driver (w : World) :
  let vm := w_vm w in
  let dir := stateDir driver ++ "/" ++ name (def vm) in
  let sock := Some (dir ++ "/firecracker-lv.socket") in
  exists rc vm' evs,
    fcDomainCreateWithFlags env driver w =
    (rc, mkWorld vm' (w_trace w ++ evs)) /\
    (rc = 0 ->
     virDomainObjIsActive vm = false /\
     state vm' = VIR_DOMAIN_RUNNING /\
     reason vm' = VIR_DOMAIN_RUNNING_BOOTED /\
     persistent vm' = persistent vm /\
     vm_dir (privateData vm') = Some dir /\
     socketpath (privateData vm') = sock /\
     exists c c0 r0 x rcd rcm evs0 r1 r2 r3,
       fc_process (privateData vm') = Some c /\
       def vm' = with_id (def vm) (cmd_pid c) /\
       getRootFSDiskDevice (def vm) = Some x /\
       evs =
       (EvFileDeleteTree (Some dir) rcd :: EvMkdirWithParents (Some dir) 511 rcm ::
        evs0 ++
        [EvCurl (boot_source_handle sock (os_kernel (def vm))
                   (fcAddAdditionalCmdlineArgs vm)) r1;
         EvCurl (set_disk_handle sock "rootfs" (src_path x) true false) r2;
         EvCurl (action_type_handle sock "InstanceStart") r3])%list /\
       0 <= rcd /\ 0 <= rcm /\ 0 <= r0 /\
       rpc_result r1 = 0 /\ rpc_result r2 = 0 /\ rpc_result r3 = 0 /\
       curl_requests evs0 = [] /\
       launches evs0 = [(c0, r0, cmd_pid c)] /\
       in_order [EvCommandRunAsync c0 r0 (cmd_pid c)] evs0 /\
       (reported_errors evs0 = [] \/
        reported_errors evs0 = [socket_permissions])).
Proof.
  destruct w as [vm t]. cbv zeta. cbn [w_vm w_trace].
  start_exec_full.
  all: do 3 eexists; split; [reflexivity|].
  all: intros Hrc; try discriminate Hrc.
  destruct Hsame as (Hdef & Hst & Hreason & Hpers & Hdir & Hsock).
  cbn [def state reason persistent privateData vm_dir socketpath] in *.
  destruct (same_guest_config _ _ Hdef) as (Hk & Hargs & Hroot & _).
  rewrite Hk, Hargs, Hsock. rewrite Hroot in *.
  rpc_facts.
  rewrite !rpc_ok_no_errors by assumption.
  repeat match goal with
         | H : (_ <? 0) = false |- _ => apply Z.ltb_ge in H
         end.
  destruct Hout as [(Hneg & _) | (Hz & c2 & r0 & c3 & Hl & Hr0 & Hid & Hfp & Hord)];
    [lia|].
  destruct (Hlook Hz) as (rcu & Hin).
  destruct (Hperm _ _ Hin) as (_ & _ & Hpn & Hpp).
  repeat (split; [first [reflexivity | assumption]|]).
  exists c3, c2, r0. do 7 eexists.
  split; [exact Hfp|].
  split; [rewrite Hdef, Hid; reflexivity|].
  split; [eassumption|].
  split; [reflexivity|].
  repeat (split; [assumption|]).
  destruct (Z_lt_le_dec rcu 0); [right | left]; auto.
Qed.

(** X20.  A start that returns 0 was asked for an inactive guest.  It has
    deleted and recreated the guest's directory, launched one process, and
    then sent exactly three requests, all to the guest's socket: the kernel
    with the command line, the drive [rootfs] with the path of the disk the
    root lookup gives, as root device and writable, and the start action,
    all accepted.  The guest is left RUNNING with the reason booted, its id
    is the pid of the process, whose handle is recorded, and its paths are
    the ones derived from its name.  The only error such a start can have
    reported is the one on the permissions of the socket. *)
Theorem successful_start (env : Env) (driver : virFCDriverConfig) (w : World) :
  let m := fcDomainCreateWithFlags env driver in
  let vm := w_vm w in
  let vm' := w_vm (snd (m w)) in
  let dir := stateDir driver ++ "/" ++ name (def vm) in
  let sock := Some (dir ++ "/firecracker-lv.socket") in
  fst (m w) = 0 ->
  virDomainObjIsActive vm = false /\
  state vm' = VIR_DOMAIN_RUNNING /\
  reason vm' = VIR_DOMAIN_RUNNING_BOOTED /\
  vm_dir (privateData vm') = Some dir /\
  socketpath (privateData vm') = sock /\
  (exists c c0 r0,
     launches (events_of m w) = [(c0, r0, cmd_pid c)] /\
     fc_process (privateData vm') = Some c /\
     def vm' = with_id (def vm) (cmd_pid c)) /\
  (exists x rcd rcm c0 r0 pid r1 r2 r3,
     getRootFSDiskDevice (def vm) = Some x /\
     curl_requests (events_of m w) =
     [boot_source_handle sock (os_kernel (def vm))
        (fcAddAdditionalCmdlineArgs vm);
      set_disk_handle sock "rootfs" (src_path x) true false;
      action_type_handle sock "InstanceStart"] /\
     rpc_result r1 = 0 /\ rpc_result r2 = 0 /\ rpc_result r3 = 0 /\
     in_order
       [EvFileDeleteTree (Some dir) rcd; EvMkdirWithParents (Some dir) 511 rcm;
        EvCommandRunAsync c0 r0 pid;
        EvCurl (boot_source_handle sock (os_kernel (def vm))
                  (fcAddAdditionalCmdlineArgs vm)) r1;
        EvCurl (set_disk_handle sock "rootfs" (src_path x) true false) r2;
        EvCurl (action_type_handle sock "InstanceStart") r3]
       (events_of m w)) /\
  (forall e, In e (reported_errors (events_of m w)) -> e = socket_permissions).
Proof.
  cbv zeta.
  pose proof (fcDomainCreateWithFlags_success env driver w) as H.
  cbv zeta in H. destruct H as (rc & vm' & evs & E & H).
  rewrite (events_of_run _ _ _ _ _ E), E. cbn [fst snd w_vm].
  intros Hrc. destruct (H Hrc) as (Ha & Hst & Hre & _ & Hdir & Hsock & Hx).
  destruct Hx as (c & c0 & r0 & x & rcd & rcm & evs0 & r1 & r2 & r3 &
                  Hfp & Hdef & Hroot & -> & Hrcd & Hrcm & Hr0 & Hr1 & Hr2 &
                  Hr3 & Hcurl & Hl & Hord & Herrs).
  repeat (split; [assumption|]).
  split.
  { exists c, c0, r0. split; [|split; assumption].
    obs. rewrite Hl. reflexivity. }
  split.
  { exists x, rcd, rcm, c0, r0, (cmd_pid c), r1, r2, r3.
    split; [exact Hroot|].
    split; [obs; rewrite Hcurl; reflexivity|].
    repeat (split; [assumption|]).
    do 2 apply in_order_take.
    apply (in_order_app [_] evs0 [_; _; _]); [exact Hord | in_order_search]. }
  intros e. obs. cbn [app]. rewrite app_nil_r.
  destruct Herrs as [-> | ->]; cbn; [contradiction|].
  intros [<- | []]. reflexivity.
Qed.

Lemma successful_start_witness :
  state (w_vm (snd (fcDomainCreateWithFlags env_ok driver_config w_d1))) =
  VIR_DOMAIN_RUNNING /\
  socketpath
    (privateData (w_vm (snd (fcDomainCreateWithFlags env_ok driver_config w_d1))))
  = Some "/var/run/libvirt/fc/d1/firecracker-lv.socket" /\
  reported_errors
    (events_of (fcDomainCreateWithFlags (env_ok_but (-1) 0) driver_config) w_d1)
  = [socket_permissions].
Proof.
  assert (H0 : fst (fcDomainCreateWithFlags env_ok driver_config w_d1) = 0)
    by (vm_compute; reflexivity).
  assert (H1 : fst (fcDomainCreateWithFlags (env_ok_but (-1) 0) driver_config
                      w_d1) = 0)
    by (vm_compute; reflexivity).
  destruct (successful_start env_ok driver_config w_d1 H0)
    as (_ & Hst & _ & _ & Hsock & _).
  destruct (successful_start (env_ok_but (-1) 0) driver_config w_d1 H1)
    as (_ & _ & _ & _ & _ & _ & _ & Herr).
  split; [exact Hst|]. split; [exact Hsock|].
  vm_compute. reflexivity.
Defined.

(** X21.  After a start that has succeeded, a destroy without the graceful
    flag always succeeds, whatever the VMM does: it aborts the process the
    start has launched and removes the socket the start has used, and
    leaves the guest shut off and inactive. *)
Theorem destroy_after_start (env env' : Env) (driver : virFCDriverConfig)
    (w : World) :
  let start := fcDomainCreateWithFlags env driver in
  let w1 := snd (start w) in
  let sock := Some ((stateDir driver ++ "/" ++ name (def (w_vm w))) ++
                    "/firecracker-lv.socket") in
  fst (start w) = 0 ->
  fst (fcDomainDestroyFlags env' false w1) = 0 /\
  (exists c c0 r0 rcr,
     launches (events_of start w) = [(c0, r0, cmd_pid c)] /\
     events_of (fcDomainDestroyFlags env' false) w1 =
     [EvCommandAbort (Some c); EvRemove sock rcr]) /\
  state (w_vm (snd (fcDomainDestroyFlags env' false w1))) = VIR_DOMAIN_SHUTOFF /\
  virDomainObjIsActive (w_vm (snd (fcDomainDestroyFlags env' false w1))) = false.
Proof.
  cbv zeta.
  pose proof (fcDomainCreateWithFlags_success env driver w) as H.
  cbv zeta in H. destruct H as (rc & vm' & evs & E & H).
  rewrite (events_of_run _ _ _ _ _ E), E. cbn [fst snd w_vm].
  intros Hrc. destruct (H Hrc) as (Ha & Hst & Hre & _ & Hdir & Hsock & Hx).
  destruct Hx as (c & c0 & r0 & x & rcd & rcm & evs0 & r1 & r2 & r3 &
                  Hfp & Hdef & Hroot & -> & Hrcd & Hrcm & Hr0 & Hr1 & Hr2 &
                  Hr3 & Hcurl & Hl & Hord & Herrs).
  match goal with
  | |- context [fcDomainDestroyFlags env' false ?W] =>
      pose proof (fcDomainDestroyFlags_run env' W) as Ed
  end.
  cbv zeta in Ed. cbn [w_vm w_trace] in Ed.
  rewrite Hst in Ed. cbn [virDomainState_eqb] in Ed.
  rewrite Hfp, Hsock in Ed.
  match type of Ed with
  | ?f ?W = _ => rewrite (events_of_run (f) W _ _ _ Ed)
  end.
  rewrite Ed. cbn [fst snd w_vm state].
  split; [reflexivity|].
  split; [|split; reflexivity].
  exists c, c0, r0. eexists. split; [|reflexivity].
  obs. rewrite Hl. reflexivity.
Qed.

Lemma destroy_after_start_witness :
  fst (fcDomainDestroyFlags env_unreachable false
         (snd (fcDomainCreateWithFlags env_ok driver_config w_d1))) = 0 /\
  virDomainObjIsActive
    (w_vm (snd (fcDomainDestroyFlags env_unreachable false
                  (snd (fcDomainCreateWithFlags env_ok driver_config w_d1)))))
  = false.
Proof.
  assert (H0 : fst (fcDomainCreateWithFlags env_ok driver_config w_d1) = 0)
    by (vm_compute; reflexivity).
  destruct (destroy_after_start env_ok env_unreachable driver_config w_d1 H0)
    as (H1 & _ & _ & H2).
  split; assumption.
Defined.

Lemma fcDomainCreateWithFlags_active (env : Env) driver (w : World) :
  virDomainObjIsActive (w_vm w) = true ->
  fcDomainCreateWithFlags env driver w =
  (let vm := w_vm w in
   let p := privateData vm in
   let rcd := virFileDeleteTree env
                (w_trace w ++ [EvReportError already_running;
                               EvCommandAbort (fc_process p)]) (vm_dir p) in
   (-1,
    mkWorld (mkObj (with_id (def vm) (-1)) (state vm) (reason vm)
                   (persistent vm) p)
            (w_trace w ++
             [EvReportError already_running; EvCommandAbort (fc_process p);
              EvFileDeleteTree (vm_dir p) rcd] ++
             (if rcd <? 0 then
                [EvReportError (mkError VIR_ERR_INTERNAL_ERROR
                                  "Could not delete directory: %s")]
              else [])))).
Proof.
  destruct w as [vm t]. cbn [w_vm w_trace]. intros Ha. cbv zeta.
  unfold fcDomainCreateWithFlags, fcDomainCreateWithFlags_body, fcDeleteVMDir,
    set_id, get_private, get_vm, bind, ret, virReportError, emit.
  fc_cbn. rewrite Ha. fc_cbn. rewrite ask_run. fc_cbn. norm_trace.
  destruct (virFileDeleteTree env _ _ <? 0); fc_cbn; norm_trace; reflexivity.
Qed.

(** X22.  A start asked for a guest that is active is refused with the
    operation-invalid error, and the refusal goes through the error path of
    the start: the process of the running guest is aborted, the deletion of
    its directory is asked for and the guest is marked inactive, while its
    lifecycle state and its process handle stay as they were.  Nothing is
    sent to the VMM and no process is launched. *)
Theorem start_of_active_guest (env : Env) (driver : virFCDriverConfig)
    (w : World) :
  let m := fcDomainCreateWithFlags env driver in
  let vm := w_vm w in
  let vm' := w_vm (snd (m w)) in
  virDomainObjIsActive vm = true ->
  fst (m w) = -1 /\
  (exists rcd,
     in_order [EvReportError already_running;
               EvCommandAbort (fc_process (privateData vm));
               EvFileDeleteTree (vm_dir (privateData vm)) rcd]
              (events_of m w)) /\
  hd_error (reported_errors (events_of m w)) = Some already_running /\
  curl_requests (events_of m w) = [] /\
  launches (events_of m w) = [] /\
  virDomainObjIsActive vm' = false /\
  state vm' = state vm /\
  privateData vm' = privateData vm.
Proof.
  cbv zeta. intros Ha.
  pose proof (fcDomainCreateWithFlags_active env driver w Ha) as E.
  cbv zeta in E.
  rewrite (events_of_run _ _ _ _ _ E), E. cbn [fst snd w_vm state privateData].
  split; [reflexivity|].
  split; [eexists; cbn [app]; in_order_search|].
  repeat split; destruct (_ <? 0); reflexivity.
Qed.

Lemma start_of_active_guest_witness :
  fst (fcDomainCreateWithFlags env_ok driver_config w_d1_started) = -1 /\
  virDomainObjIsActive (w_vm w_d1_twice) = false /\
  state (w_vm w_d1_twice) = VIR_DOMAIN_RUNNING.
Proof.
  destruct (start_of_active_guest env_ok driver_config w_d1_started)
    as (H1 & _ & _ & _ & _ & H2 & H3 & _); [vm_compute; reflexivity|].
  split; [exact H1|]. split; [exact H2|].
  unfold w_d1_twice. rewrite H3. vm_compute. reflexivity.
Defined.

Lemma in_in_order (e : Event) (l : list Event) : In e l -> in_order [e] l.
Proof.
  induction l as [| x l IH]; [contradiction|].
  intros [-> | H]; [apply in_order_take, in_order_nil|].
  apply in_order_skip. auto.
Qed.

Lemma in_order_app_r (s l rest : list Event) :
  in_order s l -> in_order s (l ++ rest).
Proof.
  induction 1; cbn; [apply in_order_nil | apply in_order_take; assumption
                    | apply in_order_skip; assumption].
Qed.

Ltac launch_after_directory :=
  let Hin := fresh "Hin" in
  intros ? ? ? Hin; event_cases Hin;
  (split; [first [assumption | reflexivity]|]);
  match goal with
  | Hcmd : forall c r pid, In (EvCommandRunAsync c r pid) ?evs -> _ |- _ =>
      let Hb := fresh in
      let Hargs := fresh in
      destruct (Hcmd _ _ _ Hin) as (Hb & Hargs & _);
      (split; [exact Hb|]); (split; [exact Hargs|])
  end;
  do 2 eexists;
  (split;
   [|split;
     [|do 2 apply in_order_take; apply in_order_app_r, in_in_order;
       exact Hin]]);
  assumption.

Ltac nothing_started :=
  split; [reflexivity|];
  split; obs; rewrite_quiet; reflexivity.

Lemma fcDomainCreateWithFlags_launch (env : Env) driver (w : World) :
  let vm := w_vm w in
  let dir := stateDir driver ++ "/" ++ name (def vm) in
  exists rc vm' evs,
    fcDomainCreateWithFlags env driver w =
    (rc, mkWorld vm' (w_trace w ++ evs)) /\
    (forall c r pid,
       In (EvCommandRunAsync c r pid) evs ->
       virDomainObjIsActive vm = false /\
       cmd_binary c = emulator (def vm) /\
       cmd_args c = ["--api-sock"; dir ++ "/firecracker-lv.socket"] /\
       exists rcd rcm,
         0 <= rcd /\ 0 <= rcm /\
         in_order [EvFileDeleteTree (Some dir) rcd;
                   EvMkdirWithParents (Some dir) 511 rcm;
                   EvCommandRunAsync c r pid] evs) /\
    (forall rcd,
       hd_error evs = Some (EvFileDeleteTree (Some dir) rcd) -> rcd < 0 ->
       rc = -1 /\ launches evs = [] /\ curl_requests evs = []) /\
    (forall rcm,
       nth_error evs 1 = Some (EvMkdirWithParents (Some dir) 511 rcm) ->
       rcm < 0 ->
       rc = -1 /\ launches evs = [] /\ curl_requests evs = []).
Proof.
  destruct w as [vm t]. cbv zeta. cbn [w_vm w_trace].
  start_exec_full.
  all: do 3 eexists; split; [reflexivity|].
  all: repeat match goal with
              | H : (_ <? 0) = true |- _ => apply Z.ltb_lt in H
              | H : (_ <? 0) = false |- _ => apply Z.ltb_ge in H
              end.
  all: use_replies.
  all: split;
    [ solve [launch_after_directory]
    | split;
      [ intros rcd Hhd Hneg; cbn [hd_error] in Hhd;
        solve [ discriminate Hhd
              | injection Hhd as ->; first [lia | nothing_started] ]
      | intros rcm Hnth Hneg; cbn [nth_error] in Hnth;
        solve [ discriminate Hnth
              | injection Hnth as ->; first [lia | nothing_started]
              | destruct evs; discriminate Hnth ] ] ].
Qed.

(** X23.  A start launches a process only for a guest that is not active,
    and only after the guest's directory has been deleted and created anew,
    both with success; the process is the emulator of the definition,
    pointed at the socket inside that directory.  When the deletion or the
    creation of the directory fails, the start fails without launching a
    process and without sending a request. *)
Theorem process_needs_fresh_directory (env : Env) (driver : virFCDriverConfig)
    (w : World) :
  let m := fcDomainCreateWithFlags env driver in
  let vm := w_vm w in
  let dir := stateDir driver ++ "/" ++ name (def vm) in
  (forall c r pid,
     In (EvCommandRunAsync c r pid) (events_of m w) ->
     virDomainObjIsActive vm = false /\
     cmd_binary c = emulator (def vm) /\
     cmd_args c = ["--api-sock"; dir ++ "/firecracker-lv.socket"] /\
     exists rcd rcm,
       0 <= rcd /\ 0 <= rcm /\
       in_order [EvFileDeleteTree (Some dir) rcd;
                 EvMkdirWithParents (Some dir) 511 rcm;
                 EvCommandRunAsync c r pid] (events_of m w)) /\
  (forall rcd,
     hd_error (events_of m w) = Some (EvFileDeleteTree (Some dir) rcd) ->
     rcd < 0 ->
     fst (m w) = -1 /\ launches (events_of m w) = [] /\
     curl_requests (events_of m w) = []) /\
  (forall rcm,
     nth_error (events_of m w) 1 =
     Some (EvMkdirWithParents (Some dir) 511 rcm) ->
     rcm < 0 ->
     fst (m w) = -1 /\ launches (events_of m w) = [] /\
     curl_requests (events_of m w) = []).
Proof.
  cbv zeta.
  pose proof (fcDomainCreateWithFlags_launch env driver w) as H.
  cbv zeta in H. destruct H as (rc & vm' & evs & E & H).
  rewrite (events_of_run _ _ _ _ _ E), E. exact H.
Qed.

Lemma process_needs_fresh_directory_witness :
  cmd_args d1_command =
  ["--api-sock"; "/var/run/libvirt/fc/d1/firecracker-lv.socket"] /\
  in_order [EvFileDeleteTree (Some "/var/run/libvirt/fc/d1") 0;
            EvMkdirWithParents (Some "/var/run/libvirt/fc/d1") 511 0;
            EvCommandRunAsync d1_command 0 4242]
           (events_of (fcDomainCreateWithFlags env_ok driver_config) w_d1).
Proof.
  destruct (process_needs_fresh_directory env_ok driver_config w_d1)
    as (H & _).
  destruct (H d1_command 0 4242) as (_ & _ & Hargs & _).
  { vm_compute. in_search. }
  split; [exact Hargs|]. vm_compute. in_order_search.
Defined.

Ltac known_guest :=
  repeat match goal with
         | H : same_guest _ _ |- _ =>
             let Hdef := fresh "Hdef" in
             let Hsock := fresh "Hsock" in
             destruct H as (Hdef & _ & _ & _ & _ & Hsock);
             cbn [def state reason persistent privateData vm_dir socketpath]
               in Hdef, Hsock;
             let Hk := fresh "Hk" in
             let Hargs := fresh "Hargs" in
             let Hroot := fresh "Hroot" in
             destruct (same_guest_config _ _ Hdef) as (Hk & Hargs & Hroot & _);
             rewrite ?Hk, ?Hargs, ?Hsock; rewrite Hroot in *
         end.

Lemma fcDomainCreateWithFlags_requests (env : Env) driver (w : World) x :
  let vm := w_vm w in
  let dir := stateDir driver ++ "/" ++ name (def vm) in
  let sock := Some (dir ++ "/firecracker-lv.socket") in
  let h1 := boot_source_handle sock (os_kernel (def vm))
              (fcAddAdditionalCmdlineArgs vm) in
  let h2 := set_disk_handle sock "rootfs" (src_path x) true false in
  let h3 := action_type_handle sock "InstanceStart" in
  getRootFSDiskDevice (def vm) = Some x ->
  exists rc vm' evs,
    fcDomainCreateWithFlags env driver w =
    (rc, mkWorld vm' (w_trace w ++ evs)) /\
    (exists n, curl_requests evs = firstn n [h1; h2; h3]) /\
    ~ In root_disk_missing (reported_errors evs) /\
    (forall r, In (EvCurl h1 r) evs -> rpc_result r = 0 ->
               In h2 (curl_requests evs)).
Proof.
  destruct w as [vm t]. cbv zeta. cbn [w_vm w_trace]. intros Hx.
  start_exec_full.
  all: do 3 eexists; split; [reflexivity|].
  all: known_guest.
  all: try congruence.
  all: repeat match goal with
              | H : Some _ = Some _ |- _ => injection H as H; subst
              | H1 : ?a = Some _, H2 : ?a = Some _ |- _ =>
                  rewrite H1 in H2; injection H2 as H2; subst
              end.
  all: use_replies; rpc_facts.
  all: split;
    [ obs; rewrite_quiet; cbn [app];
      solve [ exists 0%nat; reflexivity | exists 1%nat; reflexivity
            | exists 2%nat; reflexivity | exists 3%nat; reflexivity ]
    | split;
      [ solve [obs; not_root_missing]
      | let Hin := fresh "Hin" in
        let Hr := fresh "Hr" in
        intros r Hin Hr; event_cases Hin;
        solve [ congruence
              | obs; rewrite_quiet; cbn [app In]; auto
              | exfalso; eapply no_curl_event; eassumption ] ] ].
Qed.

(** X24.  A definition the post-parse callback has accepted always finds its
    root disk at start: the root-disk error of the configuration sequence
    is never reported.  The requests of such a start are an initial part of
    the kernel request, the request for the drive [rootfs] with the path of
    the first disk whose target is the root name, and the start action; no
    other disk of the definition is ever sent.  As soon as the kernel
    request has been accepted the drive request is sent. *)
Theorem accepted_definition_start (env_v env : Env)
    (driver : virFCDriverConfig) (w : World) :
  let m := fcDomainCreateWithFlags env driver in
  let vm := w_vm w in
  let dir := stateDir driver ++ "/" ++ name (def vm) in
  let sock := Some (dir ++ "/firecracker-lv.socket") in
  let h1 := boot_source_handle sock (os_kernel (def vm))
              (fcAddAdditionalCmdlineArgs vm) in
  fst (fst (virFCDomainDefPostParseBasic env_v (def vm))) = 0 ->
  exists x,
    getRootFSDiskDevice (def vm) = Some x /\
    (exists n,
       curl_requests (events_of m w) =
       firstn n [h1; set_disk_handle sock "rootfs" (src_path x) true false;
                 action_type_handle sock "InstanceStart"]) /\
    ~ In root_disk_missing (reported_errors (events_of m w)) /\
    (forall r, In (EvCurl h1 r) (events_of m w) -> rpc_result r = 0 ->
               In (set_disk_handle sock "rootfs" (src_path x) true false)
                  (curl_requests (events_of m w))).
Proof.
  cbv zeta. intros Hacc. apply post_parse_accepts in Hacc.
  destruct Hacc as (_ & _ & _ & _ & _ & _ & _ & _ & x & Hx).
  exists x. split; [exact Hx|].
  pose proof (fcDomainCreateWithFlags_requests env driver w x) as H.
  cbv zeta in H. destruct (H Hx) as (rc & vm' & evs & E & H1 & H2 & H3).
  rewrite (events_of_run _ _ _ _ _ E). auto.
Qed.

Lemma accepted_definition_start_witness :
  getRootFSDiskDevice (def (w_vm w_d2)) = Some (mkDisk (Some "/img.ext4") "vda") /\
  ~ In root_disk_missing
      (reported_errors
         (events_of (fcDomainCreateWithFlags (env_answering 400 "") driver_config)
                    w_d2)).
Proof.
  destruct (accepted_definition_start env_ok (env_answering 400 "")
              driver_config w_d2) as (x & Hx & _ & Hno & _).
  { vm_compute. reflexivity. }
  split; [reflexivity | exact Hno].
Defined.

(** ** Whether a guest is active *)

Lemma shutdown_run_inactive (env : Env) (w : World) :
  fst (fcDomainShutdownFlags env w) = 0 ->
  id (def (w_vm (snd (fcDomainShutdownFlags env w)))) = -1 /\
  state (w_vm (snd (fcDomainShutdownFlags env w))) = VIR_DOMAIN_SHUTOFF.
Proof.
  rewrite fcDomainShutdownFlags_run. cbv zeta.
  destruct (status_of_reply env _); cbn [fst]; try discriminate.
  destruct (rpc_result _ <? 0); cbn [fst]; try discriminate.
  destruct (virCommandWait env _ _ <? 0); cbn [fst]; try discriminate.
  intros _. split; reflexivity.
Qed.

Lemma fcDomainIsActive_run (w : World) :
  fcDomainIsActive w = (if virDomainObjIsActive (w_vm w) then 1 else 0, w).
Proof. reflexivity. Qed.

(** X25.  [fcDomainIsActive] answers from the guest's id alone and changes
    nothing.  Its answer follows the lifecycle: it is 0 after every start
    that has failed, after every shutdown and every destroy that has
    succeeded; after a start that has succeeded it is 1 unless the process
    was reported with the pid -1, the value that marks an inactive guest;
    and suspend, resume and the state query leave it as it is. *)
Theorem activity_follows_lifecycle (env : Env) (driver : virFCDriverConfig)
    (w : World) :
  let start := fcDomainCreateWithFlags env driver in
  let active := fun w' => fst (fcDomainIsActive w') in
  snd (fcDomainIsActive w) = w /\
  (fst (start w) = -1 -> active (snd (start w)) = 0) /\
  (fst (start w) = 0 ->
   exists c,
     fc_process (privateData (w_vm (snd (start w)))) = Some c /\
     (active (snd (start w)) = 1 <-> cmd_pid c <> -1)) /\
  (fst (fcDomainShutdownFlags env w) = 0 ->
   active (snd (fcDomainShutdownFlags env w)) = 0) /\
  (fst (fcDomainDestroyFlags env false w) = 0 ->
   active (snd (fcDomainDestroyFlags env false w)) = 0) /\
  active (snd (fcDomainSuspend env w)) = active w /\
  active (snd (fcDomainResume env w)) = active w /\
  active (snd (fcDomainGetState env w)) = active w.
Proof.
  cbv zeta. rewrite !fcDomainIsActive_run. cbn [fst snd].
  split; [reflexivity|].
  split.
  { destruct (fcDomainCreateWithFlags_cleanup env driver w)
      as (rc & vm' & evs & E & _ & Hfail & _).
    rewrite E. cbn [fst snd w_vm]. intros Hrc.
    destruct (Hfail Hrc) as [Hid _].
    unfold virDomainObjIsActive. rewrite Hid. reflexivity. }
  split.
  { pose proof (fcDomainCreateWithFlags_success env driver w) as H.
    cbv zeta in H. destruct H as (rc & vm' & evs & E & H).
    rewrite E. cbn [fst snd w_vm]. intros Hrc.
    destruct (H Hrc) as (_ & _ & _ & _ & _ & _ & c & c0 & r0 & x & rcd & rcm &
                         evs0 & r1 & r2 & r3 & Hfp & Hdef & _).
    exists c. split; [exact Hfp|].
    unfold virDomainObjIsActive. rewrite Hdef. cbn [id with_id].
    destruct (Z.eqb_spec (cmd_pid c) (-1)) as [Hp | Hp]; cbn [negb];
      split; intros H'; try reflexivity; try discriminate; try assumption;
      contradiction. }
  split.
  { intros H0.
    destruct (shutdown_run_inactive env w H0) as [Hid _].
    unfold virDomainObjIsActive. rewrite Hid. reflexivity. }
  split.
  { rewrite fcDomainDestroyFlags_run. cbv zeta.
    destruct (virDomainState_eqb _ _); cbn [fst snd w_vm]; [|discriminate].
    intros _. reflexivity. }
  split.
  { rewrite fcDomainSuspend_run. cbv zeta.
    destruct (status_of_reply env _); try reflexivity.
    destruct (rpc_result _ <? 0); reflexivity. }
  split.
  { rewrite fcDomainResume_run. cbv zeta.
    destruct (status_of_reply env _); try reflexivity.
    destruct (rpc_result _ <? 0); reflexivity. }
  rewrite fcDomainGetState_run. reflexivity.
Qed.

Lemma activity_follows_lifecycle_witness :
  fst (fcDomainIsActive w_d1) = 0 /\
  fst (fcDomainIsActive w_d1_started) = 1 /\
  fst (fcDomainIsActive
         (snd (fcDomainCreateWithFlags (env_answering 400 "") driver_config
                 w_d1))) = 0.
Proof.
  destruct (activity_follows_lifecycle env_ok driver_config w_d1)
    as (_ & _ & H1 & _).
  destruct (activity_follows_lifecycle (env_answering 400 "") driver_config w_d1)
    as (_ & H2 & _).
  split; [reflexivity|].
  split.
  - destruct H1 as (c & Hc & Hiff); [vm_compute; reflexivity|].
    apply Hiff. vm_compute in Hc. injection Hc as <-. vm_compute. discriminate.
  - apply H2. vm_compute. reflexivity.
Defined.

(** ** What a failure leaves behind *)

Lemma fcDomainCreateWithFlags_reports (env : Env) driver (w : World) :
  exists rc vm' evs,
    fcDomainCreateWithFlags env driver w =
    (rc, mkWorld vm' (w_trace w ++ evs)) /\
    (rc = -1 -> reported_errors evs <> []) /\
    (state vm' = state (w_vm w) \/ state vm' = VIR_DOMAIN_RUNNING).
Proof.
  destruct w as [vm t]. cbn [w_vm w_trace].
  start_exec_full.
  all: do 3 eexists; split; [reflexivity|].
  all: repeat match goal with
              | H : same_guest _ _ |- _ =>
                  let Hst := fresh "Hst" in
                  destruct H as (_ & Hst & _); cbn [state] in Hst
              end.
  all: split; [|cbn [state]; solve [left; congruence | right; reflexivity]].
  all: intros Hrc; try discriminate Hrc.
  all: try match goal with
           | Hout : launch_outcome ?rc _ _, Hneg : (?rc <? 0) = true,
             Hrep : ?rc = -1 -> _ |- _ =>
               let Hm := fresh "Hm" in
               assert (Hm : rc = -1)
                 by (destruct Hout as [(? & _) | (? & _)]; subst;
                     [reflexivity | discriminate Hneg]);
               specialize (Hrep Hm)
           end.
  all: obs; intros E.
  all: repeat match type of E with
              | (_ ++ _)%list = [] =>
                  apply app_eq_nil in E; let E1 := fresh "E" in
                                         destruct E as [E1 E]
              end.
  all: first [ discriminate | contradiction ].
Qed.

Ltac reported_nonempty :=
  let E := fresh "E" in
  obs; intros E;
  repeat match type of E with
         | (_ ++ _)%list = [] =>
             apply app_eq_nil in E;
             let E1 := fresh "E" in
             destruct E as [E1 E]
         end;
  first [discriminate | contradiction].

(** X26.  Every entry point that changes the lifecycle answers 0 or -1, and
    a -1 never comes without an error: start, shutdown, destroy, suspend,
    resume and undefine have each reported at least one error when they
    fail. *)
Theorem every_failure_is_reported (env : Env) (driver : virFCDriverConfig)
    (w : World) (graceful : bool) :
  let failing := fun (m : M Z) =>
    (fst (m w) = 0 \/ fst (m w) = -1) /\
    (fst (m w) = -1 -> reported_errors (events_of m w) <> []) in
  failing (fcDomainCreateWithFlags env driver) /\
  failing (fcDomainShutdownFlags env) /\
  failing (fcDomainDestroyFlags env graceful) /\
  failing (fcDomainSuspend env) /\
  failing (fcDomainResume env) /\
  failing fcDomainUndefineFlags.
Proof.
  cbv zeta.
  assert (Hshut :
    (fst (fcDomainShutdownFlags env w) = 0 \/
     fst (fcDomainShutdownFlags env w) = -1) /\
    (fst (fcDomainShutdownFlags env w) = -1 ->
     reported_errors (events_of (fcDomainShutdownFlags env) w) <> [])).
  { pose proof (fcDomainShutdownFlags_run env w) as E. cbv zeta in E.
    set (r0 := curl_easy_perform env (w_trace w) _) in *.
    set (r1 := curl_easy_perform env _ (action_type_handle _ _)) in *.
    set (rcw := virCommandWait env _ _) in *.
    set (rcr := g_remove env _ _) in *.
    clearbody r0 r1 rcw rcr.
    destruct (status_of_reply env r0);
      [ | destruct (rpc_result r1 <? 0);
          [ | destruct (rcw <? 0) ] | | ];
      rewrite <- ?app_assoc in E; cbn [app] in E;
      rewrite (events_of_run _ _ _ _ _ E), E; cbn [fst];
      (split; [auto|]); intros Hrc; try discriminate Hrc;
      reported_nonempty. }
  split.
  { destruct (fcDomainCreateWithFlags_cleanup env driver w)
      as (rc & vm' & evs & E & Hrc & _).
    destruct (fcDomainCreateWithFlags_reports env driver w)
      as (rc2 & vm2 & evs2 & E2 & Hrep & _).
    destruct (run_unique _ _ _ _ _ _ _ _ E E2) as (<- & <- & <-).
    rewrite (events_of_run _ _ _ _ _ E), E. cbn [fst]. auto. }
  split; [exact Hshut|].
  split.
  { destruct graceful; [exact Hshut|].
    pose proof (fcDomainDestroyFlags_run env w) as E. cbv zeta in E.
    destruct (virDomainState_eqb _ _);
      rewrite (events_of_run _ _ _ _ _ E), E; cbn [fst];
      (split; [auto|]); intros Hrc; try discriminate Hrc; discriminate. }
  split.
  { pose proof (fcDomainSuspend_run env w) as E. cbv zeta in E.
    destruct (status_of_reply env _); try destruct (rpc_result _ <? 0);
      rewrite <- ?app_assoc in E; cbn [app] in E;
      rewrite (events_of_run _ _ _ _ _ E), E; cbn [fst];
      (split; [auto|]); intros Hrc; try discriminate Hrc;
      reported_nonempty. }
  split.
  { pose proof (fcDomainResume_run env w) as E. cbv zeta in E.
    destruct (status_of_reply env _); try destruct (rpc_result _ <? 0);
      rewrite <- ?app_assoc in E; cbn [app] in E;
      rewrite (events_of_run _ _ _ _ _ E), E; cbn [fst];
      (split; [auto|]); intros Hrc; try discriminate Hrc;
      reported_nonempty. }
  pose proof (fcDomainUndefineFlags_run w) as E. cbv zeta in E.
  destruct (negb (persistent (w_vm w))).
  - rewrite (events_of_run _ _ _ _ _ E), E. cbn [fst].
    split; [auto|]. intros _. discriminate.
  - destruct (virDomainObjIsActive (w_vm w)); rewrite E; cbn [fst];
      (split; [auto|]); intros Hrc; discriminate Hrc.
Qed.

Lemma every_failure_is_reported_witness :
  fst (fcDomainCreateWithFlags env_unreachable driver_config w_d1) = -1 /\
  reported_errors
    (events_of (fcDomainCreateWithFlags env_unreachable driver_config) w_d1)
  <> [].
Proof.
  destruct (every_failure_is_reported env_unreachable driver_config w_d1 false)
    as ((_ & H) & _).
  assert (H0 : fst (fcDomainCreateWithFlags env_unreachable driver_config w_d1)
               = -1) by (vm_compute; reflexivity).
  split; [exact H0 | exact (H H0)].
Defined.

(** X27.  The cached state NOSTATE comes from a failed refresh and from
    nothing else.  After suspend, resume and shutdown the cached state is
    NOSTATE exactly when their refresh has failed; start, destroy without
    the graceful flag and undefine never turn another cached state into
    NOSTATE; and the state query never leaves NOSTATE behind. *)
Theorem nostate_only_after_failed_refresh (env : Env)
    (driver : virFCDriverConfig) (w : World) :
  let after := fun (m : M Z) => state (w_vm (snd (m w))) in
  (after (fcDomainSuspend env) = VIR_DOMAIN_NOSTATE <->
   refreshed env w = VIR_DOMAIN_NOSTATE) /\
  (after (fcDomainResume env) = VIR_DOMAIN_NOSTATE <->
   refreshed env w = VIR_DOMAIN_NOSTATE) /\
  (after (fcDomainShutdownFlags env) = VIR_DOMAIN_NOSTATE <->
   refreshed env w = VIR_DOMAIN_NOSTATE) /\
  (state (w_vm w) <> VIR_DOMAIN_NOSTATE ->
   after (fcDomainCreateWithFlags env driver) <> VIR_DOMAIN_NOSTATE /\
   after (fcDomainDestroyFlags env false) <> VIR_DOMAIN_NOSTATE /\
   after fcDomainUndefineFlags <> VIR_DOMAIN_NOSTATE) /\
  state (w_vm (snd (fcDomainGetState env w))) <> VIR_DOMAIN_NOSTATE.
Proof.
  cbv zeta. rewrite refreshed_run.
  split.
  { rewrite fcDomainSuspend_run. cbv zeta.
    destruct (status_of_reply env _); try destruct (rpc_result _ <? 0);
      cbn [snd w_vm state]; split; congruence. }
  split.
  { rewrite fcDomainResume_run. cbv zeta.
    destruct (status_of_reply env _); try destruct (rpc_result _ <? 0);
      cbn [snd w_vm state]; split; congruence. }
  split.
  { rewrite fcDomainShutdownFlags_run. cbv zeta.
    destruct (status_of_reply env _);
      try (destruct (rpc_result _ <? 0);
           [|destruct (virCommandWait env _ _ <? 0)]);
      cbn [snd w_vm state]; split; congruence. }
  split.
  { intros Hs. split; [|split].
    - destruct (fcDomainCreateWithFlags_reports env driver w)
        as (rc & vm' & evs & E & _ & [Hst | Hst]);
        rewrite E; cbn [snd w_vm]; congruence.
    - rewrite fcDomainDestroyFlags_run. cbv zeta.
      destruct (virDomainState_eqb _ _); cbn [snd w_vm state];
        [discriminate | exact Hs].
    - rewrite fcDomainUndefineFlags_run. cbv zeta.
      destruct (negb _); [exact Hs|].
      destruct (virDomainObjIsActive _); exact Hs. }
  rewrite fcDomainGetState_run. cbv zeta. cbn [snd w_vm state].
  destruct (status_of_reply env _); cbn; discriminate.
Qed.

Lemma nostate_only_after_failed_refresh_witness :
  state (w_vm (snd (fcDomainSuspend env_unreachable w_d1_started))) =
  VIR_DOMAIN_NOSTATE /\
  state (w_vm (snd (fcDomainCreateWithFlags env_unreachable driver_config w_d1)))
  <> VIR_DOMAIN_NOSTATE.
Proof.
  destruct (nostate_only_after_failed_refresh env_unreachable driver_config
              w_d1_started) as ((_ & H1) & _).
  destruct (nostate_only_after_failed_refresh env_unreachable driver_config w_d1)
    as (_ & _ & _ & H2 & _).
  split; [apply H1; vm_compute; reflexivity|].
  apply H2. discriminate.
Defined.
